(** * Renfincal: recurring-entry materialisation and balance aggregation

    A shallow embedding of the computational core of [src/src/App.js]:
    the recurring-transaction materialiser, the dashboard aggregations
    (balances, savings, liabilities, net worth, budget variance) and its
    month navigation, the history list and purge, the budget page, the
    entry form, the CSV import dialog and the analysis page with its CSV
    export.

    Modelling conventions.
    - A JavaScript [Date] is its time value: milliseconds since the epoch,
      an integer.  The methods the program calls on it are functions on
      that integer; those that read or write local fields ([getMonth],
      [setMonth], [setFullYear], [setHours], [new Date(y, m, d)]) take the
      time zone of the host as an explicit argument, those that work in
      UTC ([new Date("YYYY-MM-DD")], [toISOString]) do not.  Time values
      outside the range of [Date] and invalid dates are not modelled.
    - A date string ["YYYY-MM-DD"] is a record of its three numbers;
      where the program compares date strings ([where("date", "<", ...)])
      the records are compared through the strings they stand for.
    - A number is an IEEE 754 double, [NaN] and the infinities included:
      Rocq's primitive [float], whose operations compute what the host's
      do.  Sums are taken in the order the program takes them.
    - A plain object ([{}], the data of a budget document) is a finite
      map holding its own properties; a read falls back on the names
      every object inherits from [Object.prototype].
    - Firestore collections are lists of documents; a write batch is the
      list of operations queued on it, applied all at once by [commit].
      A single write ([addDoc], [setDoc]) is accepted or rejected; the
      handlers take that outcome as an argument.
    - A document a form builds is a finite map from property names to
      values. *)

From stdpp Require Import gmap strings list fin_maps.
From Stdlib Require Import ZArith Lia Bool.
From Stdlib Require Import Ascii String.
From Stdlib Require Import Sorted.
From Stdlib Require Uint63.
From Stdlib Require Import PrimFloat.
From Stdlib Require SpecFloat FloatOps FloatAxioms.

Open Scope string_scope.
Open Scope list_scope.
Open Scope Z_scope.

(* ===================================================================== *)
(** * Part I: definitions                                                 *)
(* ===================================================================== *)

(** ** The [Date] object *)

Module JSDate.

Definition msPerHour : Z := 3600000.
Definition msPerDay : Z := 86400000.

Definition Day (t : Z) : Z := t / msPerDay.
Definition TimeWithinDay (t : Z) : Z := t mod msPerDay.

(** Day number (days since 1970-01-01) of a proleptic Gregorian date;
    [m] ranges over 1..12, [d] is used linearly. *)
Definition days_from_civil (y m d : Z) : Z :=
  let y' := if m <=? 2 then y - 1 else y in
  let era := y' / 400 in
  let yoe := y' - era * 400 in
  let mp := if 2 <? m then m - 3 else m + 9 in
  let doy := (153 * mp + 2) / 5 + d - 1 in
  let doe := yoe * 365 + yoe / 4 - yoe / 100 + doy in
  era * 146097 + doe - 719468.

(** Year, month (1..12) and day of month of a day number. *)
Definition civil_from_days (z : Z) : Z * Z * Z :=
  let z' := z + 719468 in
  let era := z' / 146097 in
  let doe := z' - era * 146097 in
  let yoe := (doe - doe / 1460 + doe / 36524 - doe / 146096) / 365 in
  let doy := doe - (365 * yoe + yoe / 4 - yoe / 100) in
  let mp := (5 * doy + 2) / 153 in
  let d := doy - (153 * mp + 2) / 5 + 1 in
  let m := if mp <? 10 then mp + 3 else mp - 9 in
  (if m <=? 2 then yoe + era * 400 + 1 else yoe + era * 400, m, d).

Definition YearFromTime (t : Z) : Z := (civil_from_days (Day t)).1.1.
(** Months are numbered from 0, as [getMonth] returns them. *)
Definition MonthFromTime (t : Z) : Z := (civil_from_days (Day t)).1.2 - 1.
Definition DateFromTime (t : Z) : Z := (civil_from_days (Day t)).2.

(** [MakeDay year month date]: [month] counts from 0 and may overflow
    into the neighbouring years; [date] may overflow into the
    neighbouring months. *)
Definition MakeDay (year month date : Z) : Z :=
  days_from_civil (year + month / 12) (month mod 12 + 1) 1 + date - 1.

Definition MakeDate (day time : Z) : Z := day * msPerDay + time.

(** The host's time zone: the offset in force at a UTC instant, and the
    offset used to interpret a local wall-clock reading. *)
Record TimeZone : Type := {
  offsetAtUTC : Z -> Z;
  offsetAtLocal : Z -> Z
}.

Section Methods.
Variable tz : TimeZone.

Definition LocalTime (t : Z) : Z := t + offsetAtUTC tz t.
Definition UTC (t : Z) : Z := t - offsetAtLocal tz t.

Definition getFullYear (t : Z) : Z := YearFromTime (LocalTime t).
Definition getMonth (t : Z) : Z := MonthFromTime (LocalTime t).
Definition getDate (t : Z) : Z := DateFromTime (LocalTime t).

(** [d.setMonth(month)] *)
Definition setMonth (t month : Z) : Z :=
  let lt := LocalTime t in
  UTC (MakeDate (MakeDay (YearFromTime lt) month (DateFromTime lt))
                (TimeWithinDay lt)).

(** [d.setFullYear(year)] *)
Definition setFullYear (t year : Z) : Z :=
  let lt := LocalTime t in
  UTC (MakeDate (MakeDay year (MonthFromTime lt) (DateFromTime lt))
                (TimeWithinDay lt)).

(** [d.setHours(0, 0, 0, 0)] *)
Definition setHours0 (t : Z) : Z :=
  UTC (MakeDate (Day (LocalTime t)) 0).

(** [new Date(year, month, date)] *)
Definition newDate (year month date : Z) : Z :=
  UTC (MakeDate (MakeDay year month date) 0).
End Methods.

(** The date part of an ISO string, ["YYYY-MM-DD"]. *)
Record ISODate : Type := {
  isoYear : Z;
  isoMonth : Z;
  isoDay : Z
}.

(** The decimal digit [d]. *)
Definition digitChar (d : Z) : ascii := ascii_of_N (Z.to_N (48 + d)).

(** The last [width] decimal digits of [n], the most significant one
    first. *)
Fixpoint decimal (width : nat) (n : Z) : string :=
  match width with
  | O => EmptyString
  | S w =>
      (decimal w (n / 10)
       ++ String (digitChar (n mod 10)) EmptyString)%string
  end.

(** The year of a date string: four digits, and all its digits when it
    has more, as a date input writes it (the largest year of a [Date]
    is 275760).  The signed six-digit form [toISOString] gives years
    outside 0..9999 is not modelled. *)
Definition yearString (y : Z) : string :=
  if y <? 10000 then decimal 4 y
  else if y <? 100000 then decimal 5 y
  else decimal 6 y.

(** The string ["YYYY-MM-DD"] the record stands for. *)
Definition isoString (d : ISODate) : string :=
  (yearString (isoYear d) ++ "-" ++ decimal 2 (isoMonth d) ++ "-"
   ++ decimal 2 (isoDay d))%string.

(** [a < b] on date strings, as Firestore's [where("date", "<", b)]
    orders them: by their characters. *)
Definition ISODate_ltb (a b : ISODate) : bool :=
  String.ltb (isoString a) (isoString b).

Definition isLeapYear (y : Z) : bool :=
  (y mod 4 =? 0) && (negb (y mod 100 =? 0) || (y mod 400 =? 0)).

Definition daysInMonth (y m : Z) : Z :=
  if m =? 2 then (if isLeapYear y then 29 else 28)
  else if (m =? 4) || (m =? 6) || (m =? 9) || (m =? 11) then 30
  else 31.

Definition validCivil (y m d : Z) : bool :=
  (1 <=? m) && (m <=? 12) && (1 <=? d) && (d <=? daysInMonth y m).

(** The strings a date input or [toISOString] produces. *)
Definition validISODate (d : ISODate) : bool :=
  validCivil (isoYear d) (isoMonth d) (isoDay d).

(** [new Date("YYYY-MM-DD")]: a date-only string is read as UTC
    midnight. *)
Definition parseISODate (d : ISODate) : Z :=
  MakeDate (days_from_civil (isoYear d) (isoMonth d) (isoDay d)) 0.

(** [d.toISOString().split('T')[0]]: the UTC calendar date. *)
Definition toISODate (t : Z) : ISODate :=
  let '(y, m, d) := civil_from_days (Day t) in
  {| isoYear := y; isoMonth := m; isoDay := d |}.

(** *** Time zones *)

Definition fixedZone (offset : Z) : TimeZone :=
  {| offsetAtUTC := fun _ => offset; offsetAtLocal := fun _ => offset |}.

Definition utcZone : TimeZone := fixedZone 0.

(** Day number of the last Sunday on or before day 31 of month [m]
    (1970-01-01 was a Thursday). *)
Definition lastSunday (y m : Z) : Z :=
  let d := days_from_civil y m 31 in
  d - (d + 4) mod 7.

(** Central European time under the rule in force since 1996: UTC+1,
    and UTC+2 from 01:00 UTC on the last Sunday of March to 01:00 UTC on
    the last Sunday of October.  A wall-clock reading that is skipped or
    repeated is read with the offset before the transition. *)
Definition europeBerlin : TimeZone :=
  {| offsetAtUTC := fun t =>
       let y := YearFromTime t in
       let s := MakeDate (lastSunday y 3) msPerHour in
       let e := MakeDate (lastSunday y 10) msPerHour in
       if (s <=? t) && (t <? e) then 2 * msPerHour else msPerHour;
     offsetAtLocal := fun t =>
       let y := YearFromTime t in
       let s := MakeDate (lastSunday y 3) (3 * msPerHour) in
       let e := MakeDate (lastSunday y 10) (3 * msPerHour) in
       if (s <=? t) && (t <? e) then 2 * msPerHour else msPerHour |}.

(** Offsets of at most a day either way; those of the zones in use lie
    between -12h and +14h. *)
Definition boundedZone (tz : TimeZone) : Prop :=
  forall t, - msPerDay <= offsetAtUTC tz t <= msPerDay
            /\ - msPerDay <= offsetAtLocal tz t <= msPerDay.

(** *** Bounded checks

    The Gregorian calendar repeats every 400 years (146097 days); the
    calendar lemmas below are checked on one such era and carried over
    to every other one. *)

Fixpoint allFrom (n : nat) (z : Z) (p : Z -> bool) : bool :=
  match n with
  | O => true
  | S k => p z && allFrom k (z + 1) p
  end.

Definition checkDay (doe : Z) : bool :=
  let '(y, m, d) := civil_from_days (doe - 719468) in
  (days_from_civil y m d =? doe - 719468) && validCivil y m d.

Definition checkDate (i : Z) : bool :=
  let y := i / 372 in
  let m := (i mod 372) / 31 + 1 in
  let d := i mod 31 + 1 in
  if validCivil y m d then
    let '(y', m', d') := civil_from_days (days_from_civil y m d) in
    (y' =? y) && (m' =? m) && (d' =? d)
  else true.

Definition checkMonth (i : Z) : bool :=
  let y := i / 12 in
  let m := i mod 12 + 1 in
  (MakeDay y m 1 =? days_from_civil y m 1 + daysInMonth y m)
  && (days_from_civil y m 1 + 365 <=? days_from_civil (y + 1) m 1).

End JSDate.

Import JSDate.

(** ** Numbers *)

(** Truthiness of a number: [0], [-0] and [NaN] are falsy. *)
Definition truthyNumber (x : float) : bool :=
  negb (PrimFloat.eqb x 0) && negb (is_nan x).

(** [x || 0] for a number [x]. *)
Definition orZero (x : float) : float :=
  if truthyNumber x then x else 0%float.

(** ** Plain objects *)

(** The property names every plain object inherits from
    [Object.prototype]. *)
Definition objectPrototypeKeys : list string :=
  ["constructor"; "__defineGetter__"; "__defineSetter__"; "hasOwnProperty";
   "__lookupGetter__"; "__lookupSetter__"; "isPrototypeOf";
   "propertyIsEnumerable"; "toString"; "valueOf"; "__proto__";
   "toLocaleString"].

Definition inherited (k : string) : bool :=
  existsb (String.eqb k) objectPrototypeKeys.

(** What a property of the object [expensesByCategory] holds: a number,
    or the text that [+] makes of an inherited property and a number. *)
Inductive Cell : Type :=
  | CNumber (x : float)
  | CText.

(** What a read [o[k]] yields: an own number or text, an inherited
    function or object, or [undefined]. *)
Inductive Read : Type :=
  | RNumber (x : float)
  | RText
  | RInherited
  | RUndefined.

Definition readCell (o : gmap string Cell) (k : string) : Read :=
  match o !! k with
  | Some (CNumber x) => RNumber x
  | Some CText => RText
  | None => if inherited k then RInherited else RUndefined
  end.

(** A read of an object whose own properties are numbers. *)
Definition readNumber (o : gmap string float) (k : string) : Read :=
  match o !! k with
  | Some x => RNumber x
  | None => if inherited k then RInherited else RUndefined
  end.

(** [o[k] = c]: an own property, except that assigning a string to
    [__proto__] does nothing. *)
Definition writeCell (o : gmap string Cell) (k : string) (c : Cell)
    : gmap string Cell :=
  if String.eqb k "__proto__" then o else <[k := c]> o.

(** [Object.keys]: the own property names; their order is not
    modelled. *)
Definition keys {A} (o : gmap string A) : list string := (map_to_list o).*1.

(** ** Documents *)

(** The fields of a transaction or income document other than its date;
    a recurring template carries them as [details].  Which of the optional
    fields is present depends on [type]. *)
Record Details : Type := {
  type : string;
  amount : float;
  currency : string;
  category : option string;
  payer : option string;
  saver : option string;
  source : option string;
  liabilityId : option string;
  description : string
}.

(** A document of the [transactions] or [incomes] collection. *)
Record Entry : Type := {
  date : ISODate;
  fields :> Details
}.

(** A document of the [recurring] collection. *)
Record RecurringItem : Type := {
  id : string;
  itemType : string;
  frequency : string;
  startDate : ISODate;
  lastProcessed : option ISODate;
  details : Details
}.

Record Liability : Type := {
  liabId : string;
  name : string;
  totalAmount : float;
  liabCurrency : string
}.

Record Asset : Type := {
  assetName : string;
  value : float;
  assetCurrency : string
}.

(** What the listeners hold of the store. *)
Record Store : Type := {
  transactionsColl : list Entry;
  incomesColl : list Entry;
  recurringColl : list RecurringItem
}.

(** ** Write batches *)

Inductive WriteOp : Type :=
| BatchSet (collectionName : string) (newEntry : Entry)
| BatchUpdate (itemId : string) (newLastProcessed : ISODate).

Definition WriteBatch : Type := list WriteOp.

Inductive CommitOutcome : Type := Committed | Rejected.

(** [batch.update(recurringDocRef, { lastProcessed: ... })] on the
    document with that id. *)
Definition setLastProcessed (itemId : string) (d : ISODate)
    (item : RecurringItem) : RecurringItem :=
  if String.eqb (id item) itemId then
    {| id := id item; itemType := itemType item;
       frequency := frequency item; startDate := startDate item;
       lastProcessed := Some d; details := details item |}
  else item.

(** One write: a new document in [incomes] or [transactions], or a new
    cursor on a template. *)
Definition applyOp (st : Store) (op : WriteOp) : Store :=
  match op with
  | BatchSet collectionName newEntry =>
      if String.eqb collectionName "incomes" then
        {| transactionsColl := transactionsColl st;
           incomesColl := incomesColl st ++ [newEntry];
           recurringColl := recurringColl st |}
      else
        {| transactionsColl := transactionsColl st ++ [newEntry];
           incomesColl := incomesColl st;
           recurringColl := recurringColl st |}
  | BatchUpdate itemId d =>
      {| transactionsColl := transactionsColl st;
         incomesColl := incomesColl st;
         recurringColl :=
           List.map (setLastProcessed itemId d) (recurringColl st) |}
  end.

(** [batch.commit()]: by the contract of Firestore's [writeBatch] the
    store applies every queued write, in order, or none of them. *)
Definition commit (outcome : CommitOutcome) (batch : WriteBatch)
    (st : Store) : Store :=
  match outcome with
  | Committed => fold_left applyOp batch st
  | Rejected => st
  end.

(** ** The recurring materialiser *)

Section Materializer.
Variable tz : TimeZone.

(** The branch on [item.frequency] at the head of the loop body. *)
Definition advance (freq : string) (nextDueDate : Z) : Z :=
  if String.eqb freq "monthly" then
    setMonth tz nextDueDate (getMonth tz nextDueDate + 1)
  else if String.eqb freq "yearly" then
    setFullYear tz nextDueDate (getFullYear tz nextDueDate + 1)
  else nextDueDate.

(** The two writes queued for one due date. *)
Definition materialize (item : RecurringItem) (nextDueDate : Z) : WriteBatch :=
  let collectionName :=
    if String.eqb (itemType item) "income" then "incomes"
    else "transactions" in
  let newEntry :=
    {| date := toISODate nextDueDate; fields := details item |} in
  [BatchSet collectionName newEntry;
   BatchUpdate (id item) (toISODate nextDueDate)].

(** [while (nextDueDate < today) { ... }].  [None]: the loop has not
    left after [fuel] iterations. *)
Fixpoint catchUp (fuel : nat) (today : Z) (item : RecurringItem)
    (nextDueDate : Z) (batch : WriteBatch) : option WriteBatch :=
  match fuel with
  | O => None
  | S fuel' =>
      if nextDueDate <? today then
        let nextDueDate' := advance (frequency item) nextDueDate in
        if nextDueDate' <? today then
          catchUp fuel' today item nextDueDate'
                  (batch ++ materialize item nextDueDate')
        else catchUp fuel' today item nextDueDate' batch
      else Some batch
  end.

(** [item.lastProcessed ? new Date(item.lastProcessed)
                        : new Date(item.startDate)] *)
Definition initialCursor (item : RecurringItem) : Z :=
  match lastProcessed item with
  | Some d => parseISODate d
  | None => parseISODate (startDate item)
  end.

(** [for (const item of recurringItems) { ... }] *)
Fixpoint forEachItem (fuel : nat) (today : Z)
    (recurringItems : list RecurringItem) (batch : WriteBatch)
    : option WriteBatch :=
  match recurringItems with
  | [] => Some batch
  | item :: rest =>
      match catchUp fuel today item (initialCursor item) batch with
      | Some batch' => forEachItem fuel today rest batch'
      | None => None
      end
  end.

(** The batch handed to [commit]; [now] is the time value of
    [new Date()]. *)
Definition processRecurringTransactions (fuel : nat) (now : Z)
    (recurringItems : list RecurringItem) : option WriteBatch :=
  let today := setHours0 tz now in
  forEachItem fuel today recurringItems [].

(** One run against the store: the [recurring] listener hands the
    collection to [processRecurringTransactions], whose batch is then
    committed. *)
Definition runMaterializer (fuel : nat) (now : Z) (outcome : CommitOutcome)
    (st : Store) : option Store :=
  match processRecurringTransactions fuel now (recurringColl st) with
  | Some batch => Some (commit outcome batch st)
  | None => None
  end.

End Materializer.

(** ** The dashboard aggregations *)

Record Balances : Type := {
  opening : float;
  cashFlow : float;
  closing : float
}.

Record Savings : Type := {
  eur : float;
  inr : float
}.

(** [{ ...liability, paid: payments, balance }] *)
Record LiabilityDetail : Type := {
  liability :> Liability;
  paid : float;
  balance : float
}.

(** One line of "Monthly Expenses vs Budget". *)
Record BudgetLine : Type := {
  lineCategory : string;
  budget : float;
  actual : float;
  isOverBudget : bool;
  overBudgetShown : bool
}.

(** [items.reduce((sum, t) => sum + t.amount, 0)] *)
Definition sumAmount (items : list Entry) : float :=
  fold_left (fun sum (t : Entry) => (sum + amount t)%float) items 0%float.

(** [['expense', 'savings', 'liabilityPayment'].includes(t.type)] *)
Definition isOutflow (t : Entry) : bool :=
  existsb (String.eqb (type t)) ["expense"; "savings"; "liabilityPayment"].

Definition isSavingsWithdrawal (t : Entry) : bool :=
  String.eqb (type t) "savingsWithdrawal".

(** [field === s] for a field that may be absent. *)
Definition fieldIs (field : option string) (s : string) : bool :=
  match field with
  | Some v => String.eqb v s
  | None => false
  end.

(** The property name a category is stored under: an absent category
    becomes the key ["undefined"]. *)
Definition categoryKey (t : Entry) : string :=
  match category t with
  | Some c => c
  | None => "undefined"
  end.

Section Dashboard.
Variable tz : TimeZone.
Variables transactions incomes : list Entry.
Variable liabilities : list Liability.
Variable assets : list Asset.
Variable budgets : gmap string float.
Variables selectedYear selectedMonth : Z.
Variable rateINR : float.

Definition startOfSelectedMonth : Z := newDate tz selectedYear selectedMonth 1.

Definition filterByCurrency (cur : string) (item : Entry) : bool :=
  String.eqb (currency item) cur.

Definition filterByDate (item : Entry) : bool :=
  parseISODate (date item) <? startOfSelectedMonth.

Definition filterByMonth (item : Entry) : bool :=
  (getMonth tz (parseISODate (date item)) =? selectedMonth)
  && (getFullYear tz (parseISODate (date item)) =? selectedYear).

Definition calculateBalances (cur : string) : Balances :=
  let prevIncomes :=
    sumAmount (List.filter filterByDate
                 (List.filter (filterByCurrency cur) incomes)) in
  let prevTransactions :=
    List.filter filterByDate
      (List.filter (filterByCurrency cur) transactions) in
  let opening :=
    (prevIncomes - sumAmount (List.filter isOutflow prevTransactions)
     + sumAmount (List.filter isSavingsWithdrawal prevTransactions))%float in
  let monthlyIncomesTotal :=
    sumAmount (List.filter filterByMonth
                 (List.filter (filterByCurrency cur) incomes)) in
  let monthlyTransactionsFiltered :=
    List.filter filterByMonth
      (List.filter (filterByCurrency cur) transactions) in
  let cashFlow :=
    (monthlyIncomesTotal
     - sumAmount (List.filter isOutflow monthlyTransactionsFiltered)
     + sumAmount (List.filter isSavingsWithdrawal
                    monthlyTransactionsFiltered))%float in
  {| opening := opening; cashFlow := cashFlow;
     closing := (opening + cashFlow)%float |}.

Definition eurBalances : Balances := calculateBalances "EUR".
Definition inrBalances : Balances := calculateBalances "INR".

Definition calculateByCurrency (personTransactions : list Entry)
    (cur : string) : float :=
  let deposits :=
    sumAmount
      (List.filter
         (fun t : Entry => (String.eqb (type t) "savings"
                    || String.eqb (type t) "openingBalance")
                   && String.eqb (currency t) cur)
         personTransactions) in
  let withdrawals :=
    sumAmount
      (List.filter
         (fun t : Entry => String.eqb (type t) "savingsWithdrawal"
                   && String.eqb (currency t) cur)
         personTransactions) in
  (deposits - withdrawals)%float.

Definition calculateDetailedSavings (person : string) : Savings :=
  let personTransactions :=
    List.filter (fun t : Entry => fieldIs (saver t) person) transactions in
  {| eur := calculateByCurrency personTransactions "EUR";
     inr := calculateByCurrency personTransactions "INR" |}.

Definition husbandSavings : Savings := calculateDetailedSavings "Husband".
Definition wifeSavings : Savings := calculateDetailedSavings "Wife".

(** The payments counted against a liability. *)
Definition paymentsOf (l : Liability) : list Entry :=
  List.filter
    (fun t : Entry => String.eqb (type t) "liabilityPayment"
              && fieldIs (liabilityId t) (liabId l))
    transactions.

Definition liabilityDetails : list LiabilityDetail :=
  List.map
    (fun l =>
       let payments := sumAmount (paymentsOf l) in
       {| liability := l; paid := payments;
          balance := (totalAmount l - payments)%float |})
    liabilities.

Definition totalAssets (cur : string) : float :=
  fold_left (fun sum a => (sum + value a)%float)
    (List.filter (fun a => String.eqb (assetCurrency a) cur) assets) 0%float.

Definition totalLiabilities (cur : string) : float :=
  fold_left (fun sum l => (sum + balance l)%float)
    (List.filter (fun l : LiabilityDetail => String.eqb (liabCurrency l) cur)
       liabilityDetails) 0%float.

Definition totalAssetsEUR : float := totalAssets "EUR".
Definition totalAssetsINR : float := totalAssets "INR".
Definition totalSavingsEUR : float :=
  (eur husbandSavings + eur wifeSavings)%float.
Definition totalSavingsINR : float :=
  (inr husbandSavings + inr wifeSavings)%float.
Definition totalLiabilitiesEUR : float := totalLiabilities "EUR".
Definition totalLiabilitiesINR : float := totalLiabilities "INR".

Definition netWorthEUR : float :=
  (totalAssetsEUR + totalSavingsEUR - totalLiabilitiesEUR)%float.

Definition netWorthINR : float :=
  (totalAssetsINR + totalSavingsINR - totalLiabilitiesINR)%float.

(** ** Budget variance *)

Definition toEUR (amt : float) (cur : string) : float :=
  if String.eqb cur "INR" then (amt / rateINR)%float else amt.

Definition monthlyTransactions : list Entry :=
  List.filter filterByMonth transactions.

Definition monthlyExpenses : list Entry :=
  List.filter (fun t : Entry => String.eqb (type t) "expense")
    monthlyTransactions.

(** [acc[t.category] = (acc[t.category] || 0) + toEUR(...)].  An own
    number is added to, an absent own property starts from 0; where the
    read finds an inherited property or a text, [+] joins texts. *)
Definition addExpense (acc : gmap string Cell) (t : Entry)
    : gmap string Cell :=
  let amt := toEUR (amount t) (currency t) in
  writeCell acc (categoryKey t)
    match readCell acc (categoryKey t) with
    | RNumber x => CNumber (orZero x + amt)%float
    | RUndefined => CNumber (0 + amt)%float
    | RText | RInherited => CText
    end.

(** The reduction of the month's expenses, from the empty object. *)
Definition expensesByCategory : gmap string Cell :=
  fold_left addExpense monthlyExpenses ∅.

(** [[...new Set([...Object.keys(budgets),
                  ...Object.keys(expensesByCategory)])]]; the order of the
    names on the page is not modelled. *)
Definition allCategoryNames : list string :=
  remove_dups (keys budgets ++ keys expensesByCategory).

(** [budgets[category] || 0]; an inherited property compares as [NaN]
    does. *)
Definition budgetOf (cat : string) : float :=
  match readNumber budgets cat with
  | RNumber x => orZero x
  | RUndefined => 0%float
  | RText | RInherited => nan
  end.

(** [expensesByCategory[category] || 0], when it is a number. *)
Definition actualOf (cat : string) : option float :=
  match readCell expensesByCategory cat with
  | RNumber x => Some (orZero x)
  | RUndefined => Some 0%float
  | RText | RInherited => None
  end.

(** One line of the list; [None] when [actual] is no number, where
    [actual.toFixed(2)] throws. *)
Definition budgetLine (cat : string) : option BudgetLine :=
  match actualOf cat with
  | Some actual =>
      let budget := budgetOf cat in
      let isOverBudget := (budget <? actual)%float in
      Some {| lineCategory := cat; budget := budget; actual := actual;
              isOverBudget := isOverBudget;
              overBudgetShown := isOverBudget && (0 <? budget)%float |}
  | None => None
  end.

(** The lines of the page; [None] when rendering one of them throws. *)
Definition budgetLines : option (list BudgetLine) :=
  mapM budgetLine allCategoryNames.

End Dashboard.

(** ** The history purge *)

Section History.
Variable tz : TimeZone.

(** [threeYearsAgo.toISOString().split('T')[0]] after
    [threeYearsAgo.setFullYear(threeYearsAgo.getFullYear() - 3)]. *)
Definition cutoffDate (now : Z) : ISODate :=
  toISODate (setFullYear tz now (getFullYear tz now - 3)).

(** [where("date", "<", cutoffDate)] *)
Definition olderThan (cutoff : ISODate) (e : Entry) : bool :=
  ISODate_ltb (date e) cutoff.

(** One round of the loop over the two collections: the documents of the
    snapshot are deleted by reference in one batch.  [None]: the commit
    was rejected and the [await] throws. *)
Definition deleteOld (cutoff : ISODate) (outcome : CommitOutcome)
    (docs : list Entry) : option (list Entry) :=
  let snapshot := List.filter (olderThan cutoff) docs in
  match snapshot with
  | [] => Some docs
  | _ :: _ =>
      match outcome with
      | Committed =>
          Some (List.filter (fun e => negb (olderThan cutoff e)) docs)
      | Rejected => None
      end
  end.

(** [user] is [None] before authentication; [onTransactions] and
    [onIncomes] are the outcomes of the two commits. *)
Definition autoDeleteOldTransactions (user : option string) (now : Z)
    (onTransactions onIncomes : CommitOutcome) (st : Store) : Store :=
  match user with
  | None => st
  | Some _ =>
      let cutoff := cutoffDate now in
      match deleteOld cutoff onTransactions (transactionsColl st) with
      | None => st
      | Some ts =>
          let st1 :=
            {| transactionsColl := ts; incomesColl := incomesColl st;
               recurringColl := recurringColl st |} in
          match deleteOld cutoff onIncomes (incomesColl st) with
          | None => st1
          | Some ins =>
              {| transactionsColl := ts; incomesColl := ins;
                 recurringColl := recurringColl st |}
          end
      end
  end.

End History.

(** ** CSV import *)

(** A parsed line: [row[0]] to [row[3]], each absent when the line is
    too short. *)
Record CsvRow : Type := {
  rowDate : option string;
  rowDescription : option string;
  debit : option string;
  credit : option string
}.

(** Truthiness of a string that may be [undefined]. *)
Definition truthy (field : option string) : bool :=
  match field with
  | Some s => negb (String.eqb s "")
  | None => false
  end.

Definition toRow (row : list string) : CsvRow :=
  {| rowDate := nth_error row 0; rowDescription := nth_error row 1;
     debit := nth_error row 2; credit := nth_error row 3 |}.

(** [row.date && (row.debit || row.credit)] *)
Definition hasData (row : CsvRow) : bool :=
  truthy (rowDate row) && (truthy (debit row) || truthy (credit row)).

(** [results.data.slice(1).map(...).filter(...)] *)
Definition parsedData (data : list (list string)) : list CsvRow :=
  List.filter hasData (List.map toRow (skipn 1 data)).

Section Review.
(** [parseFloat] of the host. *)
Variable parseFloat : string -> float.

(** [current.debit && parseFloat(current.debit) > 0] *)
Definition isDebit (current : CsvRow) : bool :=
  match debit current with
  | Some s => negb (String.eqb s "") && (0 <? parseFloat s)%float
  | None => false
  end.

(** The [type] preselected for the row under review. *)
Definition defaultType (current : CsvRow) : string :=
  if isDebit current then "expense" else "income".

(** [parseFloat(isDebit ? current.debit : current.credit)]; of
    [undefined] it is [NaN]. *)
Definition defaultAmount (current : CsvRow) : float :=
  match (if isDebit current then debit current else credit current) with
  | Some s => parseFloat s
  | None => nan
  end.

End Review.

(** A [parseFloat] for plain decimal numerals: leading blanks, a sign,
    digits, a fraction; what follows the numeral is ignored.  Exponents
    and [Infinity] are not read.  The value is the quotient of two
    integers, which is the double nearest to the numeral as long as
    the digits read stay below 2^53. *)
Definition digitOf (c : ascii) : option Z :=
  let n := Z.of_N (N_of_ascii c) in
  if (48 <=? n) && (n <=? 57) then Some (n - 48) else None.

Fixpoint readDigits (s : string) (acc : Z) (count : nat) : Z * nat * string :=
  match s with
  | String c rest =>
      match digitOf c with
      | Some v => readDigits rest (10 * acc + v) (S count)
      | None => (acc, count, s)
      end
  | EmptyString => (acc, count, s)
  end.

Fixpoint skipBlanks (s : string) : string :=
  match s with
  | String c rest =>
      if (N_of_ascii c =? 32)%N || (N_of_ascii c =? 9)%N then skipBlanks rest
      else s
  | EmptyString => s
  end.

(** The double of a natural number below 2^63. *)
Definition floatOfZ (z : Z) : float := of_uint63 (Uint63.of_Z z).

Definition parseDecimal (s : string) : float :=
  let s1 := skipBlanks s in
  let '(negative, s2) :=
    match s1 with
    | String "-"%char rest => (true, rest)
    | String "+"%char rest => (false, rest)
    | _ => (false, s1)
    end in
  let '(int, nInt, s3) := readDigits s2 0 O in
  let '(frac, nFrac) :=
    match s3 with
    | String "."%char rest =>
        let '(f, n, _) := readDigits rest 0 O in (f, n)
    | _ => (0, O)
    end in
  match nInt, nFrac with
  | O, O => nan
  | _, _ =>
      let scale := 10 ^ Z.of_nat nFrac in
      let magnitude :=
        (floatOfZ (int * scale + frac) / floatOfZ scale)%float in
      if negative then (- magnitude)%float else magnitude
  end.

(** ** Specification-side notions for the materialiser *)

(** The [k]-th period-advanced time value after [start]. *)
Definition dueDate (tz : TimeZone) (freq : string) (start : Z) (k : nat) : Z :=
  Nat.iter k (advance tz freq) start.

(** The writes for the first [n] due dates after [start]. *)
Definition occurrences (tz : TimeZone) (item : RecurringItem) (start : Z)
    (n : nat) : WriteBatch :=
  flat_map (fun k => materialize item (dueDate tz (frequency item) start k))
           (seq 1 n).

(** [n] due dates after [start] lie before [today], and the next one does
    not. *)
Definition caughtUp (tz : TimeZone) (today : Z) (freq : string) (start : Z)
    (n : nat) : Prop :=
  (forall k, (1 <= k <= n)%nat -> dueDate tz freq start k < today)
  /\ (start < today -> today <= dueDate tz freq start (S n))
  /\ (today <= start -> n = O).

(** The documents a batch adds to a collection. *)
Definition newDocs (incomeColl : bool) (batch : WriteBatch) : list Entry :=
  flat_map
    (fun op =>
       match op with
       | BatchSet c e =>
           if Bool.eqb (String.eqb c "incomes") incomeColl then [e] else []
       | BatchUpdate _ _ => []
       end)
    batch.

(** A template after the cursor updates of a batch. *)
Definition cursorAfter (batch : WriteBatch) (item : RecurringItem)
    : RecurringItem :=
  fold_left
    (fun it op =>
       match op with
       | BatchSet _ _ => it
       | BatchUpdate i d => setLastProcessed i d it
       end)
    batch item.

(** The store after every write of a batch. *)
Definition applied (batch : WriteBatch) (st : Store) : Store :=
  {| transactionsColl := transactionsColl st ++ newDocs false batch;
     incomesColl := incomesColl st ++ newDocs true batch;
     recurringColl := List.map (cursorAfter batch) (recurringColl st) |}.

(** The template [item] with its cursor on [d]. *)
Definition withCursor (item : RecurringItem) (d : ISODate) : RecurringItem :=
  {| id := id item; itemType := itemType item; frequency := frequency item;
     startDate := startDate item; lastProcessed := Some d;
     details := details item |}.

(** The document of the template [item] for the date [d]. *)
Definition documentOn (item : RecurringItem) (d : ISODate) : Entry :=
  {| date := d; fields := details item |}.

(** The dates of the first [n] due dates of a template after its
    cursor. *)
Definition dueDates (tz : TimeZone) (item : RecurringItem) (n : nat)
    : list ISODate :=
  List.map
    (fun k => toISODate (dueDate tz (frequency item) (initialCursor item) k))
    (seq 1 n).

(** ** Specification-side notions for the aggregations *)

(** A zone whose local clock is never behind UTC and less than a day
    ahead of it. *)
Definition aheadOfUTC (tz : TimeZone) : Prop :=
  forall t, 0 <= offsetAtUTC tz t < msPerDay
            /\ 0 <= offsetAtLocal tz t < msPerDay.

(** [a] comes before [b] in the calendar: year, then month, then
    day. *)
Definition calendarBefore (a b : ISODate) : bool :=
  (isoYear a <? isoYear b)
  || ((isoYear a =? isoYear b)
      && ((isoMonth a <? isoMonth b)
          || ((isoMonth a =? isoMonth b) && (isoDay a <? isoDay b)))).

Definition notInCurrency (cur : string) (item : Entry) : bool :=
  negb (String.eqb (currency item) cur).

(** The sum of a list of numbers, from [0] and from left to right, as
    [reduce((sum, x) => sum + x, 0)] takes it. *)
Definition sumDoubles (l : list float) : float :=
  fold_left PrimFloat.add l 0%float.

(** The sum of the amounts of a list of entries, in the order of the
    list. *)
Definition totalOf (l : list Entry) : float :=
  sumDoubles (List.map (fun x : Entry => amount x) l).

(** The payments towards a liability: the transactions of type
    [liabilityPayment] whose [liabilityId] is the id of the liability, in
    the order of the list. *)
Definition paymentsTowards (l : Liability) (transactions : list Entry)
    : list Entry :=
  filter (fun t : Entry =>
            type t = "liabilityPayment" /\ liabilityId t = Some (liabId l))
         transactions.

(** ** Specification-side notions for the CSV import *)

(** A field of a line that is there and is not empty. *)
Definition present (field : option string) : Prop :=
  field <> None /\ field <> Some "".

#[global] Instance present_dec field : Decision (present field).
Proof. unfold present. apply _. Defined.


(** A deposit of [person] in the currency [cur]: an entry of type
    [savings] or [openingBalance] with that saver and currency. *)
Definition depositOf (person cur : string) (x : Entry) : Prop :=
  saver x = Some person
  /\ (type x = "savings" \/ type x = "openingBalance")
  /\ currency x = cur.

(** A withdrawal of [person] in the currency [cur]. *)
Definition withdrawalOf (person cur : string) (x : Entry) : Prop :=
  saver x = Some person /\ type x = "savingsWithdrawal" /\ currency x = cur.

#[global] Instance depositOf_dec person cur x :
  Decision (depositOf person cur x).
Proof. unfold depositOf. apply _. Defined.

#[global] Instance withdrawalOf_dec person cur x :
  Decision (withdrawalOf person cur x).
Proof. unfold withdrawalOf. apply _. Defined.

(** The name a category is listed under: the category of the entry, and
    [undefined] when it has none. *)
Definition categoryName (t : Entry) : string :=
  default "undefined" (category t).

(** An amount in EUR: an amount in INR is divided by the rate. *)
Definition inEUR (rate : float) (t : Entry) : float :=
  if decide (currency t = "INR") then (amount t / rate)%float else amount t.

(** The expenses of the category [cat] dated in the month [m] (1 to 12)
    of the year [y], in the order of the list. *)
Definition expensesOf (y m : Z) (cat : string) (transactions : list Entry)
    : list Entry :=
  filter (fun t : Entry =>
            type t = "expense" /\ isoYear (date t) = y
            /\ isoMonth (date t) = m /\ categoryName t = cat)
         transactions.

(** No partial sum of the list is [NaN]. *)
Definition numericSums (xs : list float) : Prop :=
  forall n, is_nan (sumDoubles (take n xs)) = false.

(** A date whose string has a year of four digits and a month and a
    day of two. *)
Definition plainDate (d : ISODate) : Prop :=
  0 <= isoYear d <= 9999 /\ 0 <= isoMonth d <= 99 /\ 0 <= isoDay d <= 99.

(** ** Sample data *)

Definition isoDate (y m d : Z) : ISODate :=
  {| isoYear := y; isoMonth := m; isoDay := d |}.

(** A time value in the middle of the UTC day [d]. *)
Definition atNoon (d : ISODate) : Z := parseISODate d + 12 * msPerHour.

Definition rent : Details :=
  {| type := "expense"; amount := 950%float; currency := "EUR";
     category := Some "Rent/Mortgage"; payer := Some "Husband";
     saver := None; source := None; liabilityId := None;
     description := "Rent" |}.

Definition recurringRent (freq : string) (start : ISODate)
    (cursor : option ISODate) : RecurringItem :=
  {| id := "rent"; itemType := "expense"; frequency := freq;
     startDate := start; lastProcessed := cursor; details := rent |}.

Definition rentOn (d : ISODate) : WriteBatch :=
  [BatchSet "transactions" {| date := d; fields := rent |};
   BatchUpdate "rent" d].

Definition storeWith (items : list RecurringItem) : Store :=
  {| transactionsColl := []; incomesColl := []; recurringColl := items |}.

(** A zone five hours behind UTC all year. *)
Definition utcMinus5 : TimeZone := fixedZone (- 5 * msPerHour).

Definition expenseOn (d : ISODate) (amt : float) (cur : string) : Entry :=
  {| date := d;
     fields := {| type := "expense"; amount := amt; currency := cur;
                  category := Some "Grocery"; payer := Some "Wife";
                  saver := None; source := None; liabilityId := None;
                  description := "" |} |}.

Definition incomeOn (d : ISODate) (amt : float) (cur : string) : Entry :=
  {| date := d;
     fields := {| type := "income"; amount := amt; currency := cur;
                  category := None; payer := None; saver := None;
                  source := Some "Husband"; liabilityId := None;
                  description := "" |} |}.

Definition paymentOn (d : ISODate) (amt : float) (cur : string)
    (liab : string) : Entry :=
  {| date := d;
     fields := {| type := "liabilityPayment"; amount := amt; currency := cur;
                  category := None; payer := Some "Husband"; saver := None;
                  source := None; liabilityId := Some liab;
                  description := "" |} |}.

Definition carLoan : Liability :=
  {| liabId := "loan1"; name := "Car loan"; totalAmount := 1000%float;
     liabCurrency := "EUR" |}.

Definition csvHeader : list string :=
  ["Date"; "Description"; "Debit"; "Credit"].

Definition sampleBudgets : gmap string float :=
  <["Transport" := 120%float]> (<["Rent/Mortgage" := 900%float]> ∅).

Definition sampleTransactions : list Entry :=
  [ {| date := isoDate 2024 5 3; fields := rent |};
    expenseOn (isoDate 2024 5 7) 4500 "INR";
    expenseOn (isoDate 2024 4 7) 10 "EUR" ].

Definition salary : Details :=
  {| type := "income"; amount := 3000%float; currency := "EUR";
     category := None; payer := None; saver := None;
     source := Some "Husband"; liabilityId := None;
     description := "Salary" |}.

Definition recurringSalary (start : ISODate) (cursor : option ISODate)
    : RecurringItem :=
  {| id := "salary"; itemType := "income"; frequency := "monthly";
     startDate := start; lastProcessed := cursor; details := salary |}.

(** An expense of the category [cat]. *)
Definition expenseIn (cat : string) (d : ISODate) (amt : float) : Entry :=
  {| date := d;
     fields := {| type := "expense"; amount := amt; currency := "EUR";
                  category := Some cat; payer := Some "Wife";
                  saver := None; source := None; liabilityId := None;
                  description := "" |} |}.

(** ** Month navigation on the dashboard *)

Section Navigation.
Variable tz : TimeZone.
Variables selectedYear selectedMonth : Z.

(** [setSelectedDate(new Date(selectedYear, selectedMonth - 1, 1))] *)
Definition handlePreviousMonth : Z :=
  newDate tz selectedYear (selectedMonth - 1) 1.

(** [setSelectedDate(new Date(selectedYear, selectedMonth + 1, 1))] *)
Definition handleNextMonth : Z :=
  newDate tz selectedYear (selectedMonth + 1) 1.

End Navigation.

(** The wall-clock reading [lt] is shown by the host's clock at the
    instant it is interpreted as; this fails for the readings a clock
    change skips. *)
Definition localTimeExists (tz : TimeZone) (lt : Z) : Prop :=
  LocalTime tz (UTC tz lt) = lt.

(** The calendar month after and before month [m] (counted from 0) of
    year [y]. *)
Definition monthAfter (y m : Z) : Z * Z :=
  if m =? 11 then (y + 1, 0) else (y, m + 1).

Definition monthBefore (y m : Z) : Z * Z :=
  if m =? 0 then (y - 1, 11) else (y, m - 1).

Definition validDates (l : list Entry) : Prop :=
  Forall (fun e : Entry => validISODate (date e) = true) l.

(** ** The analysis page *)

(** [d.setDate(date)] *)
Definition setDate (tz : TimeZone) (t date : Z) : Z :=
  let lt := LocalTime tz t in
  UTC tz (MakeDate (MakeDay (YearFromTime lt) (MonthFromTime lt) date)
                   (TimeWithinDay lt)).

(** A row of the trend chart; [month] holds the month and year the label
    is printed from. *)
Record TrendRow : Type := {
  month : Z * Z;
  income : float;
  expenses : float
}.

Section Analysis.
Variable tz : TimeZone.
Variables transactions incomes : list Entry.
Variable rateINR : float.
Variable now : Z.

(** [items.reduce((sum, t) => sum + toEUR(t.amount, t.currency), 0)] *)
Definition sumInEUR (items : list Entry) : float :=
  fold_left
    (fun sum (t : Entry) =>
       (sum + toEUR rateINR (amount t) (currency t))%float)
    items 0%float.

Definition currentYear : Z := getFullYear tz now.

Definition yearlyIncomes : list Entry :=
  List.filter
    (fun i : Entry => getFullYear tz (parseISODate (date i)) =? currentYear)
    incomes.

Definition yearlyTransactions : list Entry :=
  List.filter
    (fun t : Entry => getFullYear tz (parseISODate (date t)) =? currentYear)
    transactions.

Definition totalYearlyIncome : float := sumInEUR yearlyIncomes.

Definition totalYearlyExpenses : float :=
  sumInEUR
    (List.filter (fun t : Entry => String.eqb (type t) "expense")
       yearlyTransactions).

Definition netYearlySavings : float :=
  (totalYearlyIncome - totalYearlyExpenses)%float.

(** The two sums of a trend row, for the month [mo] (which is
    [d.getMonth()]) of [year]. *)
Definition monthlyIncome (mo year : Z) : float :=
  sumInEUR
    (List.filter
       (fun inc : Entry =>
          (getMonth tz (parseISODate (date inc)) =? mo)
          && (getFullYear tz (parseISODate (date inc)) =? year))
       incomes).

Definition monthlyExpensesTotal (mo year : Z) : float :=
  sumInEUR
    (List.filter
       (fun t : Entry =>
          String.eqb (type t) "expense"
          && (getMonth tz (parseISODate (date t)) =? mo)
          && (getFullYear tz (parseISODate (date t)) =? year))
       transactions).

(** The body of [Array.from({ length: 12 }, (_, i) => ...)]. *)
Definition trendRow (i : Z) : TrendRow :=
  let d0 := setDate tz now 1 in
  let d := setMonth tz d0 (getMonth tz d0 - i) in
  let year := getFullYear tz d in
  {| month := (getMonth tz d, year);
     income := monthlyIncome (getMonth tz d) year;
     expenses := monthlyExpensesTotal (getMonth tz d) year |}.

Definition trendData : list TrendRow :=
  rev (List.map (fun i => trendRow (Z.of_nat i)) (seq 0 12)).

End Analysis.

(** Every wall-clock reading exists on the host's clock: the zone never
    skips time. *)
Definition noSkippedTime (tz : TimeZone) : Prop :=
  forall lt, localTimeExists tz lt.


(** ** The history list *)

(** [getCutoffDate(months)]; [now] is the value of [new Date()]. *)
Definition getCutoffDate (tz : TimeZone) (now months : Z) : Z :=
  setMonth tz now (getMonth tz now - months).

(** An entry of the list: the document and the name of the collection it
    was read from. *)
Record HistoryEntry : Type := {
  doc : Entry;
  collection : string
}.

(** The state [filter]: ['all'], or one of ['3'], ['6'], ['12'], held as
    the number [parseInt] reads from it. *)
Inductive HistoryFilter : Type :=
  | AllEntries
  | LastMonths (months : Z).

(** [new Date(entry.date)] *)
Definition entryTime (e : HistoryEntry) : Z := parseISODate (date (doc e)).

(** [sort((a, b) => new Date(b.date) - new Date(a.date))].  The sort of
    an array is stable, so with this comparator the result is the one
    arrangement by decreasing time value that keeps entries of equal
    time value in their order; inserting from the right computes it. *)
Fixpoint insertByDate (e : HistoryEntry) (l : list HistoryEntry)
    : list HistoryEntry :=
  match l with
  | [] => [e]
  | x :: rest =>
      if entryTime x <=? entryTime e then e :: l
      else x :: insertByDate e rest
  end.

Definition sortByDate (l : list HistoryEntry) : list HistoryEntry :=
  fold_right insertByDate [] l.

Section HistoryList.
Variable tz : TimeZone.
Variables transactions incomes : list Entry.
Variable now : Z.

(** [{ ...t, collection: 'transactions' }] *)
Definition fromTransactions (t : Entry) : HistoryEntry :=
  {| doc := t; collection := "transactions" |}.

(** [{ ...i, collection: 'incomes', category: i.source }] *)
Definition fromIncomes (i : Entry) : HistoryEntry :=
  {| doc :=
       {| date := date i;
          fields :=
            {| type := type i; amount := amount i; currency := currency i;
               category := source i; payer := payer i; saver := saver i;
               source := source i; liabilityId := liabilityId i;
               description := description i |} |};
     collection := "incomes" |}.

Definition allEntries : list HistoryEntry :=
  sortByDate (List.map fromTransactions transactions
              ++ List.map fromIncomes incomes).

Definition filteredEntries (filter : HistoryFilter) : list HistoryEntry :=
  match filter with
  | AllEntries => allEntries
  | LastMonths months =>
      let cutoff := getCutoffDate tz now months in
      List.filter (fun entry => cutoff <=? entryTime entry) allEntries
  end.

End HistoryList.

(** ** The budget page *)

(** What the page works on: the stored list of categories and the
    [categories] state, the input [newCategory], the stored budgets of
    the selected month ([{}] when there is no document) and the edited
    copy [newBudgets]. *)
Record BudgetPageState : Type := {
  categoriesDoc : option (list string);
  categories : list string;
  newCategory : string;
  budgetsDoc : gmap string float;
  newBudgets : gmap string float
}.

Section BudgetPage.
(** The signed-in user, if any, and [parseFloat]. *)
Variable user : option string.
Variable parseFloat : string -> float.


(** [setDoc] of the list, then [setCategories]; a rejected write throws
    before the state is set. *)
Definition handleSaveCategories (outcome : CommitOutcome)
    (updatedCategories : list string) (s : BudgetPageState)
    : BudgetPageState :=
  match user, outcome with
  | Some _, Committed =>
      {| categoriesDoc := Some updatedCategories;
         categories := updatedCategories;
         newCategory := newCategory s; budgetsDoc := budgetsDoc s;
         newBudgets := newBudgets s |}
  | _, _ => s
  end.

Definition handleAddCategory (outcome : CommitOutcome)
    (s : BudgetPageState) : BudgetPageState :=
  if negb (String.eqb (newCategory s) "")
     && negb (existsb (String.eqb (newCategory s)) (categories s))
  then
    let s' :=
      handleSaveCategories outcome (categories s ++ [newCategory s]) s in
    {| categoriesDoc := categoriesDoc s'; categories := categories s';
       newCategory := ""; budgetsDoc := budgetsDoc s';
       newBudgets := newBudgets s' |}
  else s.

Definition handleDeleteCategory (outcome : CommitOutcome)
    (categoryToDelete : string) (s : BudgetPageState) : BudgetPageState :=
  handleSaveCategories outcome
    (List.filter (fun c => negb (String.eqb c categoryToDelete))
       (categories s))
    s.


End BudgetPage.


(** ** Documents handed to [addDoc] *)

(** The values the pages put into a document: strings, numbers and
    [undefined]. *)
Inductive Value : Type :=
  | VString (s : string)
  | VNumber (n : float)
  | VUndefined.

(** A state or row field that may be [undefined]. *)
Definition ofOption (field : option string) : Value :=
  match field with
  | Some s => VString s
  | None => VUndefined
  end.

Definition DocData : Type := gmap string Value.

(** [Object.assign(docData, { k1: v1, ... })] *)
Definition assign (docData : DocData) (extra : list (string * Value))
    : DocData :=
  fold_left (fun d kv => <[kv.1 := kv.2]> d) extra docData.

(** The object literal [{ k1: v1, ... }]. *)
Definition object (props : list (string * Value)) : DocData :=
  assign ∅ props.

(** ** The CSV import dialog *)

Module ImportModal.

Record CurrentTransactionData : Type := {
  date : option string;
  description : option string;
  amount : float;
  type : string;
  category : option string;
  payer : string;
  saver : string;
  source : string
}.

Record State : Type := {
  transactionsToReview : list CsvRow;
  currentIndex : nat;
  currentTransactionData : option CurrentTransactionData;
  isOpen : bool
}.

Section Handlers.
Variable user : option string.
Variable parseFloat : string -> float.
Variable categories : list string.

(** The data preselected for a row. *)
Definition preselected (current : CsvRow) : CurrentTransactionData :=
  {| date := rowDate current;
     description := rowDescription current;
     amount := defaultAmount parseFloat current;
     type := defaultType parseFloat current;
     category := head categories;
     payer := "Husband"; saver := "Husband"; source := "Husband" |}.

(** The effect on [transactionsToReview], [currentIndex] and
    [categories]. *)
Definition effect (s : State) : State :=
  let n := Z.of_nat (List.length (transactionsToReview s)) in
  {| transactionsToReview := transactionsToReview s;
     currentIndex := currentIndex s;
     currentTransactionData :=
       if (0 <? n) && (Z.of_nat (currentIndex s) <? n)
       then option_map preselected
              (nth_error (transactionsToReview s) (currentIndex s))
       else None;
     isOpen := isOpen s |}.

(** The [complete] callback of the parser.  [formatDate] is the
    reformatting of a date, [None] when [toISOString] throws; the
    callback then ends before the state is set. *)
Definition handleFileChange (formatDate : string -> option string)
    (data : list (list string)) (s : State) : State :=
  let formattedData :=
    mapM (fun row =>
            match rowDate row with
            | Some d =>
                option_map
                  (fun formattedDate =>
                     {| rowDate := Some formattedDate;
                        rowDescription := rowDescription row;
                        debit := debit row; credit := credit row |})
                  (formatDate d)
            | None => None
            end)
         (parsedData data) in
  match formattedData with
  | Some rows =>
      {| transactionsToReview := rows; currentIndex := O;
         currentTransactionData := currentTransactionData s;
         isOpen := isOpen s |}
  | None => s
  end.

Definition handleNext (s : State) : State :=
  if Z.of_nat (currentIndex s)
     <? Z.of_nat (List.length (transactionsToReview s)) - 1
  then
    {| transactionsToReview := transactionsToReview s;
       currentIndex := S (currentIndex s);
       currentTransactionData := currentTransactionData s;
       isOpen := isOpen s |}
  else
    {| transactionsToReview := []; currentIndex := O;
       currentTransactionData := currentTransactionData s;
       isOpen := false |}.

(** The document [handleSave] builds, with its collection; [None] is
    the [default] case of the [switch]. *)
Definition docFor (current : CurrentTransactionData)
    : option (string * DocData) :=
  let docData :=
    object [("date", ofOption (date current));
            ("description", ofOption (description current));
            ("amount", VNumber (amount current));
            ("currency", VString "EUR")] in
  if String.eqb (type current) "expense" then
    Some ("transactions",
          assign docData [("type", VString "expense");
                          ("category", ofOption (category current));
                          ("payer", VString (payer current))])
  else if String.eqb (type current) "savings" then
    Some ("transactions",
          assign docData [("type", VString "savings");
                          ("saver", VString (saver current))])
  else if String.eqb (type current) "income" then
    Some ("incomes",
          assign docData [("type", VString "income");
                          ("source", VString (source current))])
  else if String.eqb (type current) "savingsWithdrawal" then
    Some ("transactions",
          assign docData [("type", VString "savingsWithdrawal");
                          ("saver", VString (saver current))])
  else None.

(** The state after [handleSave] and the document that was added, if
    one was. *)
Definition handleSave (outcome : CommitOutcome) (s : State)
    : State * option (string * DocData) :=
  match user, currentTransactionData s with
  | Some _, Some current =>
      match docFor current, outcome with
      | Some added, Committed => (handleNext s, Some added)
      | _, _ => (s, None)
      end
  | _, _ => (s, None)
  end.

End Handlers.
End ImportModal.

(** A statement line whose debit column holds a refund. *)
Definition refundRow : CsvRow :=
  toRow ["2024-02-01"; "Refund"; "-5.00"; ""].

(** ** The entry form *)

Module EntryPage.

Record Form : Type := {
  entryType : string;
  isOpeningBalance : bool;
  amount : string;
  currency : string;
  category : option string;
  payer : string;
  saver : string;
  description : string;
  date : string;
  source : string;
  liabilityName : string;
  liabilityId : string;
  assetName : string
}.

(** The setters called after a successful [addDoc]. *)
Definition cleared (f : Form) : Form :=
  {| entryType := entryType f; isOpeningBalance := false; amount := "";
     currency := currency f; category := category f; payer := payer f;
     saver := saver f; description := ""; date := date f;
     source := source f; liabilityName := ""; liabilityId := liabilityId f;
     assetName := "" |}.

Section Handlers.
Variable user : option string.
Variable parseFloat : string -> float.

(** The [switch] on [entryType]: the collection and the document, or
    [None] where the handler returns. *)
Definition docFor (f : Form) : option (string * DocData) :=
  let docData :=
    object [("date", VString (date f));
            ("description", VString (description f))] in
  let parsed := VNumber (parseFloat (amount f)) in
  if String.eqb (entryType f) "expense" then
    Some ("transactions",
          assign docData [("type", VString "expense");
                          ("category", ofOption (category f));
                          ("payer", VString (payer f));
                          ("amount", parsed);
                          ("currency", VString (currency f))])
  else if String.eqb (entryType f) "savings" then
    Some ("transactions",
          assign docData [("type",
                           VString (if isOpeningBalance f
                                    then "openingBalance" else "savings"));
                          ("saver", VString (saver f));
                          ("amount", parsed);
                          ("currency", VString (currency f))])
  else if String.eqb (entryType f) "savingsWithdrawal" then
    Some ("transactions",
          assign docData [("type", VString "savingsWithdrawal");
                          ("saver", VString (saver f));
                          ("amount", parsed);
                          ("currency", VString (currency f))])
  else if String.eqb (entryType f) "income" then
    Some ("incomes",
          assign docData [("source", VString (source f));
                          ("type", VString "income");
                          ("amount", parsed);
                          ("currency", VString (currency f))])
  else if String.eqb (entryType f) "addLiability" then
    Some ("liabilities",
          assign docData [("name", VString (liabilityName f));
                          ("totalAmount", parsed);
                          ("currency", VString (currency f))])
  else if String.eqb (entryType f) "payLiability" then
    if String.eqb (liabilityId f) "" then None
    else
      Some ("transactions",
            assign docData [("type", VString "liabilityPayment");
                            ("liabilityId", VString (liabilityId f));
                            ("payer", VString (payer f));
                            ("amount", parsed);
                            ("currency", VString (currency f))])
  else if String.eqb (entryType f) "asset" then
    Some ("assets",
          assign docData [("name", VString (assetName f));
                          ("value", parsed);
                          ("currency", VString (currency f))])
  else None.

(** The form after [handleSubmit] and the document that was added, if
    one was.  This is the handler by itself; the page calls it through
    [onSubmit] below. *)
Definition handleSubmit (outcome : CommitOutcome) (f : Form)
    : Form * option (string * DocData) :=
  match user with
  | None => (f, None)
  | Some _ =>
      if String.eqb (amount f) ""
         && negb (String.eqb (entryType f) "asset")
      then (f, None)
      else
        match docFor f, outcome with
        | Some added, Committed => (cleared f, Some added)
        | _, _ => (f, None)
        end
  end.

(** The inputs of the form that carry [required] and are rendered for
    the selected tab: the date and the amount on every tab, the name for
    an asset or a new liability, the liability for a payment.  The
    browser fires [submit] only when none of them is empty. *)
Definition requiredFilled (f : Form) : bool :=
  negb (String.eqb (date f) "")
  && negb (String.eqb (amount f) "")
  && (if String.eqb (entryType f) "asset"
      then negb (String.eqb (assetName f) "")
      else if String.eqb (entryType f) "addLiability"
      then negb (String.eqb (liabilityName f) "")
      else true)
  && (if String.eqb (entryType f) "payLiability"
      then negb (String.eqb (liabilityId f) "")
      else true).

(** What else the browser checks before it fires [submit]: that the
    date and the number are well formed and that the number fits the
    step of its input. *)
Variable wellFormed : Form -> bool.

(** [<form onSubmit={handleSubmit}>]: a press on Submit. *)
Definition onSubmit (outcome : CommitOutcome) (f : Form)
    : Form * option (string * DocData) :=
  if requiredFilled f && wellFormed f then handleSubmit outcome f
  else (f, None).

End Handlers.
End EntryPage.

(** The form with the asset tab selected and nothing but a name typed
    in. *)
Definition assetForm : EntryPage.Form :=
  {| EntryPage.entryType := "asset"; EntryPage.isOpeningBalance := false;
     EntryPage.amount := ""; EntryPage.currency := "EUR";
     EntryPage.category := Some "Grocery"; EntryPage.payer := "Husband";
     EntryPage.saver := "Husband"; EntryPage.description := "";
     EntryPage.date := "2024-05-03"; EntryPage.source := "Husband";
     EntryPage.liabilityName := ""; EntryPage.liabilityId := "";
     EntryPage.assetName := "Flat" |}.

(** ** The CSV export *)

(** The double quote. *)
Definition quoteChar : ascii := "034"%char.

(** The [replace] that doubles every double quote. *)
Fixpoint escapeQuotes (s : string) : string :=
  match s with
  | EmptyString => EmptyString
  | String c rest =>
      if Ascii.eqb c quoteChar
      then String quoteChar (String quoteChar (escapeQuotes rest))
      else String c (escapeQuotes rest)
  end.

(** The template literal that wraps a value in double quotes. *)
Definition quoted (v : string) : string :=
  String quoteChar (escapeQuotes v ++ String quoteChar EmptyString).

(** [field || other] *)
Definition orElse (field : option string) (other : string) : string :=
  match field with
  | Some s => if String.eqb s "" then other else s
  | None => other
  end.

Section CsvExport.
(** The date string of a document and [String(n)] for a number. *)
Variable showDate : ISODate -> string.
Variable showNumber : float -> string.

Definition headers : list string :=
  ["Date"; "Type"; "Description"; "Category/Source"; "Amount"; "Currency";
   "Payer/Saver"].

(** The array [values] before quoting. *)
Definition rowValues (row : Entry) : list string :=
  [showDate (date row); type row; description row;
   orElse (category row) (orElse (source row) "");
   showNumber (amount row); currency row;
   orElse (payer row) (orElse (saver row) "")].

Definition csvRows (incomes transactions : list Entry) : list string :=
  String.concat "," headers
  :: List.map (fun row => String.concat "," (List.map quoted (rowValues row)))
       (incomes ++ transactions).

(** The content of the downloaded file: [csvRows.join('\n')]. *)
Definition exportToCSV (incomes transactions : list Entry) : string :=
  String.concat (String "010"%char EmptyString) (csvRows incomes transactions).

End CsvExport.

(** *** Reading the export back *)

(** The content of a quoted field whose opening quote has been read,
    and what follows its closing quote. *)
Fixpoint readQuotedBody (s : string) : option (string * string) :=
  match s with
  | EmptyString => None
  | String c rest =>
      if Ascii.eqb c quoteChar then
        match rest with
        | String c' rest' =>
            if Ascii.eqb c' quoteChar
            then option_map (fun vr => (String quoteChar vr.1, vr.2))
                   (readQuotedBody rest')
            else Some (EmptyString, rest)
        | EmptyString => Some (EmptyString, EmptyString)
        end
      else option_map (fun vr => (String c vr.1, vr.2)) (readQuotedBody rest)
  end.

Definition readQuoted (s : string) : option (string * string) :=
  match s with
  | String c rest => if Ascii.eqb c quoteChar then readQuotedBody rest else None
  | EmptyString => None
  end.

(** [n] quoted fields separated by commas, and what follows them. *)
Fixpoint readFields (n : nat) (s : string) : option (list string * string) :=
  match n with
  | O => Some ([], s)
  | S k =>
      match readQuoted s with
      | Some (v, rest) =>
          match k with
          | O => Some ([v], rest)
          | S _ =>
              match rest with
              | String ","%char rest' =>
                  option_map (fun vr => (v :: vr.1, vr.2)) (readFields k rest')
              | _ => None
              end
          end
      | None => None
      end
  end.

(** The text does not go on with a double quote. *)
Definition noQuoteAhead (s : string) : Prop :=
  match s with
  | String c _ => c <> quoteChar
  | EmptyString => True
  end.

(** An expense whose description holds a comma, quotes and a line
    break. *)
Definition awkwardExpense : Entry :=
  {| date := isoDate 2024 5 3;
     fields := {| type := "expense"; amount := 12%float; currency := "EUR";
                  category := Some "Grocery"; payer := Some "Wife";
                  saver := None; source := None; liabilityId := None;
                  description :=
                    String "a"
                      (String ","
                         (String quoteChar
                            (String "b"
                               (String quoteChar
                                  (String "010" (String "c" EmptyString))))))
               |} |}.

(** ** Sample data for the import dialog *)



(* ===================================================================== *)
(** * Part II: theorems                                                   *)
(* ===================================================================== *)

(** ** Calendar arithmetic *)


Lemma days_from_civil_linear y m d :
  days_from_civil y m d = days_from_civil y m 1 + d - 1.
Proof. unfold days_from_civil. lia. Qed.

Lemma days_from_civil_shift y m d k :
  days_from_civil (y + 400 * k) m d = days_from_civil y m d + 146097 * k.
Proof.
  unfold days_from_civil.
  set (y0 := if m <=? 2 then y - 1 else y).
  replace (if m <=? 2 then y + 400 * k - 1 else y + 400 * k)
    with (y0 + k * 400) by (subst y0; destruct (m <=? 2); lia).
  rewrite Z.div_add by lia.
  replace (y0 + k * 400 - (y0 / 400 + k) * 400) with (y0 - y0 / 400 * 400)
    by lia.
  cbv zeta. lia.
Qed.

Lemma civil_from_days_shift z k :
  civil_from_days (z + 146097 * k) =
  let '(y, m, d) := civil_from_days z in (y + 400 * k, m, d).
Proof.
  unfold civil_from_days.
  replace (z + 146097 * k + 719468) with (z + 719468 + k * 146097) by lia.
  rewrite Z.div_add by lia.
  replace (z + 719468 + k * 146097 - ((z + 719468) / 146097 + k) * 146097)
    with (z + 719468 - (z + 719468) / 146097 * 146097) by lia.
  set (doe := z + 719468 - (z + 719468) / 146097 * 146097).
  cbv zeta.
  match goal with |- context [if ?b then _ else _] => destruct b end;
    f_equal; f_equal; lia.
Qed.

Lemma isLeapYear_shift y k : isLeapYear (y + 400 * k) = isLeapYear y.
Proof.
  unfold isLeapYear.
  replace ((y + 400 * k) mod 4) with (y mod 4)
    by (replace (y + 400 * k) with (y + (100 * k) * 4) by lia;
        now rewrite Z.mod_add by lia).
  replace ((y + 400 * k) mod 100) with (y mod 100)
    by (replace (y + 400 * k) with (y + (4 * k) * 100) by lia;
        now rewrite Z.mod_add by lia).
  replace ((y + 400 * k) mod 400) with (y mod 400)
    by (replace (y + 400 * k) with (y + k * 400) by lia;
        now rewrite Z.mod_add by lia).
  reflexivity.
Qed.

Lemma daysInMonth_shift y m k : daysInMonth (y + 400 * k) m = daysInMonth y m.
Proof. unfold daysInMonth. now rewrite isLeapYear_shift. Qed.

Lemma allFrom_spec n : forall z p,
  allFrom n z p = true -> forall x, z <= x < z + Z.of_nat n -> p x = true.
Proof.
  induction n as [|n IH]; intros z p H x Hx; [lia|].
  cbn [allFrom] in H. apply andb_prop in H as [Hz Hn].
  destruct (Z.eq_dec x z) as [->|Hne]; [exact Hz|].
  apply (IH (z + 1) p Hn). lia.
Qed.

Lemma checkDay_era : allFrom (Z.to_nat 146097) 0 checkDay = true.
Proof. vm_cast_no_check (eq_refl true). Qed.

Lemma civil_from_days_spec z :
  let '(y, m, d) := civil_from_days z in
  days_from_civil y m d = z /\ validCivil y m d = true.
Proof.
  set (k := (z + 719468) / 146097).
  set (doe := (z + 719468) mod 146097).
  assert (Hz : z = doe - 719468 + 146097 * k).
  { subst doe k. pose proof (Z.div_mod (z + 719468) 146097). lia. }
  assert (Hdoe : 0 <= doe < 146097) by (subst doe; apply Z.mod_pos_bound; lia).
  assert (Hn : Z.of_nat (Z.to_nat 146097) = 146097) by (apply Z2Nat.id; lia).
  pose proof (allFrom_spec _ _ _ checkDay_era doe) as Hc.
  rewrite Hn in Hc. specialize (Hc ltac:(lia)).
  rewrite Hz, civil_from_days_shift.
  unfold checkDay in Hc.
  destruct (civil_from_days (doe - 719468)) as [[y m] d].
  apply andb_prop in Hc as [H1 H2]. apply Z.eqb_eq in H1.
  rewrite days_from_civil_shift. split; [lia|].
  unfold validCivil in *. now rewrite daysInMonth_shift.
Qed.

Lemma checkDate_era : allFrom (Z.to_nat 148800) 0 checkDate = true.
Proof. vm_cast_no_check (eq_refl true). Qed.

Lemma days_from_civil_spec y m d :
  validCivil y m d = true ->
  civil_from_days (days_from_civil y m d) = (y, m, d).
Proof.
  intros Hv.
  set (k := y / 400). set (y0 := y mod 400).
  assert (Hy : y = y0 + 400 * k)
    by (subst y0 k; pose proof (Z.div_mod y 400); lia).
  assert (Hy0 : 0 <= y0 < 400) by (subst y0; apply Z.mod_pos_bound; lia).
  rewrite Hy in Hv |- *.
  unfold validCivil in Hv. rewrite daysInMonth_shift in Hv.
  assert (Hd31 : daysInMonth y0 m <= 31)
    by (unfold daysInMonth; repeat case_match; lia).
  assert (Hr : 1 <= m <= 12 /\ 1 <= d <= 31).
  { repeat (apply andb_prop in Hv as [Hv ?]). lia. }
  set (i := y0 * 372 + (m - 1) * 31 + (d - 1)).
  assert (Hn : Z.of_nat (Z.to_nat 148800) = 148800) by (apply Z2Nat.id; lia).
  pose proof (allFrom_spec _ _ _ checkDate_era i) as Hc.
  rewrite Hn in Hc. specialize (Hc ltac:(lia)).
  unfold checkDate in Hc.
  assert (E1 : i / 372 = y0)
    by (symmetry; apply Z.div_unique with ((m - 1) * 31 + (d - 1)); lia).
  assert (E2 : i mod 372 = (m - 1) * 31 + (d - 1))
    by (symmetry; apply Z.mod_unique with y0; lia).
  assert (E3 : ((m - 1) * 31 + (d - 1)) / 31 + 1 = m)
    by (rewrite <- (Z.div_unique ((m - 1) * 31 + (d - 1)) 31 (m - 1) (d - 1));
        lia).
  assert (E4 : i mod 31 + 1 = d)
    by (rewrite <- (Z.mod_unique i 31 (y0 * 12 + (m - 1)) (d - 1)); lia).
  rewrite E1, E2, E3, E4 in Hc.
  unfold validCivil in Hc. rewrite Hv in Hc.
  rewrite days_from_civil_shift, civil_from_days_shift.
  destruct (civil_from_days (days_from_civil y0 m d)) as [[y' m'] d'].
  repeat (apply andb_prop in Hc as [Hc ?]).
  f_equal; [f_equal|]; lia.
Qed.

Lemma validCivil_first y m : 1 <= m <= 12 -> validCivil y m 1 = true.
Proof.
  intros H. unfold validCivil.
  assert (28 <= daysInMonth y m)
    by (unfold daysInMonth; repeat case_match; lia).
  repeat (apply andb_true_intro; split); lia.
Qed.

Lemma MakeDay_in_range y m d :
  0 <= m <= 11 -> MakeDay y m d = days_from_civil y (m + 1) d.
Proof.
  intros H. unfold MakeDay.
  rewrite Z.div_small, Z.mod_small by lia.
  rewrite (days_from_civil_linear _ _ d). f_equal. f_equal. f_equal. lia.
Qed.

Lemma checkMonth_era : allFrom (Z.to_nat 4800) 0 checkMonth = true.
Proof. vm_cast_no_check (eq_refl true). Qed.

Lemma month_year_step y m :
  1 <= m <= 12 ->
  MakeDay y m 1 = days_from_civil y m 1 + daysInMonth y m
  /\ days_from_civil y m 1 + 365 <= days_from_civil (y + 1) m 1.
Proof.
  intros Hm.
  set (k := y / 400). set (y0 := y mod 400).
  assert (Hy : y = y0 + 400 * k)
    by (subst y0 k; pose proof (Z.div_mod y 400); lia).
  assert (Hy0 : 0 <= y0 < 400) by (subst y0; apply Z.mod_pos_bound; lia).
  set (i := y0 * 12 + (m - 1)).
  assert (Hn : Z.of_nat (Z.to_nat 4800) = 4800) by (apply Z2Nat.id; lia).
  pose proof (allFrom_spec _ _ _ checkMonth_era i) as Hc.
  rewrite Hn in Hc. specialize (Hc ltac:(lia)).
  unfold checkMonth in Hc.
  assert (E1 : i / 12 = y0)
    by (symmetry; apply Z.div_unique with (m - 1); lia).
  assert (E2 : i mod 12 + 1 = m)
    by (rewrite <- (Z.mod_unique i 12 y0 (m - 1)); lia).
  rewrite E1, E2 in Hc.
  apply andb_prop in Hc as [H1 H2].
  apply Z.eqb_eq in H1. apply Z.leb_le in H2.
  rewrite Hy, daysInMonth_shift.
  replace (y0 + 400 * k + 1) with (y0 + 1 + 400 * k) by lia.
  rewrite !days_from_civil_shift.
  unfold MakeDay in *.
  replace (y0 + 400 * k + m / 12) with (y0 + m / 12 + 400 * k) by lia.
  rewrite days_from_civil_shift. lia.
Qed.

(** ** Time values *)

Lemma MakeDate_Day t : MakeDate (Day t) (TimeWithinDay t) = t.
Proof.
  unfold MakeDate, Day, TimeWithinDay.
  pose proof (Z.div_mod t msPerDay). unfold msPerDay in *. lia.
Qed.

Lemma TimeWithinDay_bound t : 0 <= TimeWithinDay t < msPerDay.
Proof. unfold TimeWithinDay. apply Z.mod_pos_bound. reflexivity. Qed.

Lemma Day_MakeDate d s : 0 <= s < msPerDay -> Day (MakeDate d s) = d.
Proof.
  intros Hs. unfold Day, MakeDate. symmetry.
  apply Z.div_unique with s; unfold msPerDay in *; lia.
Qed.

Lemma TimeWithinDay_MakeDate d s :
  0 <= s < msPerDay -> TimeWithinDay (MakeDate d s) = s.
Proof.
  intros Hs. unfold TimeWithinDay, MakeDate. symmetry.
  apply Z.mod_unique with d; unfold msPerDay in *; lia.
Qed.

Lemma MakeDay_linear y m d : MakeDay y m d = MakeDay y m 1 + d - 1.
Proof. unfold MakeDay. lia. Qed.

(** The fields of a time value determine its day number. *)
Lemma fields_spec t :
  1 <= MonthFromTime t + 1 <= 12
  /\ days_from_civil (YearFromTime t) (MonthFromTime t + 1) (DateFromTime t)
     = Day t
  /\ 1 <= DateFromTime t <= daysInMonth (YearFromTime t) (MonthFromTime t + 1).
Proof.
  unfold YearFromTime, MonthFromTime, DateFromTime.
  pose proof (civil_from_days_spec (Day t)) as H.
  destruct (civil_from_days (Day t)) as [[y m] d]. cbn.
  destruct H as [H1 H2]. unfold validCivil in H2.
  repeat (apply andb_prop in H2 as [H2 ?]).
  replace (m - 1 + 1) with m by lia. lia.
Qed.

Lemma daysInMonth_ge y m : 28 <= daysInMonth y m.
Proof. unfold daysInMonth. repeat case_match; lia. Qed.

(** Setting the month to the next one moves the local clock forward by
    the length of the current month. *)
Lemma setMonth_next tz t :
  let lt := LocalTime tz t in
  setMonth tz t (getMonth tz t + 1) =
  UTC tz (lt + daysInMonth (YearFromTime lt) (MonthFromTime lt + 1) * msPerDay).
Proof.
  intros lt. unfold setMonth, getMonth. fold lt.
  destruct (fields_spec lt) as (Hm & Hd & _).
  f_equal.
  rewrite MakeDay_linear.
  destruct (month_year_step (YearFromTime lt) (MonthFromTime lt + 1) Hm)
    as [-> _].
  rewrite (days_from_civil_linear _ _ (DateFromTime lt)) in Hd.
  pose proof (MakeDate_Day lt) as E. unfold MakeDate in *.
  set (s := TimeWithinDay lt) in *. set (dn := Day lt) in *.
  unfold msPerDay in *. lia.
Qed.

Lemma setMonth_progress tz t :
  boundedZone tz -> t + 26 * msPerDay <= setMonth tz t (getMonth tz t + 1).
Proof.
  intros Hb. rewrite setMonth_next. cbv zeta.
  set (lt := LocalTime tz t).
  pose proof (daysInMonth_ge (YearFromTime lt) (MonthFromTime lt + 1)).
  unfold UTC.
  destruct (Hb (lt + daysInMonth (YearFromTime lt) (MonthFromTime lt + 1)
                  * msPerDay)) as [_ H2].
  destruct (Hb t) as [H1 _].
  subst lt. unfold LocalTime in *. unfold msPerDay in *. lia.
Qed.

Lemma setFullYear_progress tz t :
  boundedZone tz ->
  t + 363 * msPerDay <= setFullYear tz t (getFullYear tz t + 1).
Proof.
  intros Hb. unfold setFullYear, getFullYear.
  set (lt := LocalTime tz t).
  destruct (fields_spec lt) as (Hm & Hd & _).
  rewrite MakeDay_in_range by lia.
  destruct (month_year_step (YearFromTime lt) (MonthFromTime lt + 1) Hm)
    as [_ Hy].
  rewrite (days_from_civil_linear _ _ (DateFromTime lt)) in Hd.
  rewrite (days_from_civil_linear _ _ (DateFromTime lt)).
  unfold UTC.
  match goal with |- _ <= ?x - offsetAtLocal tz ?x =>
    destruct (Hb x) as [_ H2]; set (x' := x) in * end.
  destruct (Hb t) as [H1 _].
  assert (lt + 365 * msPerDay <= x').
  { subst x'. pose proof (MakeDate_Day lt) as E. unfold MakeDate in *.
    set (s := TimeWithinDay lt) in *. set (dn := Day lt) in *.
    unfold msPerDay in *. lia. }
  clearbody x'. subst lt. unfold LocalTime in *. unfold msPerDay in *. lia.
Qed.

Lemma advance_progress tz freq t :
  boundedZone tz -> freq = "monthly" \/ freq = "yearly" ->
  t < advance tz freq t.
Proof.
  intros Hb [-> | ->]; unfold advance.
  - rewrite String.eqb_refl.
    pose proof (setMonth_progress tz t Hb). unfold msPerDay in *. lia.
  - change ("yearly" =? "monthly")%string with false.
    rewrite String.eqb_refl.
    pose proof (setFullYear_progress tz t Hb). unfold msPerDay in *. lia.
Qed.

Lemma advance_other tz freq t :
  freq <> "monthly" -> freq <> "yearly" -> advance tz freq t = t.
Proof.
  intros H1 H2. unfold advance.
  apply String.eqb_neq in H1, H2. now rewrite H1, H2.
Qed.

(** ** The catch-up loop *)

Lemma catchUp_terminates tz today item :
  boundedZone tz ->
  frequency item = "monthly" \/ frequency item = "yearly" ->
  forall nextDueDate batch,
  exists fuel batch', catchUp tz fuel today item nextDueDate batch = Some batch'.
Proof.
  intros Hb Hf x.
  remember (Z.to_nat (today - x)) as n eqn:Hn.
  revert x Hn. induction n as [n IH] using lt_wf_ind. intros x Hn batch.
  destruct (x <? today) eqn:Hlt.
  - apply Z.ltb_lt in Hlt.
    pose proof (advance_progress tz _ x Hb Hf) as Hadv.
    set (x' := advance tz (frequency item) x) in *.
    assert (Hm : (Z.to_nat (today - x') < n)%nat) by lia.
    destruct (x' <? today) eqn:Hlt'.
    + destruct (IH _ Hm x' eq_refl (batch ++ materialize item x'))
        as (fuel & b & Hrun).
      exists (S fuel), b. cbn [catchUp].
      apply Z.ltb_lt in Hlt. rewrite Hlt. fold x'. now rewrite Hlt'.
    + destruct (IH _ Hm x' eq_refl batch) as (fuel & b & Hrun).
      exists (S fuel), b. cbn [catchUp].
      apply Z.ltb_lt in Hlt. rewrite Hlt. fold x'. now rewrite Hlt'.
  - exists 1%nat, batch. cbn [catchUp]. now rewrite Hlt.
Qed.

Lemma catchUp_diverges tz today item nextDueDate :
  frequency item <> "monthly" -> frequency item <> "yearly" ->
  nextDueDate < today ->
  forall fuel batch, catchUp tz fuel today item nextDueDate batch = None.
Proof.
  intros H1 H2 Hlt fuel.
  induction fuel as [|fuel IH]; intros batch; [reflexivity|].
  cbn [catchUp]. rewrite (advance_other _ _ _ H1 H2).
  apply Z.ltb_lt in Hlt. rewrite Hlt. apply IH.
Qed.

Lemma catchUp_more_fuel tz today item :
  forall fuel nextDueDate batch batch',
  catchUp tz fuel today item nextDueDate batch = Some batch' ->
  forall fuel', (fuel <= fuel')%nat ->
  catchUp tz fuel' today item nextDueDate batch = Some batch'.
Proof.
  induction fuel as [|fuel IH]; intros x batch b H fuel' Hle; [discriminate|].
  destruct fuel' as [|fuel']; [lia|].
  cbn [catchUp] in *.
  destruct (x <? today); [|exact H].
  destruct (advance tz (frequency item) x <? today);
    (eapply IH; [exact H | lia]).
Qed.

Lemma forEachItem_terminates tz today :
  boundedZone tz ->
  forall items,
  Forall (fun item => frequency item = "monthly"
                      \/ frequency item = "yearly") items ->
  forall batch,
  exists fuel batch',
    forall fuel', (fuel <= fuel')%nat ->
    forEachItem tz fuel' today items batch = Some batch'.
Proof.
  intros Hb items Hall.
  induction Hall as [|item items Hf Hall IH]; intros batch.
  - exists O, batch. reflexivity.
  - destruct (catchUp_terminates tz today item Hb Hf (initialCursor item)
                batch) as (fuel1 & b1 & H1).
    destruct (IH b1) as (fuel2 & b2 & H2).
    exists (Nat.max fuel1 fuel2), b2. intros fuel' Hle.
    cbn [forEachItem].
    rewrite (catchUp_more_fuel _ _ _ _ _ _ _ H1 fuel') by lia.
    apply H2. lia.
Qed.

(** X1: with every frequency ['monthly'] or ['yearly'] a run returns its
    batch. *)
Lemma processRecurringTransactions_terminates tz now items :
  boundedZone tz ->
  Forall (fun item => frequency item = "monthly"
                      \/ frequency item = "yearly") items ->
  exists fuel batch,
    forall fuel', (fuel <= fuel')%nat ->
    processRecurringTransactions tz fuel' now items = Some batch.
Proof.
  intros Hb Hall. unfold processRecurringTransactions.
  now apply forEachItem_terminates.
Qed.

Lemma dueDate_shift tz freq start k :
  dueDate tz freq (advance tz freq start) k = dueDate tz freq start (S k).
Proof.
  unfold dueDate. symmetry. apply Nat.iter_succ_r.
Qed.

Lemma occurrences_shift tz item start n :
  occurrences tz item start (S n) =
  materialize item (advance tz (frequency item) start)
  ++ occurrences tz item (advance tz (frequency item) start) n.
Proof.
  unfold occurrences. cbn [seq flat_map]. f_equal.
  rewrite <- seq_shift, flat_map_concat_map, map_map,
    <- flat_map_concat_map.
  apply flat_map_ext. intros k. now rewrite dueDate_shift.
Qed.

(** What the loop has queued when it leaves. *)
Lemma catchUp_spec tz today item :
  forall fuel start batch batch',
  catchUp tz fuel today item start batch = Some batch' ->
  exists n, batch' = batch ++ occurrences tz item start n
            /\ caughtUp tz today (frequency item) start n.
Proof.
  induction fuel as [|fuel IH]; intros x batch b H; [discriminate|].
  cbn [catchUp] in H.
  destruct (x <? today) eqn:Hx.
  - apply Z.ltb_lt in Hx.
    set (x' := advance tz (frequency item) x) in *.
    destruct (x' <? today) eqn:Hx'.
    + apply Z.ltb_lt in Hx'.
      apply IH in H as (n & -> & Hk & Hnext & Hzero).
      exists (S n). split.
      * rewrite occurrences_shift. fold x'. now rewrite <- app_assoc.
      * split; [|split].
        -- intros [|k] Hr; [lia|]. rewrite <- dueDate_shift. fold x'.
           destruct k as [|k]; [exact Hx'|]. apply Hk. lia.
        -- intros _. rewrite <- dueDate_shift. fold x'. now apply Hnext.
        -- lia.
    + apply Z.ltb_ge in Hx'.
      apply IH in H as (n & -> & _ & _ & Hzero).
      rewrite (Hzero Hx'). exists O. split; [reflexivity|].
      split; [|split].
      * intros k Hr. lia.
      * intros _. exact Hx'.
      * lia.
  - apply Z.ltb_ge in Hx. injection H as <-.
    exists O. split; [now rewrite app_nil_r|].
    split; [|split]; [intros k Hr; lia | lia | reflexivity].
Qed.

(** The batch of a run is made of pairs: one document and the cursor
    update to its date. *)
Lemma forEachItem_spec tz fuel today :
  forall items batch batch',
  forEachItem tz fuel today items batch = Some batch' ->
  exists ns,
    Forall2 (fun item n =>
               caughtUp tz today (frequency item) (initialCursor item) n)
            items ns
    /\ batch' = batch ++ List.concat (zip_with
                  (fun item n => occurrences tz item (initialCursor item) n)
                  items ns).
Proof.
  induction items as [|item items IH]; intros batch b H.
  - injection H as <-. exists []. split; [constructor|].
    now rewrite app_nil_r.
  - cbn [forEachItem] in H.
    destruct (catchUp tz fuel today item (initialCursor item) batch)
      as [b1|] eqn:H1; [|discriminate].
    apply catchUp_spec in H1 as (n & -> & Hn).
    apply IH in H as (ns & Hns & ->).
    exists (n :: ns). split; [now constructor|].
    cbn. now rewrite <- app_assoc.
Qed.

Lemma newDocs_app b batch1 batch2 :
  newDocs b (batch1 ++ batch2) = newDocs b batch1 ++ newDocs b batch2.
Proof. unfold newDocs. apply flat_map_app. Qed.

Lemma cursorAfter_app batch1 batch2 item :
  cursorAfter (batch1 ++ batch2) item
  = cursorAfter batch2 (cursorAfter batch1 item).
Proof. unfold cursorAfter. apply fold_left_app. Qed.

Lemma applyOp_applied op batch st :
  applyOp (applied batch st) op = applied (batch ++ [op]) st.
Proof.
  unfold applied.
  assert (Hr : List.map (cursorAfter (batch ++ [op])) (recurringColl st)
               = List.map (cursorAfter [op])
                   (List.map (cursorAfter batch) (recurringColl st))).
  { rewrite map_map. apply map_ext. intros it. apply cursorAfter_app. }
  rewrite Hr, !newDocs_app.
  destruct op as [c e | i d]; cbn [applyOp transactionsColl incomesColl
                                    recurringColl newDocs flat_map].
  - destruct (String.eqb c "incomes"); cbn [Bool.eqb];
      rewrite !app_nil_r, ?app_assoc, ?map_id; reflexivity.
  - rewrite !app_nil_r. reflexivity.
Qed.

Lemma commit_applied batch st :
  commit Committed batch st = applied batch st.
Proof.
  unfold commit.
  assert (G : forall done, fold_left applyOp batch (applied done st)
                           = applied (done ++ batch) st).
  { induction batch as [|op batch IH]; intros done; cbn [fold_left].
    - now rewrite app_nil_r.
    - rewrite applyOp_applied, IH. now rewrite <- app_assoc. }
  specialize (G []). cbn [app] in G. rewrite <- G. f_equal.
  unfold applied. cbn. destruct st; cbn. rewrite !app_nil_r.
  f_equal. now rewrite map_id.
Qed.

(** ** Idempotence on hosts without clock changes *)

Lemma parseISODate_midnight d : TimeWithinDay (parseISODate d) = 0.
Proof.
  unfold parseISODate. apply TimeWithinDay_MakeDate. unfold msPerDay. lia.
Qed.

(** Printing a UTC midnight and reading it back gives the same time
    value. *)
Lemma parse_toISODate t :
  TimeWithinDay t = 0 -> parseISODate (toISODate t) = t.
Proof.
  intros H0. unfold toISODate, parseISODate.
  pose proof (civil_from_days_spec (Day t)) as Hs.
  destruct (civil_from_days (Day t)) as [[y m] d].
  cbn [isoYear isoMonth isoDay]. destruct Hs as [-> _].
  rewrite <- H0. apply MakeDate_Day.
Qed.

Lemma fixed_zone_keeps_midnight offset dn t :
  TimeWithinDay t = 0 ->
  TimeWithinDay (MakeDate dn (TimeWithinDay (t + offset)) - offset) = 0.
Proof.
  unfold TimeWithinDay, MakeDate. intros H0.
  assert (Ht : t = msPerDay * (t / msPerDay))
    by (pose proof (Z.div_mod t msPerDay); unfold msPerDay in *; lia).
  assert (E : (t + offset) mod msPerDay = offset mod msPerDay).
  { rewrite Ht. rewrite Z.add_comm, Z.mul_comm.
    apply Z.mod_add. unfold msPerDay. lia. }
  rewrite E.
  replace (dn * msPerDay + offset mod msPerDay - offset)
    with ((dn - offset / msPerDay) * msPerDay)
    by (pose proof (Z.div_mod offset msPerDay); unfold msPerDay in *; lia).
  apply Z.mod_mul. unfold msPerDay. lia.
Qed.

Lemma advance_fixed_midnight offset freq t :
  TimeWithinDay t = 0 -> TimeWithinDay (advance (fixedZone offset) freq t) = 0.
Proof.
  intros H0. unfold advance.
  destruct (String.eqb freq "monthly");
    [|destruct (String.eqb freq "yearly")]; [| |exact H0].
  - unfold setMonth, UTC, LocalTime.
    cbn [fixedZone offsetAtUTC offsetAtLocal].
    now apply fixed_zone_keeps_midnight.
  - unfold setFullYear, UTC, LocalTime.
    cbn [fixedZone offsetAtUTC offsetAtLocal].
    now apply fixed_zone_keeps_midnight.
Qed.

Lemma dueDate_fixed_midnight offset freq start k :
  TimeWithinDay start = 0 ->
  TimeWithinDay (dueDate (fixedZone offset) freq start k) = 0.
Proof.
  intros H0. unfold dueDate. induction k as [|k IH]; [exact H0|].
  cbn [Nat.iter]. now apply advance_fixed_midnight.
Qed.

Lemma initialCursor_midnight item : TimeWithinDay (initialCursor item) = 0.
Proof.
  unfold initialCursor. destruct (lastProcessed item);
    apply parseISODate_midnight.
Qed.

(** *** Cursor updates *)

Lemma setLastProcessed_fields i d it :
  id (setLastProcessed i d it) = id it
  /\ frequency (setLastProcessed i d it) = frequency it
  /\ startDate (setLastProcessed i d it) = startDate it.
Proof.
  unfold setLastProcessed. destruct (String.eqb (id it) i); now cbn.
Qed.

Lemma cursorAfter_fields batch : forall it,
  id (cursorAfter batch it) = id it
  /\ frequency (cursorAfter batch it) = frequency it
  /\ startDate (cursorAfter batch it) = startDate it.
Proof.
  unfold cursorAfter.
  induction batch as [|op batch IH]; intros it; cbn [fold_left]; [easy|].
  destruct op as [c e | i d]; [apply IH|].
  destruct (IH (setLastProcessed i d it)) as (-> & -> & ->).
  apply setLastProcessed_fields.
Qed.

(** Updates addressed to other templates leave a template as it is. *)
Lemma cursorAfter_foreign batch it :
  (forall i d, In (BatchUpdate i d) batch -> i <> id it) ->
  cursorAfter batch it = it.
Proof.
  unfold cursorAfter. induction batch as [|op batch IH]; intros H;
    cbn [fold_left]; [reflexivity|].
  destruct op as [c e | i d].
  - apply IH. intros i d Hin. apply (H i d). now right.
  - assert (Hne : i <> id it) by (apply (H i d); now left).
    unfold setLastProcessed at 2.
    replace (String.eqb (id it) i) with false
      by (symmetry; apply String.eqb_neq; congruence).
    apply IH. intros j d' Hin. apply (H j d'). now right.
Qed.

Lemma occurrences_updates tz item start n i d :
  In (BatchUpdate i d) (occurrences tz item start n) -> i = id item.
Proof.
  unfold occurrences. rewrite in_flat_map. intros (k & _ & Hin).
  unfold materialize in Hin.
  destruct Hin as [H | [H | []]]; [discriminate|]. now injection H.
Qed.

Lemma occurrences_snoc tz item start n :
  occurrences tz item start (S n)
  = occurrences tz item start n
    ++ materialize item (dueDate tz (frequency item) start (S n)).
Proof.
  unfold occurrences. rewrite seq_S, flat_map_app. cbn [flat_map].
  now rewrite app_nil_r.
Qed.

(** The cursor a template is left with by its own block of writes. *)
Lemma initialCursor_after_own tz item start n :
  initialCursor (cursorAfter (occurrences tz item start n) item)
  = match n with
    | O => initialCursor item
    | S _ => parseISODate (toISODate (dueDate tz (frequency item) start n))
    end.
Proof.
  destruct n as [|n]; [reflexivity|].
  rewrite occurrences_snoc, cursorAfter_app.
  set (it := cursorAfter (occurrences tz item start n) item).
  assert (Hid : id it = id item) by apply cursorAfter_fields.
  unfold materialize, cursorAfter. cbn [fold_left].
  unfold setLastProcessed. rewrite Hid, String.eqb_refl.
  reflexivity.
Qed.

(** *** The second run *)

Lemma catchUp_when_caught_up tz today item item' start n batch fuel :
  frequency item' = frequency item ->
  caughtUp tz today (frequency item) start n ->
  (2 <= fuel)%nat ->
  catchUp tz fuel today item'
    (dueDate tz (frequency item) start n) batch = Some batch.
Proof.
  intros Hf (Hk & Hnext & Hzero) Hfuel.
  destruct fuel as [|[|fuel]]; [lia | lia |].
  cbn [catchUp]. rewrite Hf.
  destruct (dueDate tz (frequency item) start n <? today) eqn:E;
    [|reflexivity].
  apply Z.ltb_lt in E.
  assert (Hs : start < today).
  { destruct n as [|n]; [exact E|].
    destruct (Z_lt_ge_dec start today) as [H | H]; [exact H|].
    assert (S n = O) by (apply Hzero; lia). discriminate. }
  specialize (Hnext Hs).
  change (dueDate tz (frequency item) start (S n))
    with (advance tz (frequency item) (dueDate tz (frequency item) start n))
    in Hnext.
  apply Z.ltb_ge in Hnext. rewrite Hnext. reflexivity.
Qed.

Lemma forEachItem_second_run offset fuel today :
  (2 <= fuel)%nat ->
  forall items ns pre,
  NoDup (List.map id items) ->
  Forall2 (fun item n =>
             caughtUp (fixedZone offset) today (frequency item)
               (initialCursor item) n) items ns ->
  (forall i d, In (BatchUpdate i d) pre -> ~ In i (List.map id items)) ->
  forall batch,
  forEachItem (fixedZone offset) fuel today
    (List.map
       (cursorAfter
          (pre ++ List.concat
                    (zip_with
                       (fun item n =>
                          occurrences (fixedZone offset) item
                            (initialCursor item) n)
                       items ns)))
       items)
    batch
  = Some batch.
Proof.
  intros Hfuel items ns pre Hnd Hall. revert pre Hnd.
  induction Hall as [|item n items ns Hn Hall IH]; intros pre Hnd Hpre batch;
    [reflexivity|].
  cbn [List.map zip_with List.concat forEachItem].
  cbn [List.map] in Hnd. apply NoDup_cons in Hnd as [Hnotin Hnd].
  set (own := occurrences (fixedZone offset) item (initialCursor item) n).
  set (rest := List.concat
                 (zip_with
                    (fun item n =>
                       occurrences (fixedZone offset) item
                         (initialCursor item) n) items ns)).
  assert (Hit : cursorAfter (pre ++ own ++ rest) item = cursorAfter own item).
  { rewrite !cursorAfter_app.
    rewrite (cursorAfter_foreign pre item).
    - apply cursorAfter_foreign. intros i d Hin.
      destruct (cursorAfter_fields own item) as (-> & _).
      subst rest. apply in_concat in Hin as (blk & Hblk & Hin).
      apply list_elem_of_In, elem_of_lookup_zip_with in Hblk
        as (k & it & nk & -> & Hk & _).
      apply occurrences_updates in Hin. subst i.
      intros Heq. apply Hnotin. rewrite <- Heq.
      apply list_elem_of_In, in_map, list_elem_of_In.
      now apply list_elem_of_lookup_2 with k.
    - intros i d Hin Heq. apply (Hpre i d Hin). left. now symmetry. }
  rewrite Hit.
  assert (Hfreq : frequency (cursorAfter own item) = frequency item)
    by apply cursorAfter_fields.
  assert (Hrun : catchUp (fixedZone offset) fuel today (cursorAfter own item)
                   (initialCursor (cursorAfter own item)) batch = Some batch).
  { subst own. rewrite initialCursor_after_own.
    destruct n as [|n].
    - apply (catchUp_when_caught_up _ _ item _ (initialCursor item) O);
        assumption.
    - rewrite parse_toISODate
        by (apply dueDate_fixed_midnight, initialCursor_midnight).
      apply (catchUp_when_caught_up _ _ item); assumption. }
  rewrite Hrun.
  replace (pre ++ own ++ rest) with ((pre ++ own) ++ rest)
    by (now rewrite app_assoc).
  apply IH; [exact Hnd|].
  intros i d Hin. apply in_app_or in Hin as [Hin | Hin].
  - intros Hi. apply (Hpre i d Hin). now right.
  - subst own. apply occurrences_updates in Hin. subst i.
    intros Hi. apply Hnotin. now apply list_elem_of_In.
Qed.

(** X2: on a host whose offset from UTC never changes, a second run on the
    store the first one produced queues nothing. *)
Theorem materializer_idempotent_on_fixed_offset offset fuel now st batch :
  NoDup (List.map id (recurringColl st)) ->
  processRecurringTransactions (fixedZone offset) fuel now (recurringColl st)
  = Some batch ->
  forall fuel', (2 <= fuel')%nat ->
  processRecurringTransactions (fixedZone offset) fuel' now
    (recurringColl (commit Committed batch st))
  = Some [].
Proof.
  intros Hnd H fuel' Hfuel. rewrite commit_applied.
  unfold processRecurringTransactions in *.
  apply forEachItem_spec in H as (ns & Hns & ->).
  cbn [applied recurringColl].
  apply (forEachItem_second_run offset fuel' _ Hfuel _ ns []); try assumption.
  intros i d [].
Qed.

(** ** Recurring materialiser: the claims *)

Lemma boundedZone_fixed offset :
  - msPerDay <= offset <= msPerDay -> boundedZone (fixedZone offset).
Proof. intros H t. cbn. lia. Qed.

Lemma boundedZone_europeBerlin : boundedZone europeBerlin.
Proof.
  intros t. cbn. split; case_match; unfold msPerDay, msPerHour; lia.
Qed.

(** With the host on UTC, the template of 15 January, never processed
    and run on 1 May, yields the three documents of February, March and
    April, the last of which is the cursor. *)
Example catch_up_on_utc :
  processRecurringTransactions utcZone 8 (atNoon (isoDate 2024 5 1))
    [recurringRent "monthly" (isoDate 2024 1 15) None]
  = Some (rentOn (isoDate 2024 2 15) ++ rentOn (isoDate 2024 3 15)
          ++ rentOn (isoDate 2024 4 15)).
Proof. vm_compute. reflexivity. Qed.

(** C1, on a host in Central European time: the same template, run on
    1 May 2024, yields a third document dated 2024-04-14 and leaves the
    cursor on 2024-04-14.  [setMonth] keeps the local wall-clock reading
    01:00, which after the change to summer time is 23:00 UTC of the
    previous day, and [toISOString] prints the UTC date. *)
Theorem catch_up_in_berlin_misdates_april :
  setHours0 europeBerlin (atNoon (isoDate 2024 5 1))
    = parseISODate (isoDate 2024 5 1) - 2 * msPerHour
  /\ processRecurringTransactions europeBerlin 8 (atNoon (isoDate 2024 5 1))
       [recurringRent "monthly" (isoDate 2024 1 15) None]
     = Some (rentOn (isoDate 2024 2 15) ++ rentOn (isoDate 2024 3 15)
             ++ rentOn (isoDate 2024 4 14))
  /\ option_map
       (fun st' => List.map lastProcessed (recurringColl st'))
       (runMaterializer europeBerlin 8 (atNoon (isoDate 2024 5 1)) Committed
          (storeWith [recurringRent "monthly" (isoDate 2024 1 15) None]))
     = Some [Some (isoDate 2024 4 14)].
Proof. repeat split; vm_compute; reflexivity. Qed.

(** On a host behind UTC the loop materialises a document carrying
    today's own date: the cursor is parsed as UTC midnight, [today] is
    local midnight, five hours later. *)
Example catch_up_behind_utc_emits_today :
  setHours0 utcMinus5 (atNoon (isoDate 2024 5 15))
    = parseISODate (isoDate 2024 5 15) + 5 * msPerHour
  /\ processRecurringTransactions utcMinus5 8 (atNoon (isoDate 2024 5 15))
       [recurringRent "monthly" (isoDate 2024 4 15) None]
     = Some (rentOn (isoDate 2024 5 15)).
Proof. split; vm_compute; reflexivity. Qed.

(** C2, on a host in Central European time: run on 15 May 2024, the
    first run leaves the cursor on 2024-04-14; the second run, on the
    store the first one produced and with the same [now], queues one more
    document, dated 2024-05-14, and moves the cursor again. *)
Theorem second_run_in_berlin_adds_a_document :
  let now := atNoon (isoDate 2024 5 15) in
  let st0 := storeWith [recurringRent "monthly" (isoDate 2024 1 15) None] in
  exists st1,
    runMaterializer europeBerlin 8 now Committed st0 = Some st1
    /\ recurringColl st1
       = [recurringRent "monthly" (isoDate 2024 1 15)
            (Some (isoDate 2024 4 14))]
    /\ processRecurringTransactions europeBerlin 8 now (recurringColl st1)
       = Some (rentOn (isoDate 2024 5 14)).
Proof.
  cbv zeta. eexists. split; [vm_compute; reflexivity|].
  split; vm_compute; reflexivity.
Qed.

(** C10: with a frequency of ['monthly'] or ['yearly'] every iteration
    moves the cursor forward and the loop leaves; with any other frequency
    and a cursor before [today] the cursor never moves and the loop does
    not leave. *)
Theorem catch_up_loop_termination tz today item start batch :
  (boundedZone tz ->
   frequency item = "monthly" \/ frequency item = "yearly" ->
   (forall t, t < advance tz (frequency item) t)
   /\ exists fuel batch',
        catchUp tz fuel today item start batch = Some batch')
  /\ (frequency item <> "monthly" -> frequency item <> "yearly" ->
      start < today ->
      (forall t, advance tz (frequency item) t = t)
      /\ forall fuel, catchUp tz fuel today item start batch = None).
Proof.
  split.
  - intros Hb Hf. split.
    + intros t. now apply advance_progress.
    + now apply catchUp_terminates.
  - intros H1 H2 Hlt. split.
    + intros t. now apply advance_other.
    + intros fuel. now apply catchUp_diverges.
Qed.

Lemma catch_up_loop_termination_witness :
  (boundedZone utcZone
   /\ (frequency (recurringRent "monthly" (isoDate 2024 1 15) None)
         = "monthly"
       \/ frequency (recurringRent "monthly" (isoDate 2024 1 15) None)
         = "yearly")
   /\ exists fuel batch',
        catchUp utcZone fuel (parseISODate (isoDate 2024 5 1))
          (recurringRent "monthly" (isoDate 2024 1 15) None)
          (parseISODate (isoDate 2024 1 15)) [] = Some batch')
  /\ (frequency (recurringRent "weekly" (isoDate 2024 1 15) None)
        <> "monthly"
      /\ frequency (recurringRent "weekly" (isoDate 2024 1 15) None)
        <> "yearly"
      /\ parseISODate (isoDate 2024 1 15) < parseISODate (isoDate 2024 5 1)
      /\ forall fuel,
           catchUp utcZone fuel (parseISODate (isoDate 2024 5 1))
             (recurringRent "weekly" (isoDate 2024 1 15) None)
             (parseISODate (isoDate 2024 1 15)) [] = None).
Proof.
  split.
  - assert (Hb : boundedZone utcZone)
      by (intros t; cbn; unfold msPerDay; lia).
    split; [exact Hb|]. split; [left; reflexivity|].
    apply (proj1 (catch_up_loop_termination utcZone
                    (parseISODate (isoDate 2024 5 1))
                    (recurringRent "monthly" (isoDate 2024 1 15) None)
                    (parseISODate (isoDate 2024 1 15)) []) Hb).
    left; reflexivity.
  - split; [discriminate|]. split; [discriminate|].
    split; [vm_compute; reflexivity|].
    apply (proj2 (catch_up_loop_termination utcZone
                    (parseISODate (isoDate 2024 5 1))
                    (recurringRent "weekly" (isoDate 2024 1 15) None)
                    (parseISODate (isoDate 2024 1 15)) []));
      [discriminate | discriminate | vm_compute; reflexivity].
Defined.

(** ** Recurring materialiser: one batch for the whole run *)

Lemma cursorAfter_other_fields batch : forall it,
  itemType (cursorAfter batch it) = itemType it
  /\ details (cursorAfter batch it) = details it.
Proof.
  unfold cursorAfter.
  induction batch as [|op batch IH]; intros it; cbn [fold_left]; [easy|].
  destruct op as [c e | i d]; [apply IH|].
  destruct (IH (setLastProcessed i d it)) as (-> & ->).
  unfold setLastProcessed. destruct (String.eqb (id it) i); now cbn.
Qed.

Lemma cursorAfter_in_run tz :
  forall items ns pre,
  NoDup (List.map id items) ->
  List.length items = List.length ns ->
  (forall i d, In (BatchUpdate i d) pre -> ~ In i (List.map id items)) ->
  List.map
    (cursorAfter
       (pre ++ List.concat
                 (zip_with
                    (fun item n => occurrences tz item (initialCursor item) n)
                    items ns)))
    items
  = zip_with
      (fun item n =>
         cursorAfter (occurrences tz item (initialCursor item) n) item)
      items ns.
Proof.
  induction items as [|item items IH]; intros ns pre Hnd Hlen Hpre;
    [reflexivity|].
  destruct ns as [|n ns]; [discriminate|].
  cbn [List.map zip_with List.concat].
  cbn [List.map] in Hnd. apply NoDup_cons in Hnd as [Hnotin Hnd].
  set (own := occurrences tz item (initialCursor item) n).
  set (rest := List.concat
                 (zip_with
                    (fun item n => occurrences tz item (initialCursor item) n)
                    items ns)).
  f_equal.
  - rewrite !cursorAfter_app. rewrite (cursorAfter_foreign pre item).
    + apply cursorAfter_foreign. intros i d Hin.
      destruct (cursorAfter_fields own item) as (-> & _).
      subst rest. apply in_concat in Hin as (blk & Hblk & Hin).
      apply list_elem_of_In, elem_of_lookup_zip_with in Hblk
        as (k & it & nk & -> & Hk & _).
      apply occurrences_updates in Hin. subst i.
      intros Heq. apply Hnotin. rewrite <- Heq.
      apply list_elem_of_In, in_map, list_elem_of_In.
      now apply list_elem_of_lookup_2 with k.
    + intros i d Hin Heq. apply (Hpre i d Hin). left. now symmetry.
  - replace (pre ++ own ++ rest) with ((pre ++ own) ++ rest)
      by (now rewrite app_assoc).
    apply IH; [exact Hnd | now injection Hlen |].
    intros i d Hin. apply in_app_or in Hin as [Hin | Hin].
    + intros Hi. apply (Hpre i d Hin). now right.
    + subst own. apply occurrences_updates in Hin. subst i.
      intros Hi. apply Hnotin. now apply list_elem_of_In.
Qed.

(** The cursor a template is left with by its own block of writes: the
    date of the last document of the block. *)
Lemma cursorAfter_own tz item n :
  cursorAfter (occurrences tz item (initialCursor item) n) item
  = match last (dueDates tz item n) with
    | Some d => withCursor item d
    | None => item
    end.
Proof.
  unfold dueDates. destruct n as [|n]; [reflexivity|].
  rewrite seq_S, map_app. cbn [List.map Nat.add]. rewrite last_snoc.
  rewrite occurrences_snoc, cursorAfter_app.
  set (it := cursorAfter (occurrences tz item (initialCursor item) n) item).
  destruct (cursorAfter_fields (occurrences tz item (initialCursor item) n)
              item) as (Hid & Hfreq & Hstart).
  destruct (cursorAfter_other_fields
              (occurrences tz item (initialCursor item) n) item)
    as (Htype & Hdetails).
  fold it in Hid, Hfreq, Hstart, Htype, Hdetails.
  clearbody it.
  unfold materialize, cursorAfter. cbn [fold_left].
  unfold setLastProcessed, withCursor.
  rewrite Hid, Hfreq, Hstart, Htype, Hdetails, String.eqb_refl.
  reflexivity.
Qed.

(** The documents of a template's block of writes: one for each of its
    due dates, in the collection its [type] selects. *)
Lemma newDocs_own tz item n b :
  newDocs b (occurrences tz item (initialCursor item) n)
  = if Bool.eqb (String.eqb (itemType item) "income") b
    then List.map (documentOn item) (dueDates tz item n)
    else [].
Proof.
  unfold dueDates. induction n as [|n IH].
  - cbn. now destruct (Bool.eqb _ b).
  - rewrite occurrences_snoc, newDocs_app, IH, seq_S, !map_app.
    cbn [Nat.add List.map]. unfold materialize, newDocs at 1.
    cbn [flat_map]. rewrite !app_nil_r.
    destruct (String.eqb (itemType item) "income") eqn:E.
    + change (String.eqb "incomes" "incomes") with true.
      destruct b; cbn [Bool.eqb]; [reflexivity | now rewrite app_nil_r].
    + change (String.eqb "transactions" "incomes") with false.
      destruct b; cbn [Bool.eqb]; [now rewrite app_nil_r | reflexivity].
Qed.

Lemma newDocs_in_run tz b :
  forall items ns,
  List.length items = List.length ns ->
  newDocs b (List.concat
               (zip_with
                  (fun item n => occurrences tz item (initialCursor item) n)
                  items ns))
  = List.concat
      (zip_with
         (fun item ds =>
            if Bool.eqb (String.eqb (itemType item) "income") b
            then List.map (documentOn item) ds else [])
         items (zip_with (dueDates tz) items ns)).
Proof.
  induction items as [|item items IH]; intros ns Hlen; [reflexivity|].
  destruct ns as [|n ns]; [discriminate|].
  cbn [zip_with List.concat]. rewrite newDocs_app, newDocs_own.
  f_equal. apply IH. now injection Hlen.
Qed.

(** C3: the writes of a run, for all templates, reach the store through
    one [commit], so that a run has two possible outcomes.  With
    [dates] the dates of the due dates before [today], template by
    template: a rejected commit leaves the store as it was; an accepted
    one adds, for every template and every one of its dates, one document
    with the template's details and that date, to [incomes] or to
    [transactions], and leaves every template that has such a date with
    its cursor on the last of them and every other template as it was.
    No other post-state exists: the cursor of a template has moved
    exactly when its documents are in the store. *)
Theorem materializer_batch_is_atomic tz fuel now st batch :
  NoDup (List.map id (recurringColl st)) ->
  processRecurringTransactions tz fuel now (recurringColl st) = Some batch ->
  exists dates : list (list ISODate),
    let created (income : bool) : list Entry :=
      List.concat
        (zip_with
           (fun item ds =>
              if Bool.eqb (String.eqb (itemType item) "income") income
              then List.map (documentOn item) ds else [])
           (recurringColl st) dates) in
    let after : Store :=
      {| transactionsColl := transactionsColl st ++ created false;
         incomesColl := incomesColl st ++ created true;
         recurringColl :=
           zip_with
             (fun item ds =>
                match last ds with
                | Some d => withCursor item d
                | None => item
                end)
             (recurringColl st) dates |} in
    Forall2
      (fun item ds =>
         ds = dueDates tz item (List.length ds)
         /\ caughtUp tz (setHours0 tz now) (frequency item)
              (initialCursor item) (List.length ds))
      (recurringColl st) dates
    /\ runMaterializer tz fuel now Rejected st = Some st
    /\ runMaterializer tz fuel now Committed st = Some after
    /\ (forall outcome st',
          runMaterializer tz fuel now outcome st = Some st' ->
          st' = st \/ st' = after).
Proof.
  intros Hnd H.
  pose proof H as Hrun. unfold processRecurringTransactions in H.
  apply forEachItem_spec in H as (ns & Hns & Hbatch).
  cbn [app] in Hbatch.
  assert (Hlen : List.length (recurringColl st) = List.length ns)
    by (eapply Forall2_length; exact Hns).
  exists (zip_with (dueDates tz) (recurringColl st) ns). cbv zeta.
  assert (Hafter : commit Committed batch st
    = {| transactionsColl :=
           transactionsColl st
           ++ List.concat
                (zip_with
                   (fun item ds =>
                      if Bool.eqb (String.eqb (itemType item) "income") false
                      then List.map (documentOn item) ds else [])
                   (recurringColl st)
                   (zip_with (dueDates tz) (recurringColl st) ns));
         incomesColl :=
           incomesColl st
           ++ List.concat
                (zip_with
                   (fun item ds =>
                      if Bool.eqb (String.eqb (itemType item) "income") true
                      then List.map (documentOn item) ds else [])
                   (recurringColl st)
                   (zip_with (dueDates tz) (recurringColl st) ns));
         recurringColl :=
           zip_with
             (fun item ds =>
                match last ds with
                | Some d => withCursor item d
                | None => item
                end)
             (recurringColl st)
             (zip_with (dueDates tz) (recurringColl st) ns) |}).
  { rewrite commit_applied. unfold applied. subst batch.
    rewrite !(newDocs_in_run tz _ _ _ Hlen). f_equal.
    pose proof (cursorAfter_in_run tz (recurringColl st) ns [] Hnd Hlen) as Hc.
    cbn [app] in Hc. rewrite Hc by (intros i d []).
    clear Hc Hns Hrun Hnd. revert ns Hlen.
    induction (recurringColl st) as [|item items IH]; intros ns Hlen;
      [reflexivity|].
    destruct ns as [|n ns]; [discriminate|].
    cbn [zip_with]. rewrite cursorAfter_own. f_equal.
    apply IH. now injection Hlen. }
  split; [|split; [|split]].
  - clear Hafter Hrun Hbatch Hnd Hlen.
    induction Hns as [|item n items ns Hn Hns IH]; cbn [zip_with];
      constructor; [|exact IH].
    assert (Hl : List.length (dueDates tz item n) = n)
      by (unfold dueDates; now rewrite length_map, length_seq).
    rewrite Hl. split; [reflexivity | exact Hn].
  - unfold runMaterializer. now rewrite Hrun.
  - unfold runMaterializer. now rewrite Hrun, Hafter.
  - intros outcome st'. unfold runMaterializer. rewrite Hrun.
    intros [= <-]. destruct outcome; [right; exact Hafter | now left].
Qed.

Lemma materializer_batch_is_atomic_witness :
  let st :=
    storeWith [recurringRent "monthly" (isoDate 2024 1 15) None;
               recurringSalary (isoDate 2024 3 28) None] in
  let after :=
    {| transactionsColl :=
         [{| date := isoDate 2024 2 15; fields := rent |};
          {| date := isoDate 2024 3 15; fields := rent |};
          {| date := isoDate 2024 4 15; fields := rent |}];
       incomesColl := [{| date := isoDate 2024 4 28; fields := salary |}];
       recurringColl :=
         [recurringRent "monthly" (isoDate 2024 1 15)
            (Some (isoDate 2024 4 15));
          recurringSalary (isoDate 2024 3 28) (Some (isoDate 2024 4 28))] |} in
  NoDup (List.map id (recurringColl st))
  /\ runMaterializer utcZone 8 (atNoon (isoDate 2024 5 1)) Rejected st
     = Some st
  /\ runMaterializer utcZone 8 (atNoon (isoDate 2024 5 1)) Committed st
     = Some after
  /\ (forall outcome st',
        runMaterializer utcZone 8 (atNoon (isoDate 2024 5 1)) outcome st
        = Some st' ->
        st' = st \/ st' = after).
Proof.
  cbv zeta.
  set (st := storeWith [recurringRent "monthly" (isoDate 2024 1 15) None;
                        recurringSalary (isoDate 2024 3 28) None]).
  assert (Hnd : NoDup (List.map id (recurringColl st)))
    by (apply (bool_decide_unpack _); vm_compute; reflexivity).
  assert (Hrun : processRecurringTransactions utcZone 8
                   (atNoon (isoDate 2024 5 1)) (recurringColl st)
                 = Some (rentOn (isoDate 2024 2 15)
                         ++ rentOn (isoDate 2024 3 15)
                         ++ rentOn (isoDate 2024 4 15)
                         ++ [BatchSet "incomes"
                               {| date := isoDate 2024 4 28;
                                  fields := salary |};
                             BatchUpdate "salary" (isoDate 2024 4 28)]))
    by (vm_compute; reflexivity).
  destruct (materializer_batch_is_atomic _ _ _ _ _ Hnd Hrun)
    as (dates & _ & Hrej & Hacc & Hall).
  cbv zeta in Hacc, Hall.
  assert (E : runMaterializer utcZone 8 (atNoon (isoDate 2024 5 1))
                Committed st
              = Some
                  {| transactionsColl :=
                       [{| date := isoDate 2024 2 15; fields := rent |};
                        {| date := isoDate 2024 3 15; fields := rent |};
                        {| date := isoDate 2024 4 15; fields := rent |}];
                     incomesColl :=
                       [{| date := isoDate 2024 4 28; fields := salary |}];
                     recurringColl :=
                       [recurringRent "monthly" (isoDate 2024 1 15)
                          (Some (isoDate 2024 4 15));
                        recurringSalary (isoDate 2024 3 28)
                          (Some (isoDate 2024 4 28))] |})
    by (vm_compute; reflexivity).
  split; [exact Hnd|]. split; [exact Hrej|]. split; [exact E|].
  intros outcome st' H.
  destruct (Hall outcome st' H) as [-> | ->]; [now left | right].
  congruence.
Defined.

(** ** Balances *)

(** C4, on a host five hours behind UTC: an expense and an income dated
    1 May 2024 are, for the target month May 2024, summed into [opening]
    and left out of [cashFlow]; it is the cash flow of April that counts
    them.  The date string is read as UTC midnight, which is 19:00 on
    30 April on that host, while the month start is local midnight. *)
Theorem first_of_month_behind_utc_counts_as_previous_month :
  let t := expenseOn (isoDate 2024 5 1) 100 "EUR" in
  let i := incomeOn (isoDate 2024 5 1) 2000 "EUR" in
  startOfSelectedMonth utcMinus5 2024 4
    = parseISODate (isoDate 2024 5 1) + 5 * msPerHour
  /\ filterByDate utcMinus5 2024 4 t = true
  /\ filterByMonth utcMinus5 2024 4 t = false
  /\ filterByMonth utcMinus5 2024 3 t = true
  /\ filterByDate utcMinus5 2024 4 i = true
  /\ filterByMonth utcMinus5 2024 4 i = false
  /\ opening (calculateBalances utcMinus5 [t] [i] 2024 4 "EUR") = 1900%float
  /\ cashFlow (calculateBalances utcMinus5 [t] [i] 2024 4 "EUR") = 0%float
  /\ cashFlow (calculateBalances utcMinus5 [t] [i] 2024 3 "EUR") = 1900%float.
Proof. cbv zeta. repeat split; vm_compute; reflexivity. Qed.

(** ** Order of dates *)

(** Day number of the first day of the month with index [12 * y + (m - 1)]. *)
Lemma MakeDay_month_index y m :
  1 <= m <= 12 -> MakeDay 0 (12 * y + (m - 1)) 1 = days_from_civil y m 1.
Proof.
  intros Hm. unfold MakeDay.
  replace ((12 * y + (m - 1)) / 12) with y
    by (apply Z.div_unique with (m - 1); lia).
  replace ((12 * y + (m - 1)) mod 12) with (m - 1)
    by (apply Z.mod_unique with y; lia).
  replace (0 + y) with y by lia. replace (m - 1 + 1) with m by lia. lia.
Qed.

Lemma MakeDay_next_month i :
  MakeDay 0 i 1 + 28 <= MakeDay 0 (i + 1) 1.
Proof.
  set (y := i / 12). set (m := i mod 12 + 1).
  assert (Hm : 1 <= m <= 12)
    by (subst m; pose proof (Z.mod_pos_bound i 12); lia).
  assert (Hi : i = 12 * y + (m - 1))
    by (subst y m; pose proof (Z.div_mod i 12); lia).
  destruct (month_year_step y m Hm) as [Hstep _].
  pose proof (daysInMonth_ge y m) as Hge.
  rewrite Hi at 1. rewrite (MakeDay_month_index y m Hm).
  assert (E : MakeDay 0 (i + 1) 1 = MakeDay y m 1).
  { destruct (Z.eq_dec m 12) as [E12 | Hne].
    - replace (i + 1) with (12 * (y + 1) + (1 - 1)) by lia.
      rewrite MakeDay_month_index by lia. rewrite E12. unfold MakeDay.
      change (12 / 12) with 1. change (12 mod 12 + 1) with 1. lia.
    - replace (i + 1) with (12 * y + (m + 1 - 1)) by lia.
      rewrite MakeDay_month_index by lia.
      unfold MakeDay. rewrite Z.div_small, Z.mod_small by lia.
      replace (y + 0) with y by lia. lia. }
  lia.
Qed.

Lemma MakeDay_month_mono i (k : nat) :
  MakeDay 0 i 1 + 28 * Z.of_nat k <= MakeDay 0 (i + Z.of_nat k) 1.
Proof.
  induction k as [|k IH].
  - replace (i + Z.of_nat 0) with i by lia. lia.
  - pose proof (MakeDay_next_month (i + Z.of_nat k)).
    replace (i + Z.of_nat (S k)) with (i + Z.of_nat k + 1) by lia. lia.
Qed.

(** A valid date lies in its month. *)
Lemma valid_date_in_month y m d :
  validCivil y m d = true ->
  let i := 12 * y + (m - 1) in
  MakeDay 0 i 1 <= days_from_civil y m d < MakeDay 0 (i + 1) 1.
Proof.
  intros Hv. cbv zeta. unfold validCivil in Hv.
  repeat (apply andb_prop in Hv as [Hv ?]).
  assert (Hm : 1 <= m <= 12) by lia.
  destruct (month_year_step y m Hm) as [Hstep _].
  pose proof (MakeDay_next_month (12 * y + (m - 1))) as Hn.
  rewrite (MakeDay_month_index y m Hm) in *.
  rewrite (days_from_civil_linear y m d).
  assert (E : MakeDay 0 (12 * y + (m - 1) + 1) 1 = MakeDay y m 1).
  { destruct (Z.eq_dec m 12) as [-> | Hne].
    - replace (12 * y + (12 - 1) + 1) with (12 * (y + 1) + (1 - 1)) by lia.
      rewrite MakeDay_month_index by lia. unfold MakeDay.
      change (12 / 12) with 1. change (12 mod 12 + 1) with 1. lia.
    - replace (12 * y + (m - 1) + 1) with (12 * y + (m + 1 - 1)) by lia.
      rewrite MakeDay_month_index by lia.
      unfold MakeDay. rewrite Z.div_small, Z.mod_small by lia.
      replace (y + 0) with y by lia. lia. }
  lia.
Qed.

(** The order of calendar dates against the first day of a month is the
    order of the day numbers. *)
Lemma before_first_of_month a y m :
  validISODate a = true -> 1 <= m <= 12 ->
  calendarBefore a (isoDate y m 1) = true
  <-> days_from_civil (isoYear a) (isoMonth a) (isoDay a)
      < days_from_civil y m 1.
Proof.
  intros Hv Hm. unfold validISODate in Hv.
  pose proof (valid_date_in_month _ _ _ Hv) as Hin. cbv zeta in Hin.
  assert (Hma : 1 <= isoMonth a <= 12 /\ 1 <= isoDay a).
  { unfold validCivil in Hv. repeat (apply andb_prop in Hv as [Hv ?]). lia. }
  rewrite <- (MakeDay_month_index y m Hm).
  set (i := 12 * isoYear a + (isoMonth a - 1)) in *.
  set (j := 12 * y + (m - 1)).
  assert (Hlex : calendarBefore a (isoDate y m 1) = true <-> i < j).
  { unfold calendarBefore, isoDate. cbn [isoYear isoMonth isoDay].
    rewrite orb_true_iff, andb_true_iff, orb_true_iff, andb_true_iff.
    rewrite !Z.ltb_lt, !Z.eqb_eq. subst i j. lia. }
  rewrite Hlex. split.
  - intros Hlt.
    pose proof (MakeDay_month_mono (i + 1) (Z.to_nat (j - (i + 1)))) as Hmono.
    rewrite Z2Nat.id in Hmono by lia.
    replace (i + 1 + (j - (i + 1))) with j in Hmono by lia. lia.
  - intros Hlt. destruct (Z_lt_ge_dec i j) as [H | H]; [exact H|].
    pose proof (MakeDay_month_mono j (Z.to_nat (i - j))) as Hmono.
    rewrite Z2Nat.id in Hmono by lia.
    replace (j + (i - j)) with i in Hmono by lia. lia.
Qed.

(** On a host that is not behind UTC, the two date filters of the
    dashboard select by calendar date: [filterByDate] the entries dated
    before the first day of the target month, [filterByMonth] those dated
    in the target month and year. *)
Lemma date_filters_ahead_of_utc tz y m (item : Entry) :
  aheadOfUTC tz -> 1 <= m <= 12 -> validISODate (date item) = true ->
  filterByDate tz y (m - 1) item = calendarBefore (date item) (isoDate y m 1)
  /\ filterByMonth tz y (m - 1) item
     = (isoMonth (date item) =? m) && (isoYear (date item) =? y).
Proof.
  intros Hz Hm Hv.
  unfold filterByMonth, filterByDate, startOfSelectedMonth, parseISODate.
  set (z := days_from_civil (isoYear (date item)) (isoMonth (date item))
              (isoDay (date item))).
  assert (Hday : Day (LocalTime tz (MakeDate z 0)) = z).
  { unfold LocalTime. destruct (Hz (MakeDate z 0)) as [H _].
    replace (MakeDate z 0 + offsetAtUTC tz (MakeDate z 0))
      with (MakeDate z (offsetAtUTC tz (MakeDate z 0)))
      by (unfold MakeDate; lia).
    now apply Day_MakeDate. }
  split.
  - unfold newDate. rewrite MakeDay_in_range by lia.
    replace (m - 1 + 1) with m by lia.
    set (z1 := days_from_civil y m 1).
    unfold UTC. destruct (Hz (MakeDate z1 0)) as [_ Hoff].
    pose proof (before_first_of_month (date item) y m Hv Hm) as Hlex.
    fold z z1 in Hlex.
    destruct (calendarBefore (date item) (isoDate y m 1)).
    + apply Z.ltb_lt. destruct Hlex as [Hlex _]. specialize (Hlex eq_refl).
      unfold MakeDate, msPerDay in *. lia.
    + apply Z.ltb_ge.
      assert (~ z < z1) by (intros Hc; apply Hlex in Hc; discriminate).
      unfold MakeDate, msPerDay in *. lia.
  - unfold getMonth, getFullYear, MonthFromTime, YearFromTime.
    rewrite Hday. subst z. unfold validISODate in Hv.
    rewrite (days_from_civil_spec _ _ _ Hv). cbn [fst snd].
    f_equal. destruct (Z.eqb_spec (isoMonth (date item)) m);
      [apply Z.eqb_eq; lia | apply Z.eqb_neq; lia].
Qed.

(** X5: on a host that is not behind UTC an entry dated on the first day of
    the target month is in the month and not before its start. *)
Lemma first_of_month_ahead_of_utc tz y m (item : Entry) :
  aheadOfUTC tz -> 1 <= m <= 12 ->
  date item = isoDate y m 1 ->
  filterByMonth tz y (m - 1) item = true
  /\ filterByDate tz y (m - 1) item = false.
Proof.
  intros Hz Hm Hd. unfold filterByMonth, filterByDate, startOfSelectedMonth.
  rewrite Hd. unfold parseISODate, isoDate. cbn [isoYear isoMonth isoDay].
  set (z := days_from_civil y m 1).
  assert (Hday : Day (LocalTime tz (MakeDate z 0)) = z).
  { unfold LocalTime. destruct (Hz (MakeDate z 0)) as [H _].
    replace (MakeDate z 0 + offsetAtUTC tz (MakeDate z 0))
      with (MakeDate z (offsetAtUTC tz (MakeDate z 0)))
      by (unfold MakeDate; lia).
    now apply Day_MakeDate. }
  assert (Hc : civil_from_days z = (y, m, 1))
    by (apply days_from_civil_spec; now apply validCivil_first).
  split.
  - unfold getMonth, getFullYear, MonthFromTime, YearFromTime.
    rewrite Hday, Hc. cbn [fst snd].
    apply andb_true_intro. split; apply Z.eqb_eq; reflexivity.
  - apply Z.ltb_ge. unfold newDate.
    rewrite MakeDay_in_range by lia. replace (m - 1 + 1) with m by lia.
    fold z. unfold UTC. destruct (Hz (MakeDate z 0)) as [_ H]. lia.
Qed.

Lemma filter_currency_isolated (cur other : string) (l : list Entry) :
  cur <> other ->
  List.filter (filterByCurrency cur) (List.filter (notInCurrency other) l)
  = List.filter (filterByCurrency cur) l.
Proof.
  intros Hne. induction l as [|e l IH]; [reflexivity|].
  cbn [List.filter]. unfold notInCurrency at 1, filterByCurrency at 2.
  destruct (String.eqb (currency e) other) eqn:E1; cbn [negb].
  - apply String.eqb_eq in E1.
    destruct (String.eqb (currency e) cur) eqn:E2.
    + apply String.eqb_eq in E2. congruence.
    + exact IH.
  - cbn [List.filter]. unfold filterByCurrency at 1.
    destruct (String.eqb (currency e) cur); now rewrite IH.
Qed.

Lemma filter_currency_idempotent (cur : string) (l : list Entry) :
  List.filter (filterByCurrency cur) (List.filter (filterByCurrency cur) l)
  = List.filter (filterByCurrency cur) l.
Proof.
  induction l as [|e l IH]; [reflexivity|]. cbn [List.filter].
  destruct (filterByCurrency cur e) eqn:E; [|exact IH].
  cbn [List.filter]. now rewrite E, IH.
Qed.

(** C5: the three figures of a currency are computed from the entries of
    that currency alone. *)
Theorem balances_are_isolated_per_currency tz transactions incomes y m :
  calculateBalances tz transactions incomes y m "EUR"
  = calculateBalances tz (List.filter (notInCurrency "INR") transactions)
      (List.filter (notInCurrency "INR") incomes) y m "EUR"
  /\ calculateBalances tz transactions incomes y m "INR"
     = calculateBalances tz (List.filter (notInCurrency "EUR") transactions)
         (List.filter (notInCurrency "EUR") incomes) y m "INR"
  /\ (forall cur,
        calculateBalances tz transactions incomes y m cur
        = calculateBalances tz
            (List.filter (filterByCurrency cur) transactions)
            (List.filter (filterByCurrency cur) incomes) y m cur).
Proof.
  unfold calculateBalances.
  rewrite !(filter_currency_isolated "EUR" "INR") by discriminate.
  rewrite !(filter_currency_isolated "INR" "EUR") by discriminate.
  split; [reflexivity|]. split; [reflexivity|].
  intros cur. now rewrite !filter_currency_idempotent.
Qed.

(** ** Doubles: signs and zeros *)

Module DoubleFacts.
Import SpecFloat FloatOps FloatAxioms.

Lemma digits2_pos_bounds p :
  2 ^ (Zpos (digits2_pos p) - 1) <= Zpos p < 2 ^ Zpos (digits2_pos p).
Proof.
  induction p as [p IH | p IH |]; cbn [digits2_pos].
  - rewrite Pos2Z.inj_succ.
    replace (Z.succ (Zpos (digits2_pos p)) - 1)
      with (Z.succ (Zpos (digits2_pos p) - 1)) by lia.
    rewrite !Z.pow_succ_r by lia. lia.
  - rewrite Pos2Z.inj_succ.
    replace (Z.succ (Zpos (digits2_pos p)) - 1)
      with (Z.succ (Zpos (digits2_pos p) - 1)) by lia.
    rewrite !Z.pow_succ_r by lia. lia.
  - cbn. lia.
Qed.

Lemma shr_1_m mrs :
  0 <= shr_m mrs -> shr_m (shr_1 mrs) = shr_m mrs / 2.
Proof.
  destruct mrs as [m r s]. cbn [shr_m shr_1]. intros Hm.
  destruct m as [|p|p]; [reflexivity| |lia].
  destruct p as [p|p|]; cbn [shr_m].
  - rewrite Pos2Z.inj_xI. apply Z.div_unique with 1; lia.
  - rewrite Pos2Z.inj_xO. apply Z.div_unique with 0; lia.
  - reflexivity.
Qed.

Lemma iter_shr_1_m p : forall mrs,
  0 <= shr_m mrs ->
  shr_m (iter_pos shr_1 p mrs) = shr_m mrs / 2 ^ Zpos p.
Proof.
  induction p as [p IH | p IH |]; intros mrs Hm; cbn [iter_pos].
  - assert (H1 : 0 <= shr_m (shr_1 mrs))
      by (rewrite shr_1_m by exact Hm; apply Z.div_pos; lia).
    assert (H2 : 0 <= shr_m (iter_pos shr_1 p (shr_1 mrs)))
      by (rewrite IH by exact H1; apply Z.div_pos; lia).
    rewrite IH by exact H2. rewrite IH by exact H1.
    rewrite shr_1_m by exact Hm.
    rewrite !Z.div_div by lia. f_equal.
    rewrite (Pos2Z.inj_xI p).
    replace (2 * Zpos p + 1) with (1 + Zpos p + Zpos p) by lia.
    rewrite !Z.pow_add_r by lia. change (2 ^ 1) with 2. lia.
  - assert (H2 : 0 <= shr_m (iter_pos shr_1 p mrs))
      by (rewrite IH by exact Hm; apply Z.div_pos; lia).
    rewrite IH by exact H2. rewrite IH by exact Hm.
    rewrite !Z.div_div by lia. f_equal.
    rewrite (Pos2Z.inj_xO p).
    replace (2 * Zpos p) with (Zpos p + Zpos p) by lia.
    rewrite Z.pow_add_r by lia. reflexivity.
  - rewrite shr_1_m by exact Hm. reflexivity.
Qed.

Lemma shr_record_of_loc_m m l : shr_m (shr_record_of_loc m l) = m.
Proof. destruct l as [|[]]; reflexivity. Qed.

Lemma fexp_ge e : emin <= fexp prec emax e.
Proof. unfold fexp. lia. Qed.

(** A right shift to the canonical exponent keeps a positive mantissa
    positive, as long as the exponent is not below the least one. *)
Lemma shr_fexp_pos m e l :
  0 < m -> emin <= e ->
  0 < shr_m (fst (shr_fexp prec emax m e l))
  /\ emin <= snd (shr_fexp prec emax m e l).
Proof.
  intros Hm He. unfold shr_fexp, shr.
  destruct m as [|p|p]; try lia. cbn [Zdigits2].
  pose proof (digits2_pos_bounds p) as Hd.
  set (d := Zpos (digits2_pos p)) in *.
  destruct (fexp prec emax (d + e) - e) as [|n|n] eqn:En; cbn [fst snd].
  - rewrite shr_record_of_loc_m. lia.
  - rewrite iter_shr_1_m by (rewrite shr_record_of_loc_m; lia).
    rewrite shr_record_of_loc_m. split.
    + assert (Hn : Zpos n <= d - 1).
      { unfold fexp, emin, prec, emax in *. lia. }
      assert (Hp : 2 ^ Zpos n <= 2 ^ (d - 1))
        by (apply Z.pow_le_mono_r; lia).
      apply Z.div_str_pos. lia.
    + rewrite <- En.
      replace (e + (fexp prec emax (d + e) - e))
        with (fexp prec emax (d + e)) by lia.
      apply fexp_ge.
  - rewrite shr_record_of_loc_m. lia.
Qed.

Lemma round_nearest_even_ge m l : m <= round_nearest_even m l.
Proof.
  unfold round_nearest_even. destruct l as [|[]]; try lia.
  destruct (Z.even m); lia.
Qed.

(** Rounding a nonzero value never gives zero or [NaN]: the result has
    the sign of the value. *)
Lemma binary_round_aux_sign sx m e l :
  0 < m -> emin <= e ->
  (exists m' e', binary_round_aux prec emax sx m e l = S754_finite sx m' e')
  \/ binary_round_aux prec emax sx m e l = S754_infinity sx.
Proof.
  intros Hm He. unfold binary_round_aux.
  destruct (shr_fexp_pos m e l Hm He) as [H1 H1'].
  destruct (shr_fexp prec emax m e l) as [mrs' e']. cbn [fst snd] in H1, H1'.
  set (m2 := round_nearest_even (shr_m mrs') (loc_of_shr_record mrs')).
  assert (H2 : 0 < m2)
    by (pose proof (round_nearest_even_ge (shr_m mrs')
                      (loc_of_shr_record mrs')); subst m2; lia).
  destruct (shr_fexp_pos m2 e' loc_Exact H2 H1') as [H3 _].
  destruct (shr_fexp prec emax m2 e' loc_Exact) as [mrs'' e''].
  cbn [fst] in H3.
  destruct (shr_m mrs'') as [|q|q]; try lia.
  destruct (e'' <=? emax - prec); [left; eauto | now right].
Qed.

Lemma binary_round_sign sx m e :
  emin <= e ->
  (exists m' e', binary_round prec emax sx m e = S754_finite sx m' e')
  \/ binary_round prec emax sx m e = S754_infinity sx.
Proof.
  intros He. unfold binary_round, shl_align.
  destruct (fexp prec emax (Zpos (digits2_pos m) + e) - e) as [|n|n] eqn:En;
    try (apply binary_round_aux_sign; [lia | exact He]).
  apply binary_round_aux_sign; [lia | apply fexp_ge].
Qed.

Lemma iter_xO m d : Zpos (Pos.iter xO m d) = Zpos m * 2 ^ Zpos d.
Proof.
  induction d as [|d IH] using Pos.peano_ind.
  - cbn. lia.
  - rewrite Pos.iter_succ, Pos2Z.inj_xO, IH, Pos2Z.inj_succ,
      Z.pow_succ_r by lia. lia.
Qed.

Lemma shl_align_value m e e' :
  e' <= e -> Zpos (fst (shl_align m e e')) = Zpos m * 2 ^ (e - e').
Proof.
  intros H. unfold shl_align.
  destruct (e' - e) as [|n|n] eqn:En; cbn [fst]; try lia.
  - replace (e - e') with 0 by lia. cbn. lia.
  - rewrite iter_xO. f_equal. f_equal. lia.
Qed.

(** Of two canonical mantissas, the one with the larger exponent stands
    for the larger magnitude. *)
Lemma bounded_exponent_order m1 e1 m2 e2 :
  bounded prec emax m1 e1 = true -> bounded prec emax m2 e2 = true ->
  e1 < e2 -> Zpos m1 < Zpos m2 * 2 ^ (e2 - e1).
Proof.
  unfold bounded, canonical_mantissa. intros H1 H2 Hlt.
  apply andb_prop in H1 as [H1 _]. apply andb_prop in H2 as [H2 _].
  apply Z.eqb_eq in H1, H2.
  pose proof (digits2_pos_bounds m1) as D1.
  pose proof (digits2_pos_bounds m2) as D2.
  set (d1 := Zpos (digits2_pos m1)) in *.
  set (d2 := Zpos (digits2_pos m2)) in *.
  unfold fexp, emin, prec, emax in H1, H2.
  assert (Hd2 : d2 = 53) by lia. assert (Hd1 : d1 <= 53) by lia.
  rewrite Hd2 in D2.
  assert (P1 : 2 ^ d1 <= 2 ^ 53) by (apply Z.pow_le_mono_r; lia).
  assert (P2 : 2 ^ 1 <= 2 ^ (e2 - e1)) by (apply Z.pow_le_mono_r; lia).
  change (2 ^ (53 - 1)) with 4503599627370496 in D2.
  change (2 ^ 53) with 9007199254740992 in *.
  change (2 ^ 1) with 2 in P2. nia.
Qed.

Lemma SFltb_sub_negative x y :
  valid_binary x = true -> valid_binary y = true ->
  SFltb x y = true ->
  SFltb (SF64sub x y) (S754_zero false) = true.
Proof.
  intros Vx Vy H.
  destruct x as [sx | sx | | sx mx ex], y as [sy | sy | | sy my ey];
    try discriminate H;
    try (match goal with
         | |- context [SF64sub (S754_finite _ _ _) (S754_finite _ _ _)] =>
             fail 1
         | _ =>
             repeat match goal with s : bool |- _ => destruct s end;
             try discriminate H; reflexivity
         end).
  unfold SFltb in H. cbn [SFcompare] in H.
  - cbn [valid_binary] in Vx, Vy.
    unfold SF64sub, SFsub.
    set (ez := Z.min ex ey).
    rewrite (shl_align_value mx ex ez) by (subst ez; lia).
    rewrite (shl_align_value my ey ez) by (subst ez; lia).
    assert (Hez : emin <= ez).
    { unfold bounded, canonical_mantissa in Vx, Vy.
      apply andb_prop in Vx as [Vx _]. apply andb_prop in Vy as [Vy _].
      apply Z.eqb_eq in Vx, Vy.
      pose proof (fexp_ge (Zpos (digits2_pos mx) + ex)).
      pose proof (fexp_ge (Zpos (digits2_pos my) + ey)).
      subst ez. lia. }
    assert (Hneg : cond_Zopp sx (Zpos mx * 2 ^ (ex - ez))
                   - cond_Zopp sy (Zpos my * 2 ^ (ey - ez)) < 0).
    { assert (Px : 0 < 2 ^ (ex - ez))
        by (apply Z.pow_pos_nonneg; subst ez; lia).
      assert (Py : 0 < 2 ^ (ey - ez))
        by (apply Z.pow_pos_nonneg; subst ez; lia).
      change (Pos.compare_cont Eq mx my) with (Pos.compare mx my) in H.
      destruct sx, sy; cbn [cond_Zopp]; try discriminate; [| nia |].
      - destruct (Z.compare_spec ex ey) as [E | E | E]; try discriminate.
        + subst ey. replace (ex - ez) with 0 by (subst ez; lia).
          change (2 ^ 0) with 1.
          destruct (Pos.compare_spec mx my) as [E' | E' | E'];
            try discriminate. lia.
        + pose proof (bounded_exponent_order my ey mx ex Vy Vx E) as Hb.
          replace (ey - ez) with 0 by (subst ez; lia).
          replace (ex - ez) with (ex - ey) by (subst ez; lia).
          change (2 ^ 0) with 1. lia.
      - destruct (Z.compare_spec ex ey) as [E | E | E]; try discriminate.
        + subst ey. replace (ex - ez) with 0 by (subst ez; lia).
          change (2 ^ 0) with 1.
          destruct (Pos.compare_spec mx my) as [E' | E' | E'];
            try discriminate. lia.
        + pose proof (bounded_exponent_order mx ex my ey Vx Vy E) as Hb.
          replace (ex - ez) with 0 by (subst ez; lia).
          replace (ey - ez) with (ey - ex) by (subst ez; lia).
          change (2 ^ 0) with 1. lia. }
    unfold binary_normalize.
    destruct (cond_Zopp sx (Zpos mx * 2 ^ (ex - ez))
              - cond_Zopp sy (Zpos my * 2 ^ (ey - ez))) as [|q|q];
      try lia.
    destruct (binary_round_sign true q ez Hez) as [(m' & e' & ->) | ->];
      reflexivity.
Qed.

(** For doubles [a < b]: the difference [a - b] is negative.  It is a
    nonzero multiple of the least positive double, which rounding keeps
    away from zero. *)
Lemma sub_negative (a b : float) :
  (a <? b)%float = true -> (a - b <? 0)%float = true.
Proof.
  rewrite !ltb_spec, sub_spec.
  change (Prim2SF 0) with (S754_zero false).
  apply SFltb_sub_negative; apply Prim2SF_valid.
Qed.

(** A sum is [-0] only when both terms are. *)
Lemma SFadd_neg_zero x y :
  valid_binary x = true -> valid_binary y = true ->
  SF64add x y = S754_zero true -> x = S754_zero true.
Proof.
  intros Vx Vy H.
  destruct x as [sx | sx | | sx mx ex], y as [sy | sy | | sy my ey];
    try discriminate H;
    try (match goal with
         | H : SF64add (S754_finite _ _ _) (S754_finite _ _ _) = _ |- _ =>
             fail 1
         | _ =>
             repeat match goal with s : bool |- _ => destruct s end;
             try discriminate H; reflexivity
         end).
  exfalso. cbn [valid_binary] in Vx, Vy.
  unfold SF64add, SFadd in H.
  set (ez := Z.min ex ey) in H.
  assert (Hez : emin <= ez).
  { unfold bounded, canonical_mantissa in Vx, Vy.
    apply andb_prop in Vx as [Vx _]. apply andb_prop in Vy as [Vy _].
    apply Z.eqb_eq in Vx, Vy.
    pose proof (fexp_ge (Zpos (digits2_pos mx) + ex)).
    pose proof (fexp_ge (Zpos (digits2_pos my) + ey)).
    subst ez. lia. }
  unfold binary_normalize in H.
  destruct (cond_Zopp sx (Zpos (fst (shl_align mx ex ez)))
            + cond_Zopp sy (Zpos (fst (shl_align my ey ez)))) as [|q|q];
    [discriminate H | |].
  - destruct (binary_round_sign false q ez Hez) as [(m' & e' & E) | E];
      rewrite E in H; discriminate H.
  - destruct (binary_round_sign true q ez Hez) as [(m' & e' & E) | E];
      rewrite E in H; discriminate H.
Qed.

Lemma add_neg_zero (a x : float) :
  (a + x)%float = neg_zero -> a = neg_zero.
Proof.
  intros H. apply Prim2SF_inj.
  change (Prim2SF neg_zero) with (S754_zero true).
  apply (SFadd_neg_zero (Prim2SF a) (Prim2SF x));
    try apply Prim2SF_valid.
  fold SF64add. rewrite <- add_spec, H. reflexivity.
Qed.

(** The doubles equal to [0] are [0] and [-0]. *)
Lemma eqb_zero (a : float) :
  (a =? 0)%float = true -> a = 0%float \/ a = neg_zero.
Proof.
  rewrite eqb_spec. change (Prim2SF 0) with (S754_zero false).
  intros H.
  destruct (Prim2SF a) as [s | s | | s m e] eqn:E;
    try (destruct s; discriminate H); try discriminate H.
  destruct s.
  - right. apply Prim2SF_inj. now rewrite E.
  - left. apply Prim2SF_inj. now rewrite E.
Qed.

End DoubleFacts.

(** ** Liabilities and net worth *)

Lemma fold_left_total {A} (f : A -> float) (l : list A) (a : float) :
  fold_left (fun sum x => (sum + f x)%float) l a
  = fold_left PrimFloat.add (List.map f l) a.
Proof.
  revert a. induction l as [|x l IH]; intros a; cbn [fold_left List.map];
    [reflexivity | apply IH].
Qed.

Lemma sumAmount_total (l : list Entry) : sumAmount l = totalOf l.
Proof. apply fold_left_total. Qed.

Lemma paymentsOf_towards transactions l :
  paymentsOf transactions l = paymentsTowards l transactions.
Proof.
  unfold paymentsOf, paymentsTowards.
  induction transactions as [|t ts IH]; [reflexivity|].
  cbn [List.filter]. rewrite filter_cons, IH.
  destruct (String.eqb_spec (type t) "liabilityPayment") as [Ht | Ht];
    cbn [andb].
  - unfold fieldIs. destruct (liabilityId t) as [i|] eqn:Ei.
    + destruct (String.eqb_spec i (liabId l)) as [-> | Hi].
      * rewrite decide_True by easy. reflexivity.
      * rewrite decide_False by (intros [_ [= E]]; contradiction).
        reflexivity.
    + rewrite decide_False by (intros [_ E]; discriminate). reflexivity.
  - rewrite decide_False by (intros [E _]; contradiction). reflexivity.
Qed.

(** C8: the balance of a liability is its total minus the sum of the
    payments that reference it, as doubles; it is not clamped: it is
    negative as soon as the payments exceed the total.  The net worth of
    a currency subtracts the sum of the balances as they stand. *)
Theorem liability_balance_is_not_clamped transactions liabilities assets :
  let details := liabilityDetails transactions liabilities in
  let owed (cur : string) : float :=
    sumDoubles (List.map balance
             (List.filter
                (fun d : LiabilityDetail => String.eqb (liabCurrency d) cur)
                details)) in
  Forall2
    (fun (l : Liability) (d : LiabilityDetail) =>
       liability d = l
       /\ paid d = totalOf (paymentsTowards l transactions)
       /\ balance d = (totalAmount l - paid d)%float
       /\ ((totalAmount l <? paid d)%float = true ->
           (balance d <? 0)%float = true))
    liabilities details
  /\ netWorthEUR transactions liabilities assets
     = (totalAssetsEUR assets + totalSavingsEUR transactions
        - owed "EUR")%float
  /\ netWorthINR transactions liabilities assets
     = (totalAssetsINR assets + totalSavingsINR transactions
        - owed "INR")%float.
Proof.
  cbv zeta. split; [|split].
  - unfold liabilityDetails.
    induction liabilities as [|l ls IH]; cbn [List.map]; constructor.
    + cbn [liability paid balance].
      rewrite paymentsOf_towards, sumAmount_total.
      repeat split. apply DoubleFacts.sub_negative.
    + exact IH.
  - unfold netWorthEUR, totalLiabilitiesEUR, totalLiabilities, sumDoubles.
    now rewrite fold_left_total.
  - unfold netWorthINR, totalLiabilitiesINR, totalLiabilities, sumDoubles.
    now rewrite fold_left_total.
Qed.

Lemma liability_balance_is_not_clamped_witness :
  let transactions :=
    [paymentOn (isoDate 2024 3 1) 700 "EUR" "loan1";
     paymentOn (isoDate 2024 3 15) 50 "EUR" "loan2";
     paymentOn (isoDate 2024 4 1) 700 "EUR" "loan1"] in
  exists d,
    liabilityDetails transactions [carLoan] = [d]
    /\ paid d = 1400%float
    /\ (totalAmount carLoan <? paid d)%float = true
    /\ balance d = (-400)%float
    /\ (balance d <? 0)%float = true
    /\ netWorthEUR transactions [carLoan] [] = 400%float.
Proof.
  cbv zeta.
  pose proof (liability_balance_is_not_clamped
                [paymentOn (isoDate 2024 3 1) 700 "EUR" "loan1";
                 paymentOn (isoDate 2024 3 15) 50 "EUR" "loan2";
                 paymentOn (isoDate 2024 4 1) 700 "EUR" "loan1"]
                [carLoan] []) as (H & _ & _).
  unfold liabilityDetails in H. cbn [List.map] in H.
  apply Forall2_cons_1 in H as ((_ & Hp & Hb & Hneg) & _).
  eexists. split; [reflexivity|].
  cbn [paid balance liability] in *.
  assert (Hlt : (totalAmount carLoan
                 <? sumAmount
                      (paymentsOf
                         [paymentOn (isoDate 2024 3 1) 700 "EUR" "loan1";
                          paymentOn (isoDate 2024 3 15) 50 "EUR" "loan2";
                          paymentOn (isoDate 2024 4 1) 700 "EUR" "loan1"]
                         carLoan))%float = true)
    by (vm_compute; reflexivity).
  split; [vm_compute; reflexivity|]. split; [exact Hlt|].
  split; [vm_compute; reflexivity|]. split; [exact (Hneg Hlt)|].
  vm_compute. reflexivity.
Defined.

(** ** Budget variance *)

(** C7, on a host five hours behind UTC: an expense dated 1 May 2024 has
    no line in the list of May 2024, the month of its date; the list of
    April has the line.  On a UTC host the list of May has it.  The date
    string is read as UTC midnight, which is 19:00 on 30 April on that
    host, while the month test reads the local month. *)
Theorem budget_variance_behind_utc_misses_first_of_month rate :
  let t := expenseOn (isoDate 2024 5 1) 100 "EUR" in
  let line :=
    {| lineCategory := "Grocery"; budget := 0; actual := 100;
       isOverBudget := true; overBudgetShown := false |} in
  type t = "expense" /\ category t = Some "Grocery"
  /\ budgetLines utcMinus5 [t] ∅ 2024 4 rate = Some []
  /\ budgetLines utcMinus5 [t] ∅ 2024 3 rate = Some [line]
  /\ budgetLines utcZone [t] ∅ 2024 4 rate = Some [line].
Proof. cbv zeta. repeat split; vm_compute; reflexivity. Qed.

(** ** The history purge *)

Lemma filter_negb_id {A} (f : A -> bool) (l : list A) :
  List.filter f l = [] -> List.filter (fun x => negb (f x)) l = l.
Proof.
  induction l as [|x l IH]; [reflexivity|]. cbn [List.filter].
  destruct (f x); [discriminate|]. intros H. cbn [negb]. now rewrite IH.
Qed.

Lemma deleteOld_committed cutoff docs :
  deleteOld cutoff Committed docs
  = Some (List.filter (fun e => negb (olderThan cutoff e)) docs).
Proof.
  unfold deleteOld.
  destruct (List.filter (olderThan cutoff) docs) eqn:E; [|reflexivity].
  now rewrite filter_negb_id.
Qed.

(** On a UTC host the cutoff is the calendar date three years before
    the current one, when that date exists. *)
Lemma cutoffDate_utc y m d s :
  validCivil y m d = true -> validCivil (y - 3) m d = true ->
  0 <= s < msPerDay ->
  cutoffDate utcZone (MakeDate (days_from_civil y m d) s)
  = isoDate (y - 3) m d.
Proof.
  intros Hv Hv3 Hs. unfold cutoffDate, setFullYear, getFullYear, LocalTime, UTC.
  cbn [utcZone fixedZone offsetAtUTC offsetAtLocal]. rewrite !Z.add_0_r, Z.sub_0_r.
  unfold YearFromTime, MonthFromTime, DateFromTime.
  rewrite Day_MakeDate, TimeWithinDay_MakeDate by exact Hs.
  rewrite (days_from_civil_spec _ _ _ Hv). cbn [fst snd].
  assert (Hm : 1 <= m <= 12)
    by (unfold validCivil in Hv; repeat (apply andb_prop in Hv as [Hv ?]);
        lia).
  rewrite MakeDay_in_range by lia. replace (m - 1 + 1) with m by lia.
  unfold toISODate. rewrite Day_MakeDate by exact Hs.
  now rewrite (days_from_civil_spec _ _ _ Hv3).
Qed.

(** C6, on a host five hours behind UTC at 21:00 on 3 November 2026: the
    cutoff is 2023-11-04, the UTC date of the instant three years before,
    and the purge deletes an income dated 2023-11-03, which is not before
    the day three years prior to the current date; on a UTC host at
    21:00 of the same day the cutoff is 2023-11-03 and the income stays.
    In Berlin at midnight, when 4 November 2026 begins, the cutoff is
    2023-11-03 and the income, now dated before the day three years
    prior, stays as well.  What is recomputed from the collections
    afterwards no longer sees a deleted entry: the opening balance of
    November 2026 goes from 1000 to 0. *)
Theorem history_purge_cutoff_is_a_utc_date :
  let e := incomeOn (isoDate 2023 11 3) 1000 "EUR" in
  let st := {| transactionsColl := []; incomesColl := [e];
               recurringColl := [] |} in
  let purged tz now :=
    autoDeleteOldTransactions tz (Some "u1") now Committed Committed st in
  let evening := parseISODate (isoDate 2026 11 3) + 21 * msPerHour in
  let behind := evening + 5 * msPerHour in
  let ahead := evening + 2 * msPerHour in
  (getFullYear utcMinus5 behind, getMonth utcMinus5 behind,
   getDate utcMinus5 behind) = (2026, 10, 3)
  /\ cutoffDate utcMinus5 behind = isoDate 2023 11 4
  /\ calendarBefore (date e) (isoDate 2023 11 3) = false
  /\ incomesColl (purged utcMinus5 behind) = []
  /\ cutoffDate utcZone evening = isoDate 2023 11 3
  /\ incomesColl (purged utcZone evening) = [e]
  /\ (getFullYear europeBerlin ahead, getMonth europeBerlin ahead,
      getDate europeBerlin ahead) = (2026, 10, 4)
  /\ cutoffDate europeBerlin ahead = isoDate 2023 11 3
  /\ calendarBefore (date e) (isoDate 2023 11 4) = true
  /\ incomesColl (purged europeBerlin ahead) = [e]
  /\ opening (calculateBalances utcMinus5 [] (incomesColl st) 2026 10 "EUR")
     = 1000%float
  /\ opening (calculateBalances utcMinus5 []
                (incomesColl (purged utcMinus5 behind)) 2026 10 "EUR")
     = 0%float.
Proof. cbv zeta. repeat split; vm_compute; reflexivity. Qed.

(** ** CSV import *)




Section ReviewFacts.
Variable parseFloat : string -> float.
Hypothesis parseFloat_empty : parseFloat "" = nan.


End ReviewFacts.



(* ===================================================================== *)
(** * Part III: further properties of the code                            *)
(* ===================================================================== *)

(** ** Further properties of the materialiser *)

Lemma processRecurringTransactions_terminates_witness :
  boundedZone europeBerlin
  /\ Forall (fun item => frequency item = "monthly"
                         \/ frequency item = "yearly")
       [recurringRent "monthly" (isoDate 2024 1 15) None;
        recurringRent "yearly" (isoDate 2020 2 29) None]
  /\ exists fuel batch,
       forall fuel', (fuel <= fuel')%nat ->
       processRecurringTransactions europeBerlin fuel'
         (atNoon (isoDate 2024 5 1))
         [recurringRent "monthly" (isoDate 2024 1 15) None;
          recurringRent "yearly" (isoDate 2020 2 29) None]
       = Some batch.
Proof.
  assert (Hf : Forall (fun item => frequency item = "monthly"
                                   \/ frequency item = "yearly")
                 [recurringRent "monthly" (isoDate 2024 1 15) None;
                  recurringRent "yearly" (isoDate 2020 2 29) None]).
  { constructor; [left; reflexivity|].
    constructor; [right; reflexivity | constructor]. }
  split; [exact boundedZone_europeBerlin|]. split; [exact Hf|].
  exact (processRecurringTransactions_terminates europeBerlin
           (atNoon (isoDate 2024 5 1)) _ boundedZone_europeBerlin Hf).
Defined.

Lemma materializer_idempotent_on_fixed_offset_witness :
  let st := storeWith [recurringRent "monthly" (isoDate 2024 1 15) None] in
  let now := atNoon (isoDate 2024 5 15) in
  let batch := rentOn (isoDate 2024 2 15) ++ rentOn (isoDate 2024 3 15)
               ++ rentOn (isoDate 2024 4 15) ++ rentOn (isoDate 2024 5 15) in
  NoDup (List.map id (recurringColl st))
  /\ processRecurringTransactions (fixedZone (- 5 * msPerHour)) 8 now
       (recurringColl st) = Some batch
  /\ (2 <= 8)%nat
  /\ processRecurringTransactions (fixedZone (- 5 * msPerHour)) 8 now
       (recurringColl (commit Committed batch st))
     = Some [].
Proof.
  cbv zeta.
  assert (Hnd : NoDup (List.map id
                         (recurringColl
                            (storeWith
                               [recurringRent "monthly" (isoDate 2024 1 15)
                                  None]))))
    by apply NoDup_singleton.
  assert (Hrun : processRecurringTransactions (fixedZone (- 5 * msPerHour)) 8
                   (atNoon (isoDate 2024 5 15))
                   (recurringColl
                      (storeWith
                         [recurringRent "monthly" (isoDate 2024 1 15) None]))
                 = Some (rentOn (isoDate 2024 2 15)
                         ++ rentOn (isoDate 2024 3 15)
                         ++ rentOn (isoDate 2024 4 15)
                         ++ rentOn (isoDate 2024 5 15)))
    by (vm_compute; reflexivity).
  split; [exact Hnd|]. split; [exact Hrun|]. split; [lia|].
  apply (materializer_idempotent_on_fixed_offset _ _ _ _ _ Hnd Hrun). lia.
Defined.

(** *** What a run leaves alone *)

Lemma newDocs_occurrences tz item start n b e :
  In e (newDocs b (occurrences tz item start n)) ->
  fields e = details item
  /\ String.eqb (itemType item) "income" = b.
Proof.
  unfold newDocs, occurrences. rewrite in_flat_map.
  intros (op & Hop & He). apply in_flat_map in Hop as (k & _ & Hop).
  unfold materialize in Hop.
  destruct Hop as [<- | [<- | []]]; [|destruct He].
  destruct (String.eqb (itemType item) "income") eqn:E;
    change (String.eqb "incomes" "incomes") with true in He;
    change (String.eqb "transactions" "incomes") with false in He;
    destruct b; cbn [Bool.eqb In] in He; try contradiction;
    destruct He as [<- | []]; split; reflexivity.
Qed.

Lemma cursorAfter_keeps_templates batch (items : list RecurringItem) :
  Forall2
    (fun before after =>
       id after = id before /\ itemType after = itemType before
       /\ frequency after = frequency before
       /\ startDate after = startDate before
       /\ details after = details before)
    items (List.map (cursorAfter batch) items).
Proof.
  induction items as [|it l IH]; cbn [List.map]; constructor; [|exact IH].
  destruct (cursorAfter_fields batch it) as (-> & -> & ->).
  destruct (cursorAfter_other_fields batch it) as (-> & ->). easy.
Qed.

(** X3: a run, whatever the outcome of its commit, keeps every document of
    [transactions] and [incomes] and every template; of a template it
    changes nothing but [lastProcessed].  A document it adds carries the
    [details] of one of the templates and lies in [incomes] exactly when
    the template's [type] is ['income']. *)
Theorem run_only_appends_and_moves_cursors tz fuel now outcome st st' :
  runMaterializer tz fuel now outcome st = Some st' ->
  exists newTransactions newIncomes,
    transactionsColl st' = transactionsColl st ++ newTransactions
    /\ incomesColl st' = incomesColl st ++ newIncomes
    /\ Forall2
         (fun before after =>
            id after = id before /\ itemType after = itemType before
            /\ frequency after = frequency before
            /\ startDate after = startDate before
            /\ details after = details before)
         (recurringColl st) (recurringColl st')
    /\ (forall e, In e newTransactions ->
          exists item, In item (recurringColl st)
                       /\ fields e = details item
                       /\ itemType item <> "income")
    /\ (forall e, In e newIncomes ->
          exists item, In item (recurringColl st)
                       /\ fields e = details item
                       /\ itemType item = "income").
Proof.
  unfold runMaterializer.
  destruct (processRecurringTransactions tz fuel now (recurringColl st))
    as [batch|] eqn:Hrun; [|discriminate].
  intros [= <-].
  pose proof (cursorAfter_keeps_templates batch (recurringColl st)) as Hsame.
  destruct outcome.
  - rewrite commit_applied. unfold applied.
    cbn [transactionsColl incomesColl recurringColl].
    exists (newDocs false batch), (newDocs true batch).
    split; [reflexivity|]. split; [reflexivity|]. split; [exact Hsame|].
    unfold processRecurringTransactions in Hrun.
    apply forEachItem_spec in Hrun as (ns & _ & ->). cbn [app].
    assert (Hsrc : forall b e,
              In e (newDocs b
                      (List.concat
                         (zip_with
                            (fun item n =>
                               occurrences tz item (initialCursor item) n)
                            (recurringColl st) ns))) ->
              exists item, In item (recurringColl st)
                           /\ fields e = details item
                           /\ String.eqb (itemType item) "income" = b).
    { intros b e He. unfold newDocs in He.
      apply in_flat_map in He as (op & Hop & He).
      apply in_concat in Hop as (blk & Hblk & Hop).
      apply list_elem_of_In, elem_of_lookup_zip_with in Hblk
        as (k & item & n & -> & Hk & _).
      exists item. split.
      - apply list_elem_of_In. now apply list_elem_of_lookup_2 with k.
      - apply (newDocs_occurrences tz item (initialCursor item) n b e).
        unfold newDocs. apply in_flat_map. exists op. now split. }
    split.
    + intros e He. destruct (Hsrc false e He) as (item & Hin & Hf & Hty).
      exists item. split; [exact Hin|]. split; [exact Hf|].
      now apply String.eqb_neq.
    + intros e He. destruct (Hsrc true e He) as (item & Hin & Hf & Hty).
      exists item. split; [exact Hin|]. split; [exact Hf|].
      now apply String.eqb_eq.
  - cbn [commit]. exists [], []. rewrite !app_nil_r.
    split; [reflexivity|]. split; [reflexivity|]. split.
    + pose proof (cursorAfter_keeps_templates [] (recurringColl st)) as H0.
      unfold cursorAfter in H0. cbn [fold_left] in H0.
      now rewrite map_id in H0.
    + split; intros e [].
Qed.

Lemma run_only_appends_and_moves_cursors_witness :
  let st := storeWith [recurringRent "monthly" (isoDate 2024 1 15) None] in
  exists st',
    runMaterializer utcZone 8 (atNoon (isoDate 2024 5 1)) Committed st
    = Some st'
    /\ exists newTransactions,
         transactionsColl st' = transactionsColl st ++ newTransactions
         /\ forall e, In e newTransactions -> fields e = rent.
Proof.
  cbv zeta. eexists. split; [vm_compute; reflexivity|].
  match goal with |- context [transactionsColl ?s] =>
    assert (Hrun : runMaterializer utcZone 8 (atNoon (isoDate 2024 5 1))
                     Committed
                     (storeWith
                        [recurringRent "monthly" (isoDate 2024 1 15) None])
                   = Some s) by (vm_compute; reflexivity)
  end.
  destruct (run_only_appends_and_moves_cursors _ _ _ _ _ _ Hrun)
    as (newT & newI & HT & _ & _ & Hsrc & _).
  exists newT. split; [exact HT|].
  intros e He. destruct (Hsrc e He) as (item & [<- | []] & Hf & _).
  exact Hf.
Defined.

(** *** The cursor only moves forward *)

Lemma parse_toISODate_bounds t :
  t - msPerDay < parseISODate (toISODate t) <= t.
Proof.
  unfold toISODate, parseISODate.
  pose proof (civil_from_days_spec (Day t)) as Hs.
  destruct (civil_from_days (Day t)) as [[y m] d].
  cbn [isoYear isoMonth isoDay]. destruct Hs as [-> _].
  pose proof (MakeDate_Day t) as E. pose proof (TimeWithinDay_bound t).
  unfold MakeDate in *. lia.
Qed.

Lemma advance_step tz freq t :
  boundedZone tz ->
  advance tz freq t = t \/ t + 26 * msPerDay <= advance tz freq t.
Proof.
  intros Hb. unfold advance.
  destruct (String.eqb freq "monthly");
    [|destruct (String.eqb freq "yearly")]; [| |now left]; right.
  - now apply setMonth_progress.
  - pose proof (setFullYear_progress tz t Hb). unfold msPerDay in *. lia.
Qed.

(** After [n >= 1] materialised due dates the last one lies at least 26
    days after the cursor the loop started from. *)
Lemma caughtUp_last_due tz today freq start n :
  boundedZone tz -> caughtUp tz today freq start (S n) ->
  start + 26 * msPerDay <= dueDate tz freq start (S n) < today.
Proof.
  intros Hb (Hk & Hnext & Hzero).
  assert (Hs : start < today).
  { destruct (Z_lt_ge_dec start today) as [H | H]; [exact H|].
    assert (S n = O) by (apply Hzero; lia). discriminate. }
  split; [|apply Hk; lia].
  destruct (advance_step tz freq start Hb) as [Hid | Hstep].
  - exfalso. specialize (Hnext Hs).
    assert (Hall : forall k, dueDate tz freq start k = start).
    { induction k as [|k IHk]; [reflexivity|].
      change (dueDate tz freq start (S k))
        with (advance tz freq (dueDate tz freq start k)).
      now rewrite IHk. }
    rewrite Hall in Hnext. lia.
  - assert (Hmono : forall k, dueDate tz freq start 1
                              <= dueDate tz freq start (S k)).
    { induction k as [|k IHk]; [lia|].
      change (dueDate tz freq start (S (S k)))
        with (advance tz freq (dueDate tz freq start (S k))).
      destruct (advance_step tz freq (dueDate tz freq start (S k)) Hb)
        as [-> | H]; [exact IHk|]. unfold msPerDay in *. lia. }
    specialize (Hmono n).
    change (dueDate tz freq start 1) with (advance tz freq start) in Hmono.
    lia.
Qed.

(** X4: an accepted run leaves each template either as it was or with a
    cursor that lies after the old one and before [today]; the templates
    are assumed to have distinct ids, as documents of one collection
    do. *)
Theorem cursor_only_moves_forward tz fuel now st batch :
  boundedZone tz ->
  NoDup (List.map id (recurringColl st)) ->
  processRecurringTransactions tz fuel now (recurringColl st) = Some batch ->
  Forall2
    (fun before after =>
       after = before
       \/ (initialCursor before < initialCursor after < setHours0 tz now
           /\ exists d, lastProcessed after = Some d))
    (recurringColl st) (recurringColl (commit Committed batch st)).
Proof.
  intros Hb Hnd Hrun. rewrite commit_applied. cbn [applied recurringColl].
  unfold processRecurringTransactions in Hrun.
  apply forEachItem_spec in Hrun as (ns & Hns & ->).
  rewrite (cursorAfter_in_run tz _ ns []);
    [|exact Hnd | now apply Forall2_length in Hns | intros i d []].
  clear Hnd. induction Hns as [|item n items ns Hn Hns IH];
    cbn [zip_with]; constructor; [|exact IH].
  destruct n as [|n]; [now left|]. right.
  pose proof (caughtUp_last_due _ _ _ _ _ Hb Hn) as Hdue.
  pose proof (initialCursor_after_own tz item (initialCursor item) (S n))
    as Hcur. cbv iota in Hcur.
  pose proof (parse_toISODate_bounds
                (dueDate tz (frequency item) (initialCursor item) (S n))).
  split; [rewrite Hcur; unfold msPerDay in *; lia|].
  rewrite occurrences_snoc, cursorAfter_app.
  set (it := cursorAfter _ item).
  assert (Hid : id it = id item) by apply cursorAfter_fields.
  unfold materialize, cursorAfter. cbn [fold_left].
  unfold setLastProcessed. rewrite Hid, String.eqb_refl. cbn. eauto.
Qed.

Lemma cursor_only_moves_forward_witness :
  let st := storeWith [recurringRent "monthly" (isoDate 2024 1 15) None] in
  let now := atNoon (isoDate 2024 5 1) in
  let batch := rentOn (isoDate 2024 2 15) ++ rentOn (isoDate 2024 3 15)
               ++ rentOn (isoDate 2024 4 14) in
  boundedZone europeBerlin
  /\ NoDup (List.map id (recurringColl st))
  /\ processRecurringTransactions europeBerlin 8 now (recurringColl st)
     = Some batch
  /\ Forall2
       (fun before after =>
          after = before
          \/ (initialCursor before < initialCursor after
                < setHours0 europeBerlin now
              /\ exists d, lastProcessed after = Some d))
       (recurringColl st) (recurringColl (commit Committed batch st)).
Proof.
  cbv zeta.
  assert (Hnd : NoDup (List.map id
                         (recurringColl
                            (storeWith
                               [recurringRent "monthly" (isoDate 2024 1 15)
                                  None]))))
    by apply NoDup_singleton.
  assert (Hrun : processRecurringTransactions europeBerlin 8
                   (atNoon (isoDate 2024 5 1))
                   (recurringColl
                      (storeWith
                         [recurringRent "monthly" (isoDate 2024 1 15) None]))
                 = Some (rentOn (isoDate 2024 2 15)
                         ++ rentOn (isoDate 2024 3 15)
                         ++ rentOn (isoDate 2024 4 14)))
    by (vm_compute; reflexivity).
  split; [exact boundedZone_europeBerlin|]. split; [exact Hnd|].
  split; [exact Hrun|].
  exact (cursor_only_moves_forward _ _ _ _ _ boundedZone_europeBerlin Hnd
           Hrun).
Defined.

(** ** Dashboard: navigation and carried balances *)

Lemma newDate_fields tz y k :
  localTimeExists tz (MakeDate (MakeDay y k 1) 0) ->
  getFullYear tz (newDate tz y k 1) = y + k / 12
  /\ getMonth tz (newDate tz y k 1) = k mod 12
  /\ getDate tz (newDate tz y k 1) = 1.
Proof.
  intros Hex. unfold getFullYear, getMonth, getDate, newDate.
  unfold localTimeExists in Hex. rewrite Hex.
  unfold YearFromTime, MonthFromTime, DateFromTime.
  rewrite Day_MakeDate by (unfold msPerDay; lia).
  unfold MakeDay. replace (days_from_civil (y + k / 12) (k mod 12 + 1) 1 + 1 - 1)
    with (days_from_civil (y + k / 12) (k mod 12 + 1) 1) by lia.
  pose proof (Z.mod_pos_bound k 12 ltac:(lia)) as Hm.
  rewrite days_from_civil_spec by (apply validCivil_first; lia).
  cbn. repeat split; lia.
Qed.

(** X6: Next and Prev move the dashboard to the first day of the
    following and of the preceding calendar month, across the turn of
    the year, provided local midnight of that day exists on the host's
    clock. *)
Theorem month_navigation_steps_one_calendar_month tz y m :
  0 <= m <= 11 ->
  localTimeExists tz (MakeDate (MakeDay y (m + 1) 1) 0) ->
  localTimeExists tz (MakeDate (MakeDay y (m - 1) 1) 0) ->
  let next := handleNextMonth tz y m in
  let prev := handlePreviousMonth tz y m in
  (getFullYear tz next, getMonth tz next) = monthAfter y m
  /\ getDate tz next = 1
  /\ (getFullYear tz prev, getMonth tz prev) = monthBefore y m
  /\ getDate tz prev = 1.
Proof.
  intros Hm Hn Hp. cbv zeta. unfold handleNextMonth, handlePreviousMonth.
  destruct (newDate_fields tz y (m + 1) Hn) as (-> & -> & ->).
  destruct (newDate_fields tz y (m - 1) Hp) as (-> & -> & ->).
  unfold monthAfter, monthBefore.
  split; [|split; [reflexivity|split; [|reflexivity]]].
  - destruct (Z.eqb_spec m 11) as [-> | Hne]; [reflexivity|].
    rewrite Z.div_small, Z.mod_small by lia. f_equal. lia.
  - destruct (Z.eqb_spec m 0) as [-> | Hne]; [reflexivity|].
    rewrite Z.div_small, Z.mod_small by lia. f_equal. lia.
Qed.

Lemma aheadOfUTC_fixed offset :
  0 <= offset < msPerDay -> aheadOfUTC (fixedZone offset).
Proof. intros H t. cbn. lia. Qed.

Lemma aheadOfUTC_europeBerlin : aheadOfUTC europeBerlin.
Proof.
  intros t. cbn. split; case_match; unfold msPerDay, msPerHour; lia.
Qed.

Lemma first_of_month_ahead_of_utc_witness :
  aheadOfUTC europeBerlin /\ 1 <= 5 <= 12
  /\ filterByMonth europeBerlin 2024 (5 - 1)
       (expenseOn (isoDate 2024 5 1) 100 "EUR") = true
  /\ filterByDate europeBerlin 2024 (5 - 1)
       (expenseOn (isoDate 2024 5 1) 100 "EUR") = false.
Proof.
  split; [exact aheadOfUTC_europeBerlin|]. split; [lia|].
  exact (first_of_month_ahead_of_utc europeBerlin 2024 5
           (expenseOn (isoDate 2024 5 1) 100 "EUR") aheadOfUTC_europeBerlin
           ltac:(lia) eq_refl).
Defined.

Lemma month_navigation_steps_one_calendar_month_witness :
  let next := handleNextMonth europeBerlin 2024 11 in
  let prev := handlePreviousMonth europeBerlin 2024 11 in
  (getFullYear europeBerlin next, getMonth europeBerlin next) = (2025, 0)
  /\ getDate europeBerlin next = 1
  /\ (getFullYear europeBerlin prev, getMonth europeBerlin prev) = (2024, 10)
  /\ getDate europeBerlin prev = 1.
Proof.
  apply (month_navigation_steps_one_calendar_month europeBerlin 2024 11);
    [lia | vm_compute; reflexivity | vm_compute; reflexivity].
Defined.

Lemma filter_all {A} (l : list A) : List.filter (fun _ => true) l = l.
Proof. induction l as [|x l IH]; [reflexivity|]. cbn. now rewrite IH. Qed.

(** On a host ahead of UTC, what lies before the start of the following
    month is what lies before the start of this month together with what
    lies in this month. *)
Lemma next_month_filter tz y m (item : Entry) :
  aheadOfUTC tz -> 0 <= m <= 11 -> validISODate (date item) = true ->
  filterByDate tz (monthAfter y m).1 (monthAfter y m).2 item
  = filterByDate tz y m item || filterByMonth tz y m item
  /\ filterByDate tz y m item && filterByMonth tz y m item = false.
Proof.
  intros Hz Hm Hv.
  destruct (date_filters_ahead_of_utc tz y (m + 1) item Hz ltac:(lia) Hv)
    as [Hd Hmo].
  replace (m + 1 - 1) with m in Hd, Hmo by lia. rewrite Hd, Hmo.
  assert (Hn : filterByDate tz (monthAfter y m).1 (monthAfter y m).2 item
               = calendarBefore (date item)
                   (isoDate (monthAfter y m).1 ((monthAfter y m).2 + 1) 1)).
  { pose proof (date_filters_ahead_of_utc tz (monthAfter y m).1
                  ((monthAfter y m).2 + 1) item Hz) as H.
    replace ((monthAfter y m).2 + 1 - 1) with (monthAfter y m).2 in H by lia.
    apply H; [|exact Hv].
    unfold monthAfter. destruct (m =? 11) eqn:E; cbn; lia. }
  rewrite Hn. clear Hn Hd Hmo.
  unfold validISODate, validCivil in Hv.
  repeat (apply andb_prop in Hv as [Hv ?]).
  unfold calendarBefore, isoDate, monthAfter. cbn [isoYear isoMonth isoDay].
  set (ya := isoYear (date item)) in *. set (ma := isoMonth (date item)) in *.
  set (da := isoDay (date item)) in *.
  assert (Hday : (da <? 1) = false) by lia. rewrite Hday, !andb_false_r,
    !orb_false_r.
  destruct (Z.eqb_spec m 11) as [-> | Hne]; cbn [fst snd];
    split;
    repeat match goal with
           | |- context [?a <? ?b] => destruct (Z.ltb_spec a b)
           | |- context [?a =? ?b] => destruct (Z.eqb_spec a b)
           end; cbn; try reflexivity; lia.
Qed.

(** A selection that is the disjoint union of two others holds the
    entries of the two. *)
Lemma filter_split_perm {A} (p q r : A -> bool) l :
  Forall (fun x => r x = p x || q x /\ p x && q x = false) l ->
  Permutation (List.filter r l) (List.filter p l ++ List.filter q l).
Proof.
  induction 1 as [|x l [Hr Hd] _ IH]; cbn [List.filter]; [constructor|].
  rewrite Hr. destruct (p x), (q x); try discriminate; cbn [orb app].
  - now constructor.
  - etransitivity; [apply perm_skip, IH|]. apply Permutation_middle.
  - exact IH.
Qed.

(** X7: on a host at or ahead of UTC and with well-formed dates, the
    entries counted in the opening balance of the following month are
    those counted in the opening balance of this month together with
    those counted in its cash flow, and no entry is counted in both. *)
Theorem next_opening_counts_opening_and_cash_flow tz (l : list Entry) y m cur :
  aheadOfUTC tz -> 0 <= m <= 11 -> validDates l ->
  let selected := List.filter (filterByCurrency cur) l in
  let next := monthAfter y m in
  Permutation
    (List.filter (filterByDate tz next.1 next.2) selected)
    (List.filter (filterByDate tz y m) selected
     ++ List.filter (filterByMonth tz y m) selected)
  /\ (forall x, In x l ->
        filterByDate tz next.1 next.2 x
        = filterByDate tz y m x || filterByMonth tz y m x)
  /\ (forall x, In x l ->
        filterByDate tz y m x && filterByMonth tz y m x = false).
Proof.
  intros Hz Hm Hl. cbv zeta.
  assert (Hsplit : forall x, In x l ->
            filterByDate tz (monthAfter y m).1 (monthAfter y m).2 x
            = filterByDate tz y m x || filterByMonth tz y m x
            /\ filterByDate tz y m x && filterByMonth tz y m x = false).
  { intros x Hx. apply next_month_filter; [exact Hz | exact Hm |].
    unfold validDates in Hl. rewrite Forall_forall in Hl.
    apply Hl. now apply list_elem_of_In. }
  split; [|split].
  - apply filter_split_perm. apply Forall_forall. intros x Hx.
    apply Hsplit. apply list_elem_of_In in Hx.
    apply filter_In in Hx. tauto.
  - intros x Hx. now apply Hsplit.
  - intros x Hx. now apply Hsplit.
Qed.

Lemma next_opening_counts_opening_and_cash_flow_witness :
  let l := [incomeOn (isoDate 2024 12 1) 2000 "EUR";
            incomeOn (isoDate 2024 12 31) 100 "EUR";
            incomeOn (isoDate 2025 1 1) 40 "EUR"] in
  aheadOfUTC europeBerlin /\ validDates l
  /\ Permutation
       (List.filter (filterByDate europeBerlin 2025 0)
          (List.filter (filterByCurrency "EUR") l))
       (List.filter (filterByDate europeBerlin 2024 11)
          (List.filter (filterByCurrency "EUR") l)
        ++ List.filter (filterByMonth europeBerlin 2024 11)
             (List.filter (filterByCurrency "EUR") l)).
Proof.
  cbv zeta.
  assert (Hl : validDates [incomeOn (isoDate 2024 12 1) 2000 "EUR";
                           incomeOn (isoDate 2024 12 31) 100 "EUR";
                           incomeOn (isoDate 2025 1 1) 40 "EUR"])
    by (repeat constructor).
  split; [exact aheadOfUTC_europeBerlin|]. split; [exact Hl|].
  exact (proj1 (next_opening_counts_opening_and_cash_flow europeBerlin _
                  2024 11 "EUR" aheadOfUTC_europeBerlin ltac:(lia) Hl)).
Defined.

(** X26: the closing figure of a month and the opening figure of the
    month after it are separate sums of doubles and need not be equal:
    with an income of 0.1 in April and incomes of 0.2 and 0.3 in May,
    May closes at 0.1 + (0.2 + 0.3) and June opens at
    (0.1 + 0.2) + 0.3, its successor among the doubles. *)
Theorem closing_and_next_opening_are_separate_sums :
  let a := (1 / 10)%float in
  let b := (2 / 10)%float in
  let c := (3 / 10)%float in
  let incomes := [incomeOn (isoDate 2024 4 10) a "EUR";
                  incomeOn (isoDate 2024 5 10) b "EUR";
                  incomeOn (isoDate 2024 5 20) c "EUR"] in
  let may := closing (calculateBalances utcZone [] incomes 2024 4 "EUR") in
  let june := opening (calculateBalances utcZone [] incomes 2024 5 "EUR") in
  may = (a + (b + c))%float
  /\ june = (a + b + c)%float
  /\ (may <? june)%float = true
  /\ june = next_up may.
Proof. cbv zeta. repeat split; vm_compute; reflexivity. Qed.

(** ** Dashboard: what an entry of a given type touches *)

Lemma filter_insert_out {A} (f : A -> bool) l1 x l2 :
  f x = false -> List.filter f (l1 ++ x :: l2) = List.filter f (l1 ++ l2).
Proof.
  intros H. rewrite !List.filter_app. cbn [List.filter]. now rewrite H.
Qed.

Lemma filter_insert_in {A} (f : A -> bool) l1 x l2 :
  f x = true ->
  List.filter f (l1 ++ x :: l2) = List.filter f l1 ++ x :: List.filter f l2.
Proof.
  intros H. rewrite List.filter_app. cbn [List.filter]. now rewrite H.
Qed.

Lemma filter_filter_insert_out {A} (f g : A -> bool) l1 x l2 :
  f x = false ->
  List.filter f (List.filter g (l1 ++ x :: l2))
  = List.filter f (List.filter g (l1 ++ l2)).
Proof.
  intros H. induction l1 as [|a l1 IH]; cbn [app List.filter].
  - destruct (g x); cbn [List.filter]; now rewrite ?H.
  - destruct (g a); cbn [List.filter]; now rewrite IH.
Qed.

Lemma filter_filter_filter_insert_out {A} (f g c : A -> bool) l1 x l2 :
  f x = false ->
  List.filter f (List.filter g (List.filter c (l1 ++ x :: l2)))
  = List.filter f (List.filter g (List.filter c (l1 ++ l2))).
Proof.
  intros H. induction l1 as [|a l1 IH]; cbn [app List.filter].
  - destruct (c x); cbn [List.filter]; [|reflexivity].
    destruct (g x); cbn [List.filter]; now rewrite ?H.
  - destruct (c a); cbn [List.filter]; [|exact IH].
    destruct (g a); cbn [List.filter]; now rewrite IH.
Qed.

Lemma filter_decide {A} (P : A -> Prop) `{forall x, Decision (P x)}
    (f : A -> bool) (l : list A) :
  (forall x, f x = true <-> P x) ->
  List.filter f l = filter P l.
Proof.
  intros Hf. induction l as [|x l IH]; [reflexivity|].
  cbn [List.filter]. rewrite filter_cons, IH.
  destruct (f x) eqn:E.
  - rewrite decide_True by (now apply Hf). reflexivity.
  - rewrite decide_False; [reflexivity|].
    intros HP. apply Hf in HP. congruence.
Qed.

(** The savings of a person in a currency: the deposits minus the
    withdrawals, each summed in the order of the list. *)
Lemma savings_by_currency transactions person cur :
  calculateByCurrency
    (List.filter (fun t : Entry => fieldIs (saver t) person) transactions)
    cur
  = (totalOf (filter (depositOf person cur) transactions)
     - totalOf (filter (withdrawalOf person cur) transactions))%float.
Proof.
  unfold calculateByCurrency. rewrite !sumAmount_total.
  assert (Hs : forall x : Entry,
            fieldIs (saver x) person = true <-> saver x = Some person).
  { intros x. unfold fieldIs. destruct (saver x) as [v|].
    - rewrite String.eqb_eq. split; congruence.
    - split; discriminate. }
  f_equal; f_equal; f_equal.
  - rewrite <- (filter_decide (depositOf person cur)
                  (fun x : Entry =>
                     fieldIs (saver x) person
                     && ((String.eqb (type x) "savings"
                          || String.eqb (type x) "openingBalance")
                         && String.eqb (currency x) cur))).
    + induction transactions as [|x l IH]; [reflexivity|].
      cbn [List.filter]. destruct (fieldIs (saver x) person);
        cbn [andb List.filter]; now rewrite IH.
    + intros x. unfold depositOf.
      rewrite !andb_true_iff, orb_true_iff, !String.eqb_eq, Hs.
      reflexivity.
  - rewrite <- (filter_decide (withdrawalOf person cur)
                  (fun x : Entry =>
                     fieldIs (saver x) person
                     && (String.eqb (type x) "savingsWithdrawal"
                         && String.eqb (currency x) cur))).
    + induction transactions as [|x l IH]; [reflexivity|].
      cbn [List.filter]. destruct (fieldIs (saver x) person);
        cbn [andb List.filter]; now rewrite IH.
    + intros x. unfold withdrawalOf.
      rewrite !andb_true_iff, !String.eqb_eq, Hs. reflexivity.
Qed.

(** X8: an opening-balance entry, wherever it stands among the
    transactions, changes no current-account figure of any month or
    currency.  In the savings of its saver in its own currency it is one
    more deposit, summed at its place in the list, and the withdrawals
    are as before; every other savings figure is as it was. *)
Theorem opening_balance_entry_only_counts_as_savings
    tz (before after : list Entry) (t : Entry) incomes y m person :
  type t = "openingBalance" -> saver t = Some person ->
  let old := calculateDetailedSavings (before ++ after) in
  let new := calculateDetailedSavings (before ++ t :: after) in
  let deposits cur l := filter (depositOf person cur) l in
  let withdrawn cur :=
    totalOf (filter (withdrawalOf person cur) (before ++ after)) in
  (forall cur,
      calculateBalances tz (before ++ t :: after) incomes y m cur
      = calculateBalances tz (before ++ after) incomes y m cur)
  /\ (currency t = "EUR" ->
        eur (old person)
        = (totalOf (deposits "EUR" before ++ deposits "EUR" after)
           - withdrawn "EUR")%float
        /\ eur (new person)
           = (totalOf (deposits "EUR" before ++ t :: deposits "EUR" after)
              - withdrawn "EUR")%float)
  /\ (currency t = "INR" ->
        inr (old person)
        = (totalOf (deposits "INR" before ++ deposits "INR" after)
           - withdrawn "INR")%float
        /\ inr (new person)
           = (totalOf (deposits "INR" before ++ t :: deposits "INR" after)
              - withdrawn "INR")%float)
  /\ (currency t <> "EUR" -> eur (new person) = eur (old person))
  /\ (currency t <> "INR" -> inr (new person) = inr (old person))
  /\ (forall other, other <> person -> new other = old other).
Proof.
  intros Hty Hs. cbv zeta.
  assert (Ho : isOutflow t = false) by (unfold isOutflow; now rewrite Hty).
  assert (Hw : isSavingsWithdrawal t = false)
    by (unfold isSavingsWithdrawal; now rewrite Hty).
  assert (Hraise : forall cur, currency t = cur ->
            calculateByCurrency
              (List.filter (fun t0 : Entry => fieldIs (saver t0) person)
                 (before ++ after)) cur
            = (totalOf (filter (depositOf person cur) before
                        ++ filter (depositOf person cur) after)
               - totalOf (filter (withdrawalOf person cur)
                            (before ++ after)))%float
            /\ calculateByCurrency
                 (List.filter (fun t0 : Entry => fieldIs (saver t0) person)
                    (before ++ t :: after)) cur
               = (totalOf (filter (depositOf person cur) before
                           ++ t :: filter (depositOf person cur) after)
                  - totalOf (filter (withdrawalOf person cur)
                               (before ++ after)))%float).
  { intros cur Hc. rewrite !savings_by_currency.
    rewrite !filter_app, !filter_cons.
    rewrite decide_True by (unfold depositOf; rewrite Hty; tauto).
    rewrite decide_False
      by (unfold withdrawalOf; rewrite Hty; intros (_ & [=] & _)).
    split; reflexivity. }
  assert (Hkeep : forall cur, currency t <> cur ->
            calculateByCurrency
              (List.filter (fun t0 : Entry => fieldIs (saver t0) person)
                 (before ++ t :: after)) cur
            = calculateByCurrency
                (List.filter (fun t0 : Entry => fieldIs (saver t0) person)
                   (before ++ after)) cur).
  { intros cur Hc. unfold calculateByCurrency.
    apply String.eqb_neq in Hc.
    rewrite !(filter_filter_insert_out _ _ before t after);
      [reflexivity | cbv beta; now rewrite Hty
      | cbv beta; now rewrite Hc, andb_false_r]. }
  split; [|split; [|split; [|split; [|split]]]].
  - intros cur. unfold calculateBalances.
    now rewrite !(filter_filter_filter_insert_out isOutflow),
      !(filter_filter_filter_insert_out isSavingsWithdrawal).
  - apply Hraise.
  - apply Hraise.
  - apply Hkeep.
  - apply Hkeep.
  - intros other Hne. unfold calculateDetailedSavings.
    rewrite filter_insert_out; [reflexivity|]. rewrite Hs. cbn.
    apply String.eqb_neq. congruence.
Qed.

Lemma opening_balance_entry_only_counts_as_savings_witness :
  let t := {| date := isoDate 2024 5 3;
              fields := {| type := "openingBalance"; amount := 5000%float;
                           currency := "EUR"; category := None;
                           payer := None; saver := Some "Wife";
                           source := None; liabilityId := None;
                           description := "Start" |} |} in
  let before := [expenseOn (isoDate 2024 5 1) 100 "EUR"] in
  (forall cur,
      calculateBalances utcZone (before ++ [t]) [] 2024 4 cur
      = calculateBalances utcZone (before ++ []) [] 2024 4 cur)
  /\ eur (calculateDetailedSavings (before ++ []) "Wife") = 0%float
  /\ eur (calculateDetailedSavings (before ++ [t]) "Wife") = 5000%float.
Proof.
  cbv zeta.
  destruct (opening_balance_entry_only_counts_as_savings utcZone
              [expenseOn (isoDate 2024 5 1) 100 "EUR"] []
              {| date := isoDate 2024 5 3;
                 fields := {| type := "openingBalance"; amount := 5000%float;
                              currency := "EUR"; category := None;
                              payer := None; saver := Some "Wife";
                              source := None; liabilityId := None;
                              description := "Start" |} |}
              [] 2024 4 "Wife" eq_refl eq_refl)
    as (Hb & He & _).
  destruct (He eq_refl) as [Hold Hnew].
  split; [exact Hb|]. split.
  - rewrite Hold. vm_compute. reflexivity.
  - rewrite Hnew. vm_compute. reflexivity.
Defined.

(** X9: a liability payment is counted against the liability whose id it
    carries and against no other, whatever the currency, the date and
    the position of the payment: for that liability it is one more
    payment, summed at its place in the list, and the balance is the
    total minus the new sum; every other liability keeps its figures. *)
Theorem liability_payment_is_matched_by_id_alone
    (before after : list Entry) (p : Entry) (i : string) liabilities :
  type p = "liabilityPayment" -> liabilityId p = Some i ->
  Forall2
    (fun d d' : LiabilityDetail =>
       liability d' = liability d
       /\ if String.eqb i (liabId d)
          then paid d
               = totalOf (paymentsTowards d before
                          ++ paymentsTowards d after)
               /\ paid d'
                  = totalOf (paymentsTowards d before
                             ++ p :: paymentsTowards d after)
               /\ balance d' = (totalAmount d - paid d')%float
          else paid d' = paid d /\ balance d' = balance d)
    (liabilityDetails (before ++ after) liabilities)
    (liabilityDetails (before ++ p :: after) liabilities).
Proof.
  intros Hty Hid. unfold liabilityDetails.
  induction liabilities as [|l ls IH]; cbn [List.map]; constructor;
    [|exact IH].
  cbn [liability paid balance liabId]. split; [reflexivity|].
  destruct (String.eqb i (liabId l)) eqn:E.
  - rewrite !paymentsOf_towards, !sumAmount_total. unfold paymentsTowards.
    rewrite !filter_app, filter_cons.
    apply String.eqb_eq in E. subst i.
    rewrite decide_True by easy. repeat split.
  - unfold paymentsOf. rewrite filter_insert_out
      by (cbv beta; rewrite Hty, Hid, String.eqb_refl; cbn [fieldIs andb];
          exact E).
    split; reflexivity.
Qed.

Lemma liability_payment_is_matched_by_id_alone_witness :
  Forall2
    (fun d d' : LiabilityDetail =>
       liability d' = liability d
       /\ if String.eqb "loan1" (liabId d)
          then paid d
               = totalOf (paymentsTowards d [] ++ paymentsTowards d [])
               /\ paid d'
                  = totalOf (paymentsTowards d []
                             ++ paymentOn (isoDate 2024 5 3) 300 "INR" "loan1"
                                :: paymentsTowards d [])
               /\ balance d' = (totalAmount d - paid d')%float
          else paid d' = paid d /\ balance d' = balance d)
    (liabilityDetails [] [carLoan])
    (liabilityDetails [paymentOn (isoDate 2024 5 3) 300 "INR" "loan1"]
       [carLoan]).
Proof.
  exact (liability_payment_is_matched_by_id_alone [] []
           (paymentOn (isoDate 2024 5 3) 300 "INR" "loan1") "loan1"
           [carLoan] eq_refl eq_refl).
Defined.

(** ** Analysis page *)

Lemma local_fields y k d s :
  0 <= s < msPerDay -> 1 <= d <= 28 ->
  let lt := MakeDate (MakeDay y k d) s in
  YearFromTime lt = y + k / 12 /\ MonthFromTime lt = k mod 12
  /\ DateFromTime lt = d /\ TimeWithinDay lt = s.
Proof.
  intros Hs Hd lt. subst lt.
  unfold YearFromTime, MonthFromTime, DateFromTime.
  rewrite Day_MakeDate, TimeWithinDay_MakeDate by exact Hs.
  unfold MakeDay.
  pose proof (Z.mod_pos_bound k 12 ltac:(lia)) as Hm.
  rewrite <- days_from_civil_linear.
  rewrite days_from_civil_spec.
  - cbn. repeat split; lia.
  - unfold validCivil.
    pose proof (daysInMonth_ge (y + k / 12) (k mod 12 + 1)).
    repeat (apply andb_true_intro; split); lia.
Qed.

(** X11: on a host whose clock never skips time, the [i]-th row of the
    trend chart stands for the calendar month [i] months before the
    current one, whatever the day of the month today is: the twelve
    rows are twelve consecutive months ending with the current one. *)
Theorem trend_rows_are_consecutive_months tz transactions incomes rate now i :
  noSkippedTime tz ->
  let row := trendRow tz transactions incomes rate now i in
  0 <= (month row).1 <= 11
  /\ 12 * (month row).2 + (month row).1
     = 12 * getFullYear tz now + getMonth tz now - i.
Proof.
  intros Hex. cbv zeta. unfold trendRow. cbn [month fst snd].
  unfold setMonth, setDate, getMonth, getFullYear.
  remember (LocalTime tz now) as lt eqn:Elt. clear Elt.
  pose proof (TimeWithinDay_bound lt) as Hs.
  destruct (fields_spec lt) as (Hm & _ & _).
  remember (YearFromTime lt) as y eqn:Ey.
  remember (MonthFromTime lt) as mo eqn:Emo.
  remember (TimeWithinDay lt) as s eqn:Es. clear Ey Emo Es lt.
  pose proof (Hex (MakeDate (MakeDay y mo 1) s)) as E1.
  unfold localTimeExists in E1. rewrite E1. clear E1.
  destruct (local_fields y mo 1 s Hs ltac:(lia)) as (-> & -> & -> & ->).
  rewrite Z.div_small, Z.mod_small, Z.add_0_r by lia.
  pose proof (Hex (MakeDate (MakeDay y (mo - i) 1) s)) as E2.
  unfold localTimeExists in E2. rewrite E2. clear E2.
  destruct (local_fields y (mo - i) 1 s Hs ltac:(lia)) as (-> & -> & _).
  pose proof (Z.mod_pos_bound (mo - i) 12 ltac:(lia)).
  pose proof (Z.div_mod (mo - i) 12 ltac:(lia)). lia.
Qed.

Lemma noSkippedTime_fixed offset : noSkippedTime (fixedZone offset).
Proof. intros lt. unfold localTimeExists, LocalTime, UTC. cbn. lia. Qed.

Lemma trend_rows_are_consecutive_months_witness :
  let now := atNoon (isoDate 2024 3 31) in
  let row := trendRow utcMinus5 [] [] 90 now 1 in
  noSkippedTime utcMinus5
  /\ 0 <= (month row).1 <= 11
  /\ 12 * (month row).2 + (month row).1
     = 12 * getFullYear utcMinus5 now + getMonth utcMinus5 now - 1.
Proof.
  cbv zeta. split; [exact (noSkippedTime_fixed _)|].
  exact (trend_rows_are_consecutive_months utcMinus5 [] [] 90
           (atNoon (isoDate 2024 3 31)) 1 (noSkippedTime_fixed _)).
Defined.


Lemma filter_filter_and {A} (f g : A -> bool) l :
  List.filter f (List.filter g l) = List.filter (fun x => g x && f x) l.
Proof.
  induction l as [|x l IH]; [reflexivity|]. cbn [List.filter].
  destruct (g x); cbn [List.filter andb]; [destruct (f x)|];
    now rewrite IH.
Qed.




(** ** Dashboard and analysis agree on a month's expenses *)

(** X10: the expense figure of the trend chart for a month is the sum,
    in the order of the list, of the expenses the dashboard groups into
    the budget lines of that month: the two pages select the same
    entries. *)
Theorem trend_expenses_are_the_dashboard_expenses tz transactions y m rate :
  monthlyExpensesTotal tz transactions rate m y
  = sumInEUR rate (monthlyExpenses tz transactions y m)
  /\ monthlyExpenses tz transactions y m
     = List.filter
         (fun t : Entry =>
            String.eqb (type t) "expense"
            && (getMonth tz (parseISODate (date t)) =? m)
            && (getFullYear tz (parseISODate (date t)) =? y))
         transactions
  /\ expensesByCategory tz transactions y m rate
     = fold_left (addExpense rate) (monthlyExpenses tz transactions y m) ∅.
Proof.
  assert (H : monthlyExpenses tz transactions y m
              = List.filter
                  (fun t : Entry =>
                     String.eqb (type t) "expense"
                     && (getMonth tz (parseISODate (date t)) =? m)
                     && (getFullYear tz (parseISODate (date t)) =? y))
                  transactions).
  { unfold monthlyExpenses, monthlyTransactions.
    rewrite filter_filter_and. apply List.filter_ext.
    intros t. unfold filterByMonth.
    destruct (String.eqb (type t) "expense"),
      (getMonth tz (parseISODate (date t)) =? m),
      (getFullYear tz (parseISODate (date t)) =? y); reflexivity. }
  split; [|split; [exact H | reflexivity]].
  unfold monthlyExpensesTotal. now rewrite H.
Qed.

(** ** History page: the list *)

Lemma insertByDate_perm e l : Permutation (insertByDate e l) (e :: l).
Proof.
  induction l as [|x l IH]; cbn [insertByDate]; [reflexivity|].
  destruct (entryTime x <=? entryTime e); [reflexivity|].
  rewrite IH. apply perm_swap.
Qed.

Lemma sortByDate_perm l : Permutation (sortByDate l) l.
Proof.
  induction l as [|x l IH]; cbn [sortByDate fold_right]; [reflexivity|].
  fold (sortByDate l). rewrite insertByDate_perm. now constructor.
Qed.

Lemma insertByDate_sorted e l :
  StronglySorted (fun a b => entryTime b <= entryTime a) l ->
  StronglySorted (fun a b => entryTime b <= entryTime a) (insertByDate e l).
Proof.
  induction 1 as [|x l Hs IH Hx]; cbn [insertByDate].
  - repeat constructor.
  - destruct (Z.leb_spec (entryTime x) (entryTime e)) as [Hle | Hgt].
    + constructor; [now constructor|]. constructor; [exact Hle|].
      eapply Forall_impl; [exact Hx|]. intros y Hy. cbv beta in *. lia.
    + constructor; [exact IH|].
      rewrite (Forall_forall (fun b => entryTime b <= entryTime x)).
      intros y Hy. apply list_elem_of_In in Hy.
      apply (Permutation_in _ (insertByDate_perm e l)) in Hy.
      destruct Hy as [<- | Hy]; [lia|].
      rewrite (Forall_forall (fun b => entryTime b <= entryTime x)) in Hx.
      apply Hx. now apply list_elem_of_In.
Qed.

Lemma sortByDate_sorted l :
  StronglySorted (fun a b => entryTime b <= entryTime a) (sortByDate l).
Proof.
  induction l as [|x l IH]; cbn [sortByDate fold_right]; [constructor|].
  now apply insertByDate_sorted.
Qed.

Lemma insertByDate_stable t e l :
  List.filter (fun x => entryTime x =? t) (insertByDate e l)
  = List.filter (fun x => entryTime x =? t) (e :: l).
Proof.
  induction l as [|x l IH]; cbn [insertByDate]; [reflexivity|].
  destruct (Z.leb_spec (entryTime x) (entryTime e)) as [Hle | Hgt];
    [reflexivity|].
  cbn [List.filter] in *. rewrite IH.
  destruct (Z.eqb_spec (entryTime x) t) as [Hx | Hx];
    destruct (Z.eqb_spec (entryTime e) t) as [He | He];
    try reflexivity; lia.
Qed.

Lemma sortByDate_stable t l :
  List.filter (fun x => entryTime x =? t) (sortByDate l)
  = List.filter (fun x => entryTime x =? t) l.
Proof.
  induction l as [|x l IH]; cbn [sortByDate fold_right]; [reflexivity|].
  fold (sortByDate l). rewrite insertByDate_stable. cbn [List.filter].
  now rewrite IH.
Qed.

(** X13: with the filter on All the history shows every transaction and
    every income exactly once, newest date first, and entries of the
    same date in the order they were read, transactions before
    incomes. *)
Theorem history_shows_every_entry_newest_first tz transactions incomes now :
  let shown := filteredEntries tz transactions incomes now AllEntries in
  let read := List.map fromTransactions transactions
              ++ List.map fromIncomes incomes in
  Permutation shown read
  /\ StronglySorted (fun a b => entryTime b <= entryTime a) shown
  /\ forall t,
       List.filter (fun x => entryTime x =? t) shown
       = List.filter (fun x => entryTime x =? t) read.
Proof.
  cbv zeta. unfold filteredEntries, allEntries.
  split; [apply sortByDate_perm|].
  split; [apply sortByDate_sorted|].
  intros t. apply sortByDate_stable.
Qed.

Lemma MakeDay_index y k d : MakeDay y k d = MakeDay 0 (12 * y + k) d.
Proof.
  unfold MakeDay.
  replace (12 * y + k) with (k + y * 12) by lia.
  rewrite Z.div_add, Z_mod_plus_full by lia.
  f_equal. f_equal. f_equal. lia.
Qed.

Lemma setMonth_monotone tz t k k' :
  boundedZone tz -> k <= k' -> setMonth tz t k <= setMonth tz t k'.
Proof.
  intros Hb Hk. destruct (Z.eq_dec k k') as [-> | Hne]; [lia|].
  unfold setMonth. set (lt := LocalTime tz t).
  rewrite (MakeDay_index _ k), (MakeDay_index _ k').
  rewrite (MakeDay_linear _ _ (DateFromTime lt)).
  rewrite (MakeDay_linear _ (12 * YearFromTime lt + k') (DateFromTime lt)).
  pose proof (MakeDay_month_mono (12 * YearFromTime lt + k)
                (Z.to_nat (k' - k))) as Hm.
  replace (12 * YearFromTime lt + k + Z.of_nat (Z.to_nat (k' - k)))
    with (12 * YearFromTime lt + k') in Hm by lia.
  unfold UTC, MakeDate.
  set (a := MakeDay 0 (12 * YearFromTime lt + k) 1) in *.
  set (b := MakeDay 0 (12 * YearFromTime lt + k') 1) in *.
  destruct (Hb ((a + DateFromTime lt - 1) * msPerDay + TimeWithinDay lt))
    as [_ Ha].
  destruct (Hb ((b + DateFromTime lt - 1) * msPerDay + TimeWithinDay lt))
    as [_ Hb'].
  unfold msPerDay in *. lia.
Qed.

Lemma filter_filter_implied {A} (f g : A -> bool) l :
  (forall x, f x = true -> g x = true) ->
  List.filter f (List.filter g l) = List.filter f l.
Proof.
  intros H. induction l as [|x l IH]; [reflexivity|]. cbn [List.filter].
  destruct (g x) eqn:Eg; cbn [List.filter].
  - now rewrite IH.
  - destruct (f x) eqn:Ef; [|exact IH]. apply H in Ef. congruence.
Qed.

(** X14: on a host whose offset from UTC is at most a day, a shorter
    history window shows a part of what a longer one shows, in the same
    order, and every window shows a part of All. *)
Theorem history_windows_are_nested tz transactions incomes now n n' :
  boundedZone tz -> n <= n' ->
  let shorter := filteredEntries tz transactions incomes now (LastMonths n) in
  let longer := filteredEntries tz transactions incomes now (LastMonths n') in
  let all := filteredEntries tz transactions incomes now AllEntries in
  shorter
  = List.filter (fun e => getCutoffDate tz now n <=? entryTime e) longer
  /\ longer
     = List.filter (fun e => getCutoffDate tz now n' <=? entryTime e) all
  /\ (forall e, In e shorter -> In e longer)
  /\ (forall e, In e longer -> In e all).
Proof.
  intros Hb Hn. cbv zeta. unfold filteredEntries.
  assert (Hc : getCutoffDate tz now n' <= getCutoffDate tz now n).
  { unfold getCutoffDate. apply setMonth_monotone; [exact Hb | lia]. }
  assert (E : List.filter (fun e => getCutoffDate tz now n <=? entryTime e)
                (allEntries transactions incomes)
              = List.filter (fun e => getCutoffDate tz now n <=? entryTime e)
                  (List.filter
                     (fun e => getCutoffDate tz now n' <=? entryTime e)
                     (allEntries transactions incomes))).
  { symmetry. apply filter_filter_implied. intros x Hx. lia. }
  split; [exact E|]. split; [reflexivity|]. split.
  - intros e He. rewrite E in He. now apply filter_In in He as [He _].
  - intros e He. now apply filter_In in He as [He _].
Qed.

Lemma history_windows_are_nested_witness :
  let transactions := [expenseOn (isoDate 2024 3 10) 100 "EUR";
                       expenseOn (isoDate 2023 12 24) 40 "EUR"] in
  let incomes := [incomeOn (isoDate 2024 4 1) 2000 "EUR"] in
  let now := atNoon (isoDate 2024 5 31) in
  boundedZone europeBerlin /\ 3 <= 6
  /\ forall e,
       In e (filteredEntries europeBerlin transactions incomes now
               (LastMonths 3)) ->
       In e (filteredEntries europeBerlin transactions incomes now
               (LastMonths 6)).
Proof.
  cbv zeta. split; [exact boundedZone_europeBerlin|]. split; [lia|].
  exact (proj1 (proj2 (proj2
           (history_windows_are_nested europeBerlin
              [expenseOn (isoDate 2024 3 10) 100 "EUR";
               expenseOn (isoDate 2023 12 24) 40 "EUR"]
              [incomeOn (isoDate 2024 4 1) 2000 "EUR"]
              (atNoon (isoDate 2024 5 31)) 3 6 boundedZone_europeBerlin
              ltac:(lia))))).
Defined.

(** ** History page: the purge on errors and on a second run *)

Lemma filter_olderThan_kept cutoff docs :
  List.filter (olderThan cutoff)
    (List.filter (fun e => negb (olderThan cutoff e)) docs) = [].
Proof.
  induction docs as [|e docs IH]; [reflexivity|]. cbn [List.filter].
  destruct (olderThan cutoff e) eqn:E; cbn [negb List.filter];
    [exact IH|]. now rewrite E.
Qed.

Lemma deleteOld_nothing_old cutoff outcome docs :
  List.filter (olderThan cutoff) docs = [] ->
  deleteOld cutoff outcome docs = Some docs.
Proof. intros H. unfold deleteOld. now rewrite H. Qed.

(** X15: after a purge whose commits were accepted, a further purge at
    the same instant finds nothing to delete and leaves the store as it
    is, whether or not a commit would be accepted. *)
Theorem purge_second_run_changes_nothing
    tz uid user now onTransactions onIncomes st :
  let st' :=
    autoDeleteOldTransactions tz (Some uid) now Committed Committed st in
  autoDeleteOldTransactions tz user now onTransactions onIncomes st' = st'.
Proof.
  cbv zeta. unfold autoDeleteOldTransactions at 2 3.
  rewrite !deleteOld_committed.
  destruct user as [u|]; [|reflexivity].
  unfold autoDeleteOldTransactions. cbn [transactionsColl incomesColl
                                         recurringColl].
  now rewrite !deleteOld_nothing_old by apply filter_olderThan_kept.
Qed.

Lemma deleteOld_rejected cutoff docs (e : Entry) :
  In e docs -> olderThan cutoff e = true ->
  deleteOld cutoff Rejected docs = None.
Proof.
  intros Hin Ho. unfold deleteOld.
  destruct (List.filter (olderThan cutoff) docs) eqn:E; [|reflexivity].
  assert (H : In e (List.filter (olderThan cutoff) docs))
    by (apply filter_In; now split).
  rewrite E in H. destruct H.
Qed.

(** X16: the purge is not atomic across the two collections.  When the
    deletion of the old transactions is rejected nothing is deleted,
    old incomes included; when it is accepted and the deletion of the
    old incomes is rejected, the old transactions are gone and the
    incomes are all still there. *)
Theorem purge_stops_at_the_first_rejected_commit
    tz uid now (st : Store) (t i : Entry) :
  In t (transactionsColl st) -> olderThan (cutoffDate tz now) t = true ->
  In i (incomesColl st) -> olderThan (cutoffDate tz now) i = true ->
  (forall onIncomes,
      autoDeleteOldTransactions tz (Some uid) now Rejected onIncomes st = st)
  /\ (let st' :=
        autoDeleteOldTransactions tz (Some uid) now Committed Rejected st in
      transactionsColl st'
      = List.filter (fun e => negb (olderThan (cutoffDate tz now) e))
          (transactionsColl st)
      /\ ~ In t (transactionsColl st')
      /\ incomesColl st' = incomesColl st
      /\ recurringColl st' = recurringColl st).
Proof.
  intros Ht Hto Hi Hio. split.
  - intros onIncomes. unfold autoDeleteOldTransactions.
    now rewrite (deleteOld_rejected _ _ t Ht Hto).
  - cbv zeta. unfold autoDeleteOldTransactions.
    rewrite deleteOld_committed, (deleteOld_rejected _ _ i Hi Hio).
    cbn [transactionsColl incomesColl recurringColl].
    split; [reflexivity|]. split; [|split; reflexivity].
    intros H. apply filter_In in H as [_ H]. now rewrite Hto in H.
Qed.

Lemma purge_stops_at_the_first_rejected_commit_witness :
  let now := atNoon (isoDate 2026 11 3) in
  let t := expenseOn (isoDate 2020 3 1) 50 "EUR" in
  let i := incomeOn (isoDate 2020 1 10) 1000 "EUR" in
  let st := {| transactionsColl := [t]; incomesColl := [i];
               recurringColl := [] |} in
  (forall onIncomes,
      autoDeleteOldTransactions utcZone (Some "u1") now Rejected onIncomes st
      = st)
  /\ transactionsColl
       (autoDeleteOldTransactions utcZone (Some "u1") now Committed Rejected
          st) = []
  /\ incomesColl
       (autoDeleteOldTransactions utcZone (Some "u1") now Committed Rejected
          st) = [i].
Proof.
  cbv zeta.
  destruct (purge_stops_at_the_first_rejected_commit utcZone "u1"
              (atNoon (isoDate 2026 11 3))
              {| transactionsColl := [expenseOn (isoDate 2020 3 1) 50 "EUR"];
                 incomesColl := [incomeOn (isoDate 2020 1 10) 1000 "EUR"];
                 recurringColl := [] |}
              (expenseOn (isoDate 2020 3 1) 50 "EUR")
              (incomeOn (isoDate 2020 1 10) 1000 "EUR")
              (or_introl eq_refl) ltac:(vm_compute; reflexivity)
              (or_introl eq_refl) ltac:(vm_compute; reflexivity))
    as (Hrej & Ht & _ & Hi & _).
  split; [exact Hrej|]. split; [|exact Hi].
  rewrite Ht. vm_compute. reflexivity.
Defined.

(** ** Budget page *)

Lemma existsb_eqb_In (x : string) l :
  existsb (String.eqb x) l = true <-> In x l.
Proof.
  rewrite existsb_exists. split.
  - intros (y & Hy & E). apply String.eqb_eq in E. now subst.
  - intros H. exists x. split; [exact H | apply String.eqb_refl].
Qed.

Lemma NoDup_filter_strings (f : string -> bool) l :
  NoDup l -> NoDup (List.filter f l).
Proof.
  induction 1 as [|x l Hx Hl IH]; cbn [List.filter]; [constructor|].
  destruct (f x); [|exact IH]. constructor; [|exact IH].
  intros H. apply Hx. apply list_elem_of_In.
  apply list_elem_of_In in H. now apply filter_In in H as [H _].
Qed.

Lemma filter_not_eqb_id (c : string) l :
  ~ In c l -> List.filter (fun x => negb (String.eqb x c)) l = l.
Proof.
  induction l as [|x l IH]; intros H; [reflexivity|]. cbn [List.filter].
  destruct (String.eqb_spec x c) as [-> | Hne]; cbn [negb].
  - exfalso. apply H. now left.
  - rewrite IH; [reflexivity|]. intros Hin. apply H. now right.
Qed.

(** X17: adding and deleting categories keeps the list free of
    duplicates, whoever is signed in and whether or not the write is
    accepted; a deleted name is gone from the list and no other name
    is; and deleting a name that was just added gives the list back. *)
Theorem category_edits_keep_the_list_duplicate_free
    user outcome outcome' (s : BudgetPageState) (c : string) :
  NoDup (categories s) ->
  NoDup (categories (handleAddCategory user outcome s))
  /\ NoDup (categories (handleDeleteCategory user outcome c s))
  /\ (forall uid, user = Some uid -> outcome = Committed ->
        forall x, In x (categories (handleDeleteCategory user outcome c s))
                  <-> In x (categories s) /\ x <> c)
  /\ (forall uid, user = Some uid -> outcome = Committed ->
        outcome' = Committed ->
        newCategory s <> "" -> ~ In (newCategory s) (categories s) ->
        categories (handleDeleteCategory user outcome' (newCategory s)
                      (handleAddCategory user outcome s))
        = categories s).
Proof.
  intros Hnd. split; [|split; [|split]].
  - unfold handleAddCategory, handleSaveCategories.
    destruct (negb (String.eqb (newCategory s) "")
              && negb (existsb (String.eqb (newCategory s)) (categories s)))
      eqn:E; [|exact Hnd].
    apply andb_prop in E as [_ E]. apply negb_true_iff in E.
    destruct user, outcome; cbn [categories]; try exact Hnd.
    apply NoDup_app. split; [exact Hnd|]. split; [|apply NoDup_singleton].
    intros x Hx Hx'. apply list_elem_of_singleton in Hx'. subst x.
    apply list_elem_of_In, existsb_eqb_In in Hx. congruence.
  - unfold handleDeleteCategory, handleSaveCategories.
    destruct user, outcome; cbn [categories]; try exact Hnd.
    now apply NoDup_filter_strings.
  - intros uid -> -> x. unfold handleDeleteCategory, handleSaveCategories.
    cbn [categories]. rewrite filter_In, negb_true_iff.
    now rewrite String.eqb_neq.
  - intros uid -> -> -> Hne Hnew.
    unfold handleDeleteCategory, handleAddCategory, handleSaveCategories.
    apply String.eqb_neq in Hne. rewrite Hne.
    assert (E : existsb (String.eqb (newCategory s)) (categories s) = false).
    { apply not_true_is_false. now rewrite existsb_eqb_In. }
    rewrite E. cbn [negb andb categories].
    rewrite List.filter_app, filter_not_eqb_id by exact Hnew.
    cbn [List.filter]. rewrite String.eqb_refl. cbn [negb].
    apply app_nil_r.
Qed.

Lemma category_edits_keep_the_list_duplicate_free_witness :
  let s := {| categoriesDoc := None; categories := ["Grocery"; "Transport"];
              newCategory := "Pets"; budgetsDoc := sampleBudgets;
              newBudgets := sampleBudgets |} in
  NoDup (categories s)
  /\ categories (handleAddCategory (Some "u1") Committed s)
     = ["Grocery"; "Transport"; "Pets"]
  /\ NoDup (categories (handleAddCategory (Some "u1") Committed s))
  /\ categories (handleDeleteCategory (Some "u1") Committed "Pets"
                   (handleAddCategory (Some "u1") Committed s))
     = ["Grocery"; "Transport"].
Proof.
  cbv zeta.
  assert (Hnd : NoDup ["Grocery"; "Transport"]).
  { apply NoDup_cons. split; [|apply NoDup_singleton].
    intros H. apply list_elem_of_singleton in H. discriminate. }
  destruct (category_edits_keep_the_list_duplicate_free (Some "u1")
              Committed Committed
              {| categoriesDoc := None;
                 categories := ["Grocery"; "Transport"];
                 newCategory := "Pets"; budgetsDoc := sampleBudgets;
                 newBudgets := sampleBudgets |} "Pets" Hnd)
    as (Ha & _ & _ & Hr).
  split; [exact Hnd|]. split; [reflexivity|]. split; [exact Ha|].
  apply (Hr "u1" eq_refl eq_refl eq_refl).
  - discriminate.
  - cbn. intros [H | [H | []]]; discriminate.
Defined.

Lemma elem_of_keys_lookup {A} (o : gmap string A) (k : string) :
  In k (keys o) <-> exists v, o !! k = Some v.
Proof.
  unfold keys. rewrite <- list_elem_of_In, list_elem_of_fmap. split.
  - intros ([k' v] & -> & H). apply elem_of_map_to_list in H. now exists v.
  - intros (v & H). exists (k, v). split; [reflexivity|].
    now apply elem_of_map_to_list.
Qed.



(** ** Budget variance: categories named like inherited properties *)

(** X28: the month's expenses are grouped in a plain object, so a
    category named like a property every object inherits is not
    grouped as the others are.  An expense of the category [__proto__]
    leaves the object as it was and is in no line of the list; an
    expense of the category [constructor] stores a text where a number
    is expected, and the list, which calls [toFixed] on it, is not
    rendered. *)
Theorem category_named_like_an_inherited_property rate :
  let food := expenseIn "Grocery" (isoDate 2024 5 7) 20 in
  let proto := expenseIn "__proto__" (isoDate 2024 5 8) 30 in
  let ctor := expenseIn "constructor" (isoDate 2024 5 9) 40 in
  let line :=
    {| lineCategory := "Grocery"; budget := 0; actual := 20;
       isOverBudget := true; overBudgetShown := false |} in
  expensesByCategory utcZone [proto] 2024 4 rate = ∅
  /\ budgetLines utcZone [food; proto] ∅ 2024 4 rate = Some [line]
  /\ expensesByCategory utcZone [ctor] 2024 4 rate !! "constructor"
     = Some CText
  /\ budgetLines utcZone [food; ctor] ∅ 2024 4 rate = None
  /\ budgetLines utcZone [food] (<["toString" := 50%float]> ∅) 2024 4 rate
     = None.
Proof. cbv zeta. repeat split; vm_compute; reflexivity. Qed.

(** ** Budget variance on hosts at or ahead of UTC *)

Lemma orZero_id (a : float) :
  is_nan a = false -> a <> neg_zero -> orZero a = a.
Proof.
  intros Hn Hz. unfold orZero, truthyNumber. rewrite Hn.
  destruct (PrimFloat.eqb a 0) eqn:E; [|reflexivity].
  cbn [negb andb].
  destruct (DoubleFacts.eqb_zero a E) as [-> | ->];
    [reflexivity | contradiction].
Qed.

Lemma zero_not_neg_zero : 0%float <> neg_zero.
Proof.
  intros H. apply (f_equal get_sign) in H. vm_compute in H. discriminate H.
Qed.

(** A sum that starts from [0] is never [-0]. *)
Lemma fold_add_not_neg_zero (xs : list float) : forall a,
  a <> neg_zero -> fold_left PrimFloat.add xs a <> neg_zero.
Proof.
  induction xs as [|x xs IH]; intros a Ha; cbn [fold_left]; [exact Ha|].
  apply IH. intros H. apply Ha. now apply DoubleFacts.add_neg_zero with x.
Qed.

(** Where no partial sum is [NaN], [(acc || 0) + x] at every step adds
    up to the plain sum. *)
Lemma restart_sum (xs : list float) : forall a,
  a <> neg_zero ->
  (forall n, is_nan (fold_left PrimFloat.add (take n xs) a) = false) ->
  fold_left (fun acc x => (orZero acc + x)%float) xs a
  = fold_left PrimFloat.add xs a.
Proof.
  induction xs as [|x xs IH]; intros a Ha Hn; [reflexivity|].
  cbn [fold_left]. rewrite orZero_id; [|exact (Hn O)|exact Ha].
  apply IH.
  - intros H. apply Ha. now apply DoubleFacts.add_neg_zero with x.
  - intros n. exact (Hn (S n)).
Qed.

Lemma inherited_false (k : string) :
  inherited k = false <-> ~ In k objectPrototypeKeys.
Proof.
  unfold inherited. rewrite <- existsb_eqb_In.
  destruct (existsb (String.eqb k) objectPrototypeKeys);
    split; congruence.
Qed.

Lemma toEUR_inEUR rate (t : Entry) :
  toEUR rate (amount t) (currency t) = inEUR rate t.
Proof.
  unfold toEUR, inEUR.
  destruct (String.eqb_spec (currency t) "INR") as [E | E].
  - now rewrite decide_True.
  - now rewrite decide_False.
Qed.

(** The object after the reduction: a category of the list holds the
    running sum of its expenses, every other property is as it was. *)
Lemma fold_addExpense_cells rate (l : list Entry) :
  forall acc : gmap string Cell,
  (forall t, In t l -> inherited (categoryKey t) = false) ->
  (forall k, acc !! k <> Some CText) ->
  forall k,
  fold_left (addExpense rate) l acc !! k
  = match List.filter (fun t => String.eqb (categoryKey t) k) l with
    | [] => acc !! k
    | ts =>
        Some (CNumber
                (fold_left (fun a x => (orZero a + x)%float)
                   (List.map (inEUR rate) ts)
                   match acc !! k with
                   | Some (CNumber x) => x
                   | _ => 0%float
                   end))
    end.
Proof.
  induction l as [|t l IH]; intros acc Hl Hacc k; [reflexivity|].
  cbn [fold_left List.filter].
  assert (Hk : inherited (categoryKey t) = false) by (apply Hl; now left).
  assert (Hp : String.eqb (categoryKey t) "__proto__" = false).
  { apply String.eqb_neq. intros E. rewrite E in Hk. discriminate Hk. }
  set (init := match acc !! categoryKey t with
               | Some (CNumber x) => x
               | _ => 0%float
               end).
  assert (Hstep : addExpense rate acc t
                  = <[categoryKey t :=
                        CNumber (orZero init + inEUR rate t)%float]> acc).
  { unfold addExpense, writeCell, readCell. cbv zeta. rewrite Hp.
    rewrite toEUR_inEUR. subst init.
    destruct (acc !! categoryKey t) as [[x|]|] eqn:E.
    - reflexivity.
    - now destruct (Hacc (categoryKey t)).
    - rewrite Hk. reflexivity. }
  rewrite Hstep.
  rewrite IH.
  - destruct (String.eqb_spec (categoryKey t) k) as [<- | Hne].
    + rewrite lookup_insert_eq. cbn [List.map fold_left].
      fold init.
      destruct (List.filter
                  (fun t0 => String.eqb (categoryKey t0) (categoryKey t)) l);
        reflexivity.
    + rewrite lookup_insert_ne by exact Hne. reflexivity.
  - intros t' Ht'. apply Hl. now right.
  - intros k'. destruct (String.eqb_spec (categoryKey t) k') as [<- | Hne].
    + rewrite lookup_insert_eq. discriminate.
    + rewrite lookup_insert_ne by exact Hne. apply Hacc.
Qed.

Lemma categoryKey_name (t : Entry) : categoryKey t = categoryName t.
Proof. unfold categoryKey, categoryName. now destruct (category t). Qed.

(** On a host at or ahead of UTC the expenses grouped for a month are
    those dated in it, category by category. *)
Lemma monthlyExpenses_of_category tz transactions y m cat :
  aheadOfUTC tz -> 1 <= m <= 12 -> validDates transactions ->
  List.filter (fun t => String.eqb (categoryKey t) cat)
    (monthlyExpenses tz transactions y (m - 1))
  = expensesOf y m cat transactions.
Proof.
  intros Hz Hm Hv. unfold monthlyExpenses, monthlyTransactions, expensesOf.
  rewrite !filter_filter_and.
  rewrite <- (filter_decide
                (fun t : Entry =>
                   type t = "expense" /\ isoYear (date t) = y
                   /\ isoMonth (date t) = m /\ categoryName t = cat)
                (fun t : Entry =>
                   String.eqb (type t) "expense"
                   && ((isoYear (date t) =? y)
                       && ((isoMonth (date t) =? m)
                           && String.eqb (categoryKey t) cat)))).
  - apply List.filter_ext_in. intros t Ht.
    unfold validDates in Hv. rewrite Forall_forall in Hv.
    destruct (date_filters_ahead_of_utc tz y m t Hz Hm
                (Hv t (proj2 (list_elem_of_In _ _) Ht))) as [_ ->].
    destruct (isoMonth (date t) =? m), (isoYear (date t) =? y),
      (String.eqb (type t) "expense"), (String.eqb (categoryKey t) cat);
      reflexivity.
  - intros t. rewrite !andb_true_iff, !String.eqb_eq, !Z.eqb_eq.
    now rewrite categoryKey_name.
Qed.

Lemma mapM_map_Some {A B} (f : A -> option B) (g : A -> B) (l : list A) :
  (forall x, In x l -> f x = Some (g x)) -> mapM f l = Some (List.map g l).
Proof.
  intros H. apply mapM_Some. induction l as [|x l IH]; cbn [List.map];
    constructor; [apply H; now left | apply IH].
  intros y Hy. apply H. now right.
Qed.

(** X29: on a host at or ahead of UTC, with well-formed dates, no
    budgeted or spent-on category named like a property every object
    inherits, and sums that stay numbers, the list of budget lines is
    what C7 describes.  It has one line for every category that has a
    budget or an expense dated in the selected month, and no other;
    the line shows the budget (0 without one), as actual amount the sum,
    in the order of the list, of the month's expenses of the category
    converted to EUR (0 when there is none), and the over-budget mark
    exactly when actual > budget and budget > 0. *)
Theorem budget_lines_on_hosts_ahead_of_utc tz transactions budgets y m rate :
  aheadOfUTC tz -> 1 <= m <= 12 -> validDates transactions ->
  (forall k, is_Some (budgets !! k) -> ~ In k objectPrototypeKeys) ->
  (forall t, In t transactions -> type t = "expense" ->
             ~ In (categoryName t) objectPrototypeKeys) ->
  (forall cat,
     numericSums (List.map (inEUR rate) (expensesOf y m cat transactions))) ->
  exists lines,
    budgetLines tz transactions budgets y (m - 1) rate = Some lines
    /\ NoDup (List.map lineCategory lines)
    /\ (forall cat,
          In cat (List.map lineCategory lines)
          <-> is_Some (budgets !! cat)
              \/ expensesOf y m cat transactions <> [])
    /\ Forall
         (fun line =>
            let spent := expensesOf y m (lineCategory line) transactions in
            budget line
            = orZero (default 0%float (budgets !! lineCategory line))
            /\ actual line = sumDoubles (List.map (inEUR rate) spent)
            /\ isOverBudget line = (budget line <? actual line)%float
            /\ overBudgetShown line
               = isOverBudget line && (0 <? budget line)%float)
         lines.
Proof.
  intros Hz Hm Hv Hb Hc Hn.
  set (E := expensesByCategory tz transactions y (m - 1) rate).
  (* the cells of the object *)
  assert (Hcell : forall cat,
            E !! cat
            = match expensesOf y m cat transactions with
              | [] => None
              | ts => Some (CNumber (sumDoubles (List.map (inEUR rate) ts)))
              end).
  { intros cat. subst E. unfold expensesByCategory.
    rewrite fold_addExpense_cells.
    - rewrite (monthlyExpenses_of_category tz transactions y m cat Hz Hm Hv).
      rewrite lookup_empty.
      destruct (expensesOf y m cat transactions) as [|t ts] eqn:Ets;
        [reflexivity|].
      f_equal. f_equal. apply restart_sum; [exact zero_not_neg_zero|].
      intros n. specialize (Hn cat n). now rewrite Ets in Hn.
    - intros t Ht. apply inherited_false. rewrite categoryKey_name.
      unfold monthlyExpenses, monthlyTransactions in Ht.
      apply filter_In in Ht as [Ht Hty]. apply filter_In in Ht as [Ht _].
      apply Hc; [exact Ht | now apply String.eqb_eq].
    - intros k. rewrite lookup_empty. discriminate. }
  (* the names listed *)
  assert (Hnames : forall cat,
            In cat (allCategoryNames tz transactions budgets y (m - 1) rate)
            <-> is_Some (budgets !! cat)
                \/ expensesOf y m cat transactions <> []).
  { intros cat. unfold allCategoryNames. fold E.
    rewrite <- list_elem_of_In, elem_of_remove_dups, elem_of_app,
      !list_elem_of_In, !elem_of_keys_lookup.
    assert (HE : (exists v, E !! cat = Some v)
                 <-> expensesOf y m cat transactions <> []).
    { rewrite Hcell. destruct (expensesOf y m cat transactions).
      - split; [intros (v & [=]) | congruence].
      - split; [discriminate | eauto]. }
    rewrite HE. unfold is_Some. reflexivity. }
  set (mk := fun cat : string =>
               let budget := orZero (default 0%float (budgets !! cat)) in
               let actual :=
                 sumDoubles
                   (List.map (inEUR rate) (expensesOf y m cat transactions)) in
               {| lineCategory := cat; budget := budget; actual := actual;
                  isOverBudget := (budget <? actual)%float;
                  overBudgetShown :=
                    (budget <? actual)%float && (0 <? budget)%float |}).
  assert (Hline : forall cat,
            In cat (allCategoryNames tz transactions budgets y (m - 1) rate) ->
            budgetLine tz transactions budgets y (m - 1) rate cat
            = Some (mk cat)).
  { intros cat Hin. apply Hnames in Hin.
    assert (Hni : inherited cat = false).
    { apply inherited_false. destruct Hin as [Hin | Hin];
        [now apply Hb|].
      destruct (expensesOf y m cat transactions) as [|t ts] eqn:Ets;
        [congruence|].
      assert (Ht : t ∈ expensesOf y m cat transactions)
        by (rewrite Ets; left).
      unfold expensesOf in Ht. apply list_elem_of_filter in Ht
        as [(Hty & _ & _ & <-) Ht].
      apply Hc; [now apply list_elem_of_In | exact Hty]. }
    unfold budgetLine, actualOf, budgetOf, readCell, readNumber. fold E.
    rewrite Hcell, Hni.
    assert (Hbud : match budgets !! cat with
                   | Some x => orZero x
                   | None => 0%float
                   end = orZero (default 0%float (budgets !! cat)))
      by (destruct (budgets !! cat); reflexivity).
    destruct (expensesOf y m cat transactions) as [|t ts] eqn:Ets.
    - subst mk. cbv beta zeta. rewrite Ets.
      destruct (budgets !! cat); reflexivity.
    - rewrite orZero_id.
      + subst mk. cbv beta zeta. rewrite Ets.
        destruct (budgets !! cat); reflexivity.
      + specialize (Hn cat (List.length (List.map (inEUR rate) (t :: ts)))).
        rewrite Ets, firstn_all in Hn. exact Hn.
      + apply fold_add_not_neg_zero. exact zero_not_neg_zero. }
  exists (List.map mk
            (allCategoryNames tz transactions budgets y (m - 1) rate)).
  split; [|split; [|split]].
  - unfold budgetLines. now apply mapM_map_Some.
  - rewrite map_map. cbn [lineCategory mk]. rewrite map_id.
    unfold allCategoryNames. apply NoDup_remove_dups.
  - intros cat. rewrite map_map. cbn [lineCategory mk]. rewrite map_id.
    apply Hnames.
  - apply Forall_forall. intros line Hline'.
    apply list_elem_of_In, in_map_iff in Hline' as (cat & <- & _).
    cbv zeta. subst mk. cbn [lineCategory budget actual isOverBudget
                              overBudgetShown]. repeat split.
Qed.
Lemma budget_lines_on_hosts_ahead_of_utc_witness :
  aheadOfUTC europeBerlin /\ validDates sampleTransactions
  /\ (forall k, is_Some (sampleBudgets !! k) -> ~ In k objectPrototypeKeys)
  /\ (forall t, In t sampleTransactions -> type t = "expense" ->
                ~ In (categoryName t) objectPrototypeKeys)
  /\ (forall cat,
        numericSums
          (List.map (inEUR 90) (expensesOf 2024 5 cat sampleTransactions)))
  /\ exists lines,
       budgetLines europeBerlin sampleTransactions sampleBudgets 2024 (5 - 1)
         90 = Some lines
       /\ (forall cat,
             In cat (List.map lineCategory lines)
             <-> is_Some (sampleBudgets !! cat)
                 \/ expensesOf 2024 5 cat sampleTransactions <> []).
Proof.
  assert (Hv : validDates sampleTransactions) by (repeat constructor).
  assert (Hb : forall k, is_Some (sampleBudgets !! k) ->
                         ~ In k objectPrototypeKeys).
  { intros k Hk Hin. cbn [objectPrototypeKeys In] in Hin.
    repeat (destruct Hin as [<- | Hin];
            [vm_compute in Hk; destruct Hk as [? Hk]; discriminate Hk|]).
    exact Hin. }
  assert (Hc : forall t, In t sampleTransactions -> type t = "expense" ->
                         ~ In (categoryName t) objectPrototypeKeys).
  { intros t Ht _ Hin. cbn [sampleTransactions In] in Ht.
    destruct Ht as [<- | [<- | [<- | []]]];
      cbn in Hin; repeat (destruct Hin as [Hin | Hin]; [discriminate Hin|]);
      exact Hin. }
  assert (Hn : forall cat,
            numericSums
              (List.map (inEUR 90)
                 (expensesOf 2024 5 cat sampleTransactions))).
  { intros cat n. unfold expensesOf, sampleTransactions.
    rewrite !filter_cons, filter_nil.
    rewrite (decide_False
               (P := _ /\ _
                     /\ isoMonth (date (expenseOn (isoDate 2024 4 7) 10 "EUR"))
                        = 5
                     /\ _))
      by (intros (_ & _ & [=] & _)).
    destruct (decide (cat = "Rent/Mortgage")) as [-> | N1].
    - rewrite decide_True by (now repeat split).
      rewrite decide_False by (intros (_ & _ & _ & [=])).
      destruct n as [|[|n]]; vm_compute; reflexivity.
    - rewrite decide_False
        by (intros (_ & _ & _ & E); apply N1; now rewrite <- E).
      destruct (decide (cat = "Grocery")) as [-> | N2].
      + rewrite decide_True by (now repeat split).
        destruct n as [|[|n]]; vm_compute; reflexivity.
      + rewrite decide_False
          by (intros (_ & _ & _ & E); apply N2; now rewrite <- E).
        destruct n; reflexivity. }
  split; [exact aheadOfUTC_europeBerlin|]. split; [exact Hv|].
  split; [exact Hb|]. split; [exact Hc|]. split; [exact Hn|].
  destruct (budget_lines_on_hosts_ahead_of_utc europeBerlin
              sampleTransactions sampleBudgets 2024 5 90
              aheadOfUTC_europeBerlin ltac:(lia) Hv Hb Hc Hn)
    as (lines & Hl & _ & Hcat & _).
  exists lines. split; [exact Hl | exact Hcat].
Defined.

(** ** Date strings and their order *)

Lemma append_nil_l (s : string) : ("" ++ s)%string = s.
Proof. reflexivity. Qed.

Lemma append_cons c (a b : string) :
  (String c a ++ b)%string = String c (a ++ b)%string.
Proof. reflexivity. Qed.

Lemma length_append (a b : string) :
  String.length (a ++ b)%string = (String.length a + String.length b)%nat.
Proof.
  induction a as [|c a IH]; [reflexivity|].
  rewrite append_cons. cbn [String.length]. now rewrite IH.
Qed.

Lemma decimal_length w : forall n, String.length (decimal w n) = w.
Proof.
  induction w as [|w IH]; intros n; [reflexivity|].
  cbn [decimal]. rewrite length_append, IH. cbn. lia.
Qed.

(** Strings of the same length are compared before what follows them. *)
Lemma compare_append (s1 : string) : forall s2 t1 t2,
  String.length s1 = String.length s2 ->
  String.compare (s1 ++ t1) (s2 ++ t2)
  = match String.compare s1 s2 with
    | Eq => String.compare t1 t2
    | c => c
    end.
Proof.
  induction s1 as [|c1 s1 IH]; intros [|c2 s2] t1 t2 Hlen;
    try discriminate; [reflexivity|].
  rewrite !append_cons. cbn [String.compare].
  destruct (Ascii.compare c1 c2); [|reflexivity|reflexivity].
  apply IH. now injection Hlen.
Qed.

Lemma digitChar_compare x y :
  0 <= x <= 9 -> 0 <= y <= 9 ->
  Ascii.compare (digitChar x) (digitChar y) = Z.compare x y.
Proof.
  intros Hx Hy. unfold Ascii.compare, digitChar.
  rewrite !N_ascii_embedding by lia.
  rewrite (Z2N.inj_compare (48 + x) (48 + y)) by lia.
  apply Z.add_compare_mono_l.
Qed.

(** Numerals of the same width are ordered as their numbers. *)
Lemma decimal_compare w : forall a b,
  0 <= a < 10 ^ Z.of_nat w -> 0 <= b < 10 ^ Z.of_nat w ->
  String.compare (decimal w a) (decimal w b) = Z.compare a b.
Proof.
  induction w as [|w IH]; intros a b Ha Hb.
  - cbn in Ha, Hb. replace a with 0 by lia. replace b with 0 by lia.
    reflexivity.
  - rewrite Nat2Z.inj_succ, Z.pow_succ_r in Ha, Hb by lia.
    cbn [decimal].
    rewrite compare_append by (now rewrite !decimal_length).
    rewrite IH by (split; [apply Z.div_pos; lia
                          | apply Z.div_lt_upper_bound; lia]).
    pose proof (Z.div_mod a 10 ltac:(lia)) as Da.
    pose proof (Z.div_mod b 10 ltac:(lia)) as Db.
    pose proof (Z.mod_pos_bound a 10 ltac:(lia)) as Ma.
    pose proof (Z.mod_pos_bound b 10 ltac:(lia)) as Mb.
    cbn [String.compare].
    rewrite digitChar_compare by lia.
    destruct (Z.compare_spec (a / 10) (b / 10)) as [E | E | E];
      destruct (Z.compare_spec (a mod 10) (b mod 10)) as [E' | E' | E'];
      symmetry;
      first [ apply Z.compare_eq_iff; lia
            | apply Z.compare_lt_iff; lia
            | apply Z.compare_gt_iff; lia ].
Qed.

Lemma isoString_compare a b :
  plainDate a -> plainDate b ->
  String.compare (isoString a) (isoString b)
  = match Z.compare (isoYear a) (isoYear b) with
    | Eq => match Z.compare (isoMonth a) (isoMonth b) with
            | Eq => Z.compare (isoDay a) (isoDay b)
            | c => c
            end
    | c => c
    end.
Proof.
  intros (Hya & Hma & Hda) (Hyb & Hmb & Hdb). unfold isoString, yearString.
  replace (isoYear a <? 10000) with true by (symmetry; apply Z.ltb_lt; lia).
  replace (isoYear b <? 10000) with true by (symmetry; apply Z.ltb_lt; lia).
  rewrite compare_append by (now rewrite !decimal_length).
  rewrite decimal_compare by (change (10 ^ Z.of_nat 4) with 10000; lia).
  destruct (Z.compare (isoYear a) (isoYear b)); try reflexivity.
  rewrite !append_cons, !append_nil_l. cbn [String.compare].
  change (Ascii.compare "-" "-") with Eq. cbv iota.
  rewrite compare_append by (now rewrite !decimal_length).
  rewrite decimal_compare by (change (10 ^ Z.of_nat 2) with 100; lia).
  destruct (Z.compare (isoMonth a) (isoMonth b)); try reflexivity.
  cbn [String.compare].
  change (Ascii.compare "-" "-") with Eq. cbv iota.
  apply decimal_compare; change (10 ^ Z.of_nat 2) with 100; lia.
Qed.

(** X27: the purge compares date strings.  For dates with a year of
    four digits this is the order of the calendar, so the documents
    selected are those dated before the cutoff day.  A year of five
    digits is compared by its first characters: a document dated
    20024-01-01 is below the cutoff 2023-11-03 and is deleted. *)
Theorem date_strings_order_as_calendar_dates (e : Entry) (cutoff : ISODate) :
  plainDate (date e) -> plainDate cutoff ->
  olderThan cutoff e = calendarBefore (date e) cutoff
  /\ (let future := incomeOn (isoDate 20024 1 1) 100 "EUR" in
      calendarBefore (date future) (isoDate 2023 11 3) = false
      /\ olderThan (isoDate 2023 11 3) future = true
      /\ deleteOld (isoDate 2023 11 3) Committed [future] = Some []).
Proof.
  intros Ha Hb. split; [|cbv zeta; repeat split; vm_compute; reflexivity].
  unfold olderThan, ISODate_ltb, String.ltb, calendarBefore.
  rewrite isoString_compare by assumption.
  destruct (Z.compare_spec (isoYear (date e)) (isoYear cutoff))
    as [E | E | E];
    destruct (Z.compare_spec (isoMonth (date e)) (isoMonth cutoff))
      as [E' | E' | E'];
    destruct (Z.compare_spec (isoDay (date e)) (isoDay cutoff))
      as [E'' | E'' | E''];
    repeat match goal with
           | |- context [?x <? ?y] => destruct (Z.ltb_spec x y)
           | |- context [?x =? ?y] => destruct (Z.eqb_spec x y)
           end; cbn; try reflexivity; lia.
Qed.

Lemma date_strings_order_as_calendar_dates_witness :
  let e := incomeOn (isoDate 2023 11 3) 1000 "EUR" in
  plainDate (date e) /\ plainDate (isoDate 2023 11 4)
  /\ olderThan (isoDate 2023 11 4) e
     = calendarBefore (date e) (isoDate 2023 11 4).
Proof.
  cbv zeta.
  assert (Ha : plainDate (date (incomeOn (isoDate 2023 11 3) 1000 "EUR")))
    by (unfold plainDate; cbn; lia).
  assert (Hb : plainDate (isoDate 2023 11 4))
    by (unfold plainDate; cbn; lia).
  split; [exact Ha|]. split; [exact Hb|].
  exact (proj1 (date_strings_order_as_calendar_dates _ _ Ha Hb)).
Defined.

(** ** CSV import dialog *)

(** Reading a property of a document built by [object] and [assign]. *)
Ltac doc_lookup :=
  unfold object, assign; cbn [fold_left fst snd];
  repeat (rewrite lookup_insert_eq
          || (rewrite lookup_insert_ne by discriminate));
  try reflexivity.

(** X20: Skip walks through the rows of the loaded file in order: after
    [k] presses the dialog shows row [k] with its preselected data, and
    the press on the last row empties the list and closes the
    dialog. *)
Theorem import_review_visits_the_rows_in_order
    parseFloat categories (rows : list CsvRow) (k : nat) :
  (k < List.length rows)%nat ->
  let press :=
    fun s => ImportModal.effect parseFloat categories
               (ImportModal.handleNext s) in
  let loaded :=
    ImportModal.effect parseFloat categories
      {| ImportModal.transactionsToReview := rows;
         ImportModal.currentIndex := O;
         ImportModal.currentTransactionData := None;
         ImportModal.isOpen := true |} in
  (exists row,
      nth_error rows k = Some row
      /\ Nat.iter k press loaded
         = {| ImportModal.transactionsToReview := rows;
              ImportModal.currentIndex := k;
              ImportModal.currentTransactionData :=
                Some (ImportModal.preselected parseFloat categories row);
              ImportModal.isOpen := true |})
  /\ Nat.iter (List.length rows) press loaded
     = {| ImportModal.transactionsToReview := [];
          ImportModal.currentIndex := O;
          ImportModal.currentTransactionData := None;
          ImportModal.isOpen := false |}.
Proof.
  intros Hk press loaded.
  assert (Hat : forall j, (j < List.length rows)%nat ->
            exists row,
              nth_error rows j = Some row
              /\ Nat.iter j press loaded
                 = {| ImportModal.transactionsToReview := rows;
                      ImportModal.currentIndex := j;
                      ImportModal.currentTransactionData :=
                        Some (ImportModal.preselected parseFloat categories
                                row);
                      ImportModal.isOpen := true |}).
  { induction j as [|j IH]; intros Hj.
    - destruct (nth_error rows 0) as [row|] eqn:E;
        [|apply nth_error_None in E; lia].
      exists row. split; [reflexivity|].
      change (Nat.iter 0 press loaded) with loaded. subst loaded.
      unfold ImportModal.effect.
      cbn [ImportModal.transactionsToReview ImportModal.currentIndex
           ImportModal.isOpen].
      rewrite E. cbn [option_map].
      replace (0 <? Z.of_nat (List.length rows)) with true
        by (symmetry; apply Z.ltb_lt; lia).
      replace (Z.of_nat 0 <? Z.of_nat (List.length rows)) with true
        by (symmetry; apply Z.ltb_lt; lia).
      reflexivity.
    - destruct (IH ltac:(lia)) as (prev & _ & Eprev).
      destruct (nth_error rows (S j)) as [row|] eqn:E;
        [|apply nth_error_None in E; lia].
      exists row. split; [reflexivity|].
      change (Nat.iter (S j) press loaded)
        with (press (Nat.iter j press loaded)).
      rewrite Eprev.
      unfold press, ImportModal.handleNext.
      cbn [ImportModal.transactionsToReview ImportModal.currentIndex].
      replace (Z.of_nat j <? Z.of_nat (List.length rows) - 1) with true
        by (symmetry; apply Z.ltb_lt; lia).
      unfold ImportModal.effect.
      cbn [ImportModal.transactionsToReview ImportModal.currentIndex
           ImportModal.isOpen].
      rewrite E. cbn [option_map].
      replace (0 <? Z.of_nat (List.length rows)) with true
        by (symmetry; apply Z.ltb_lt; lia).
      replace (Z.of_nat (S j) <? Z.of_nat (List.length rows)) with true
        by (symmetry; apply Z.ltb_lt; lia).
      reflexivity. }
  split; [exact (Hat k Hk)|].
  destruct (List.length rows) as [|n] eqn:En; [lia|].
  destruct (Hat n ltac:(lia)) as (row & _ & Elast).
  change (Nat.iter (S n) press loaded)
    with (press (Nat.iter n press loaded)).
  rewrite Elast. unfold press, ImportModal.handleNext.
  cbn [ImportModal.transactionsToReview ImportModal.currentIndex].
  rewrite En.
  replace (Z.of_nat n <? Z.of_nat (S n) - 1) with false
    by (symmetry; apply Z.ltb_ge; lia).
  reflexivity.
Qed.

Lemma import_review_visits_the_rows_in_order_witness :
  let rows := [refundRow; refundRow] in
  let press :=
    fun s => ImportModal.effect parseDecimal ["Grocery"]
               (ImportModal.handleNext s) in
  let loaded :=
    ImportModal.effect parseDecimal ["Grocery"]
      {| ImportModal.transactionsToReview := rows;
         ImportModal.currentIndex := O;
         ImportModal.currentTransactionData := None;
         ImportModal.isOpen := true |} in
  (1 < List.length rows)%nat
  /\ ImportModal.currentIndex (press loaded) = 1%nat
  /\ ImportModal.isOpen (press (press loaded)) = false.
Proof.
  cbv zeta.
  assert (Hk : (1 < List.length [refundRow; refundRow])%nat) by (cbn; lia).
  destruct (import_review_visits_the_rows_in_order parseDecimal ["Grocery"]
              [refundRow; refundRow] 1 Hk) as ((row & _ & E1) & E2).
  split; [exact Hk|].
  split; [exact (f_equal ImportModal.currentIndex E1)
         | exact (f_equal ImportModal.isOpen E2)].
Defined.

(** X21: OK adds at most one document.  When none is added the dialog
    stays on the row; when one is added the dialog moves on, the
    document is in euro whatever the file said, carries the reviewed
    type, amount and date, and lies in [incomes] exactly when that type
    is income. *)
Theorem import_save_adds_one_euro_document_or_nothing user outcome s :
  match ImportModal.handleSave user outcome s with
  | (s', None) => s' = s
  | (s', Some (coll, d)) =>
      s' = ImportModal.handleNext s
      /\ user <> None /\ outcome = Committed
      /\ exists current,
           ImportModal.currentTransactionData s = Some current
           /\ In (ImportModal.type current)
                ["expense"; "savings"; "income"; "savingsWithdrawal"]
           /\ coll = (if String.eqb (ImportModal.type current) "income"
                      then "incomes" else "transactions")
           /\ d !! "type" = Some (VString (ImportModal.type current))
           /\ d !! "currency" = Some (VString "EUR")
           /\ d !! "amount" = Some (VNumber (ImportModal.amount current))
           /\ d !! "date" = Some (ofOption (ImportModal.date current))
  end.
Proof.
  unfold ImportModal.handleSave.
  destruct user as [uid|]; [|reflexivity].
  destruct (ImportModal.currentTransactionData s) as [current|];
    [|reflexivity].
  unfold ImportModal.docFor.
  destruct (String.eqb_spec (ImportModal.type current) "expense") as [E1|N1];
    [|destruct (String.eqb_spec (ImportModal.type current) "savings")
        as [E2|N2];
      [|destruct (String.eqb_spec (ImportModal.type current) "income")
          as [E3|N3];
        [|destruct (String.eqb_spec (ImportModal.type current)
                      "savingsWithdrawal") as [E4|N4]; [|reflexivity]]]];
    (destruct outcome; [|reflexivity]);
    (split; [reflexivity|]); (split; [discriminate|]);
    (split; [reflexivity|]); exists current; (split; [reflexivity|]);
    match goal with E : ImportModal.type current = _ |- _ => rewrite E end;
    (split; [cbn; tauto|]); (split; [reflexivity|]);
    repeat split; doc_lookup.
Qed.

(** X22: a row that survives the filter with an empty credit and a
    debit that is not a positive number (a refund written as a negative
    debit, say) is preselected as income with amount [NaN], and OK
    stores it so in [incomes]. *)
Theorem csv_row_with_unusable_debit_is_saved_as_nan_income
    uid parseFloat categories (rows : list CsvRow) (i : nat) (row : CsvRow)
    shown isOpen :
  parseFloat "" = nan ->
  nth_error rows i = Some row ->
  hasData row = true -> truthy (credit row) = false ->
  isDebit parseFloat row = false ->
  let s := ImportModal.effect parseFloat categories
             {| ImportModal.transactionsToReview := rows;
                ImportModal.currentIndex := i;
                ImportModal.currentTransactionData := shown;
                ImportModal.isOpen := isOpen |} in
  truthy (debit row) = true
  /\ exists d,
       ImportModal.handleSave (Some uid) Committed s
       = (ImportModal.handleNext s, Some ("incomes", d))
       /\ d !! "type" = Some (VString "income")
       /\ d !! "amount" = Some (VNumber nan).
Proof.
  intros Hnan Hrow Hdata Hcredit Hdebit. cbv zeta.
  assert (Hd : truthy (debit row) = true).
  { unfold hasData in Hdata. apply andb_prop in Hdata as [_ H].
    now rewrite Hcredit, orb_false_r in H. }
  split; [exact Hd|].
  assert (Hlen : (i < List.length rows)%nat)
    by (apply nth_error_Some; congruence).
  assert (Hamt : defaultAmount parseFloat row = nan).
  { unfold defaultAmount. rewrite Hdebit.
    destruct (credit row) as [c|]; [|reflexivity].
    cbn in Hcredit. apply negb_false_iff, String.eqb_eq in Hcredit.
    now subst c. }
  unfold ImportModal.handleSave, ImportModal.effect.
  cbn [ImportModal.transactionsToReview ImportModal.currentIndex
       ImportModal.currentTransactionData ImportModal.isOpen].
  rewrite Hrow. cbn [option_map].
  replace (0 <? Z.of_nat (List.length rows)) with true
    by (symmetry; apply Z.ltb_lt; lia).
  replace (Z.of_nat i <? Z.of_nat (List.length rows)) with true
    by (symmetry; apply Z.ltb_lt; lia).
  cbn [andb]. unfold ImportModal.docFor, ImportModal.preselected.
  cbn [ImportModal.type ImportModal.amount ImportModal.date
       ImportModal.description ImportModal.source].
  unfold defaultType. rewrite Hdebit, Hamt.
  change (String.eqb "income" "expense") with false.
  change (String.eqb "income" "savings") with false.
  change (String.eqb "income" "income") with true. cbv iota.
  eexists. split; [reflexivity|].
  split; doc_lookup.
Qed.

Lemma csv_row_with_unusable_debit_is_saved_as_nan_income_witness :
  let s := ImportModal.effect parseDecimal ["Grocery"]
             {| ImportModal.transactionsToReview := [refundRow];
                ImportModal.currentIndex := O;
                ImportModal.currentTransactionData := None;
                ImportModal.isOpen := true |} in
  parseDecimal "" = nan /\ hasData refundRow = true
  /\ isDebit parseDecimal refundRow = false
  /\ exists d,
       ImportModal.handleSave (Some "u1") Committed s
       = (ImportModal.handleNext s, Some ("incomes", d))
       /\ d !! "type" = Some (VString "income")
       /\ d !! "amount" = Some (VNumber nan).
Proof.
  cbv zeta.
  assert (H1 : parseDecimal "" = nan) by reflexivity.
  assert (H2 : hasData refundRow = true) by reflexivity.
  assert (H3 : isDebit parseDecimal refundRow = false)
    by (vm_compute; reflexivity).
  split; [exact H1|]. split; [exact H2|]. split; [exact H3|].
  exact (proj2 (csv_row_with_unusable_debit_is_saved_as_nan_income "u1"
                  parseDecimal ["Grocery"] [refundRow] O refundRow None true
                  H1 eq_refl H2 eq_refl H3)).
Defined.

(** ** Entry form *)

(** X23: the entry form adds at most one document, and only for a
    signed-in user.  When none is added the form keeps what was typed;
    when one is added the entered fields are cleared, the document
    carries the form's date and currency, and its collection fits its
    type: [transactions] receives one of the five transaction types and
    a payment always names its liability, [incomes] receives type
    income, and liabilities and assets carry no type.  Except for an
    asset the amount field was not empty. *)
Theorem entry_form_routes_documents_by_type user parseFloat outcome f :
  match EntryPage.handleSubmit user parseFloat outcome f with
  | (f', None) => f' = f
  | (f', Some (coll, d)) =>
      f' = EntryPage.cleared f /\ user <> None /\ outcome = Committed
      /\ d !! "date" = Some (VString (EntryPage.date f))
      /\ d !! "currency" = Some (VString (EntryPage.currency f))
      /\ (coll = "assets" \/ EntryPage.amount f <> "")
      /\ ((coll = "transactions"
           /\ d !! "amount"
              = Some (VNumber (parseFloat (EntryPage.amount f)))
           /\ exists ty,
                d !! "type" = Some (VString ty)
                /\ In ty ["expense"; "savings"; "openingBalance";
                          "savingsWithdrawal"; "liabilityPayment"]
                /\ (ty <> "liabilityPayment"
                    \/ EntryPage.liabilityId f <> ""
                       /\ d !! "liabilityId"
                          = Some (VString (EntryPage.liabilityId f))))
          \/ (coll = "incomes"
              /\ d !! "amount"
                 = Some (VNumber (parseFloat (EntryPage.amount f)))
              /\ d !! "type" = Some (VString "income"))
          \/ (coll = "liabilities"
              /\ d !! "totalAmount"
                 = Some (VNumber (parseFloat (EntryPage.amount f)))
              /\ d !! "type" = None)
          \/ (coll = "assets"
              /\ d !! "value"
                 = Some (VNumber (parseFloat (EntryPage.amount f)))
              /\ d !! "type" = None))
  end.
Proof.
  unfold EntryPage.handleSubmit.
  destruct user as [uid|]; [|reflexivity].
  destruct (String.eqb_spec (EntryPage.amount f) "") as [Ea|Na];
    destruct (String.eqb_spec (EntryPage.entryType f) "asset") as [Et|Nt];
    cbn [andb negb]; try reflexivity.
  - (* an asset without an amount *)
    unfold EntryPage.docFor. rewrite Et.
    change (String.eqb "asset" "expense") with false.
    change (String.eqb "asset" "savings") with false.
    change (String.eqb "asset" "savingsWithdrawal") with false.
    change (String.eqb "asset" "income") with false.
    change (String.eqb "asset" "addLiability") with false.
    change (String.eqb "asset" "payLiability") with false.
    change (String.eqb "asset" "asset") with true. cbv iota.
    destruct outcome; [|reflexivity].
    split; [reflexivity|]. split; [discriminate|]. split; [reflexivity|].
    split; [doc_lookup|]. split; [doc_lookup|]. split; [now left|].
    right. right. right. repeat split; doc_lookup.
  - unfold EntryPage.docFor. rewrite Et.
    change (String.eqb "asset" "expense") with false.
    change (String.eqb "asset" "savings") with false.
    change (String.eqb "asset" "savingsWithdrawal") with false.
    change (String.eqb "asset" "income") with false.
    change (String.eqb "asset" "addLiability") with false.
    change (String.eqb "asset" "payLiability") with false.
    change (String.eqb "asset" "asset") with true. cbv iota.
    destruct outcome; [|reflexivity].
    split; [reflexivity|]. split; [discriminate|]. split; [reflexivity|].
    split; [doc_lookup|]. split; [doc_lookup|]. split; [now left|].
    right. right. right. repeat split; doc_lookup.
  - unfold EntryPage.docFor.
    apply String.eqb_neq in Nt. rewrite Nt.
    destruct (String.eqb (EntryPage.entryType f) "expense");
      [|destruct (String.eqb (EntryPage.entryType f) "savings");
        [|destruct (String.eqb (EntryPage.entryType f) "savingsWithdrawal");
          [|destruct (String.eqb (EntryPage.entryType f) "income");
            [|destruct (String.eqb (EntryPage.entryType f) "addLiability");
              [|destruct (String.eqb (EntryPage.entryType f) "payLiability");
                [destruct (String.eqb_spec (EntryPage.liabilityId f) "")
                   as [El|Nl]; [reflexivity|]
                |reflexivity]]]]]];
      (destruct outcome; [|reflexivity]);
      (split; [reflexivity|]); (split; [discriminate|]);
      (split; [reflexivity|]); (split; [doc_lookup|]);
      (split; [doc_lookup|]); (split; [now right|]).
    + left. split; [reflexivity|]. split; [doc_lookup|].
      exists "expense". split; [doc_lookup|]. split; [cbn; tauto|].
      left. discriminate.
    + left. split; [reflexivity|]. split; [doc_lookup|].
      exists (if EntryPage.isOpeningBalance f
              then "openingBalance" else "savings").
      split; [doc_lookup|].
      destruct (EntryPage.isOpeningBalance f);
        (split; [cbn; tauto | left; discriminate]).
    + left. split; [reflexivity|]. split; [doc_lookup|].
      exists "savingsWithdrawal". split; [doc_lookup|].
      split; [cbn; tauto | left; discriminate].
    + right. left. repeat split; doc_lookup.
    + right. right. left. repeat split; doc_lookup.
    + left. split; [reflexivity|]. split; [doc_lookup|].
      exists "liabilityPayment". split; [doc_lookup|].
      split; [cbn; tauto|]. right. split; [exact Nl | doc_lookup].
Qed.

(** X24: a press on Submit reaches the handler only when the required
    inputs of the selected tab are filled.  With an empty amount input
    nothing is added on any tab, the asset tab included, which the
    handler's own check would let pass; and a document is added only for
    a signed-in user, an accepted write, a date and an amount. *)
Theorem entry_form_needs_an_amount user parseFloat wellFormed outcome f :
  (EntryPage.amount f = "" ->
   EntryPage.onSubmit user parseFloat wellFormed outcome f = (f, None))
  /\ (forall added,
        (EntryPage.onSubmit user parseFloat wellFormed outcome f).2
        = Some added ->
        EntryPage.amount f <> "" /\ EntryPage.date f <> ""
        /\ user <> None /\ outcome = Committed
        /\ EntryPage.onSubmit user parseFloat wellFormed outcome f
           = EntryPage.handleSubmit user parseFloat outcome f)
  /\ (forall uid,
        EntryPage.entryType f = "asset" -> EntryPage.amount f = "" ->
        (EntryPage.handleSubmit (Some uid) parseFloat Committed f).2
        <> None).
Proof.
  split; [|split].
  - intros Ha. unfold EntryPage.onSubmit, EntryPage.requiredFilled.
    rewrite Ha. change (String.eqb "" "") with true.
    now rewrite andb_false_r.
  - intros added H. unfold EntryPage.onSubmit in *.
    destruct (EntryPage.requiredFilled f && wellFormed f) eqn:E;
      [|discriminate].
    apply andb_prop in E as [E _]. unfold EntryPage.requiredFilled in E.
    repeat (apply andb_prop in E as [E ?]).
    split; [intros Ha; rewrite Ha in *; discriminate|].
    split; [intros Hd; rewrite Hd in *; discriminate|].
    unfold EntryPage.handleSubmit in H.
    destruct user; [|discriminate].
    split; [discriminate|]. split; [|reflexivity].
    destruct (String.eqb (EntryPage.amount f) ""
              && negb (String.eqb (EntryPage.entryType f) "asset"));
      [discriminate|].
    destruct (EntryPage.docFor parseFloat f), outcome;
      try discriminate; reflexivity.
  - intros uid Ht Ha. unfold EntryPage.handleSubmit, EntryPage.docFor.
    rewrite Ht, Ha.
    change (String.eqb "asset" "expense") with false.
    change (String.eqb "asset" "savings") with false.
    change (String.eqb "asset" "savingsWithdrawal") with false.
    change (String.eqb "asset" "income") with false.
    change (String.eqb "asset" "addLiability") with false.
    change (String.eqb "asset" "payLiability") with false.
    change (String.eqb "asset" "asset") with true.
    change (String.eqb "" "") with true. cbn [andb negb orb snd]. cbv iota.
    cbn [snd]. discriminate.
Qed.

Lemma entry_form_needs_an_amount_witness :
  EntryPage.amount assetForm = ""
  /\ EntryPage.onSubmit (Some "u1") parseDecimal (fun _ => true) Committed
       assetForm
     = (assetForm, None).
Proof.
  split; [reflexivity|].
  exact (proj1 (entry_form_needs_an_amount (Some "u1") parseDecimal
                  (fun _ => true) Committed assetForm) eq_refl).
Defined.

(** ** CSV export *)

Lemma append_assoc (a b c : string) : ((a ++ b) ++ c = a ++ (b ++ c))%string.
Proof.
  induction a as [|x a IH]; [reflexivity|].
  now rewrite !append_cons, IH.
Qed.

Lemma readQuotedBody_escape v rest :
  noQuoteAhead rest ->
  readQuotedBody (escapeQuotes v ++ String quoteChar rest) = Some (v, rest).
Proof.
  intros Hrest. induction v as [|c v IH]; cbn [escapeQuotes].
  - rewrite append_nil_l. cbn [readQuotedBody]. rewrite Ascii.eqb_refl.
    destruct rest as [|c' rest']; [reflexivity|].
    cbn in Hrest. apply Ascii.eqb_neq in Hrest. now rewrite Hrest.
  - destruct (Ascii.eqb_spec c quoteChar) as [-> | Hne].
    + rewrite !append_cons. cbn [readQuotedBody]. rewrite !Ascii.eqb_refl.
      now rewrite IH.
    + rewrite append_cons. cbn [readQuotedBody].
      apply Ascii.eqb_neq in Hne. rewrite Hne. now rewrite IH.
Qed.

Lemma readQuoted_quoted v rest :
  noQuoteAhead rest -> readQuoted (quoted v ++ rest) = Some (v, rest).
Proof.
  intros Hrest. unfold quoted, readQuoted. rewrite append_cons.
  rewrite Ascii.eqb_refl, append_assoc, append_cons, append_nil_l.
  now apply readQuotedBody_escape.
Qed.

Lemma concat_cons2 sep (a b : string) l :
  String.concat sep (a :: b :: l)
  = (a ++ sep ++ String.concat sep (b :: l))%string.
Proof. reflexivity. Qed.

Lemma readFields_quoted vs : forall rest,
  noQuoteAhead rest ->
  readFields (List.length vs)
    (String.concat "," (List.map quoted vs) ++ rest)
  = Some (vs, rest).
Proof.
  induction vs as [|v vs IH]; intros rest Hrest; [reflexivity|].
  destruct vs as [|w vs].
  - cbn [List.length List.map String.concat readFields].
    now rewrite readQuoted_quoted.
  - cbn [List.map]. rewrite concat_cons2.
    change (List.length (v :: w :: vs)) with (S (List.length (w :: vs))).
    cbn [readFields]. rewrite !append_assoc.
    rewrite readQuoted_quoted
      by (rewrite append_cons; cbn; discriminate).
    rewrite append_cons, append_nil_l.
    cbn [List.length]. cbn [List.length List.map] in IH.
    rewrite (IH rest Hrest). reflexivity.
Qed.

(** X25: the export has one line of headers and then one line for every
    income and every transaction, incomes first; each of these lines
    reads back as the seven values of its entry, whatever commas,
    double quotes or line breaks the values contain. *)
Theorem exported_rows_read_back showDate showNumber incomes transactions :
  exists header lines,
    csvRows showDate showNumber incomes transactions = header :: lines
    /\ Forall2
         (fun row line =>
            forall rest,
              noQuoteAhead rest ->
              readFields 7 (line ++ rest)
              = Some (rowValues showDate showNumber row, rest))
         (incomes ++ transactions) lines.
Proof.
  unfold csvRows. eexists. eexists. split; [reflexivity|].
  induction (incomes ++ transactions) as [|row l IH]; cbn [List.map];
    constructor; [|exact IH].
  intros rest Hrest.
  exact (readFields_quoted (rowValues showDate showNumber row) rest Hrest).
Qed.

Lemma exported_rows_read_back_witness :
  let showDate := fun _ : ISODate => "2024-05-03" in
  let showNumber := fun _ : float => "12" in
  exists line,
    csvRows showDate showNumber [] [awkwardExpense]
    = [String.concat "," headers; line]
    /\ noQuoteAhead ""
    /\ readFields 7 (line ++ "")
       = Some (rowValues showDate showNumber awkwardExpense, "").
Proof.
  cbv zeta.
  destruct (exported_rows_read_back (fun _ => "2024-05-03") (fun _ => "12")
              [] [awkwardExpense]) as (header & lines & E & H).
  cbn [app] in H.
  inversion H as [|row line rows lines' Hline Hrest Erow Elines]. subst.
  inversion Hrest. subst.
  exists line. split; [|split; [exact I | exact (Hline "" I)]].
  unfold csvRows in E. cbn [app List.map] in E.
  injection E as <- <-. reflexivity.
Defined.

(** ** CSV import: loading the file *)

(** X19: loading a file is all or nothing.  When every surviving row has
    a date that can be reformatted, the rows are queued for review in
    the order of the file, with their description, debit and credit as
    read, and the review starts at the first; when the date of one row
    cannot be reformatted, nothing is queued and the dialog stays as it
    was. *)
Theorem csv_load_is_all_or_nothing formatDate data s :
  let s' := ImportModal.handleFileChange formatDate data s in
  (Forall (fun row => exists d f, rowDate row = Some d /\ formatDate d = Some f)
     (parsedData data) ->
   ImportModal.currentIndex s' = O
   /\ Forall2
        (fun row shown =>
           rowDescription shown = rowDescription row
           /\ debit shown = debit row /\ credit shown = credit row
           /\ exists d, rowDate row = Some d /\ rowDate shown = formatDate d)
        (parsedData data) (ImportModal.transactionsToReview s'))
  /\ (Exists (fun row => forall d, rowDate row = Some d -> formatDate d = None)
        (parsedData data) ->
      s' = s).
Proof.
  cbv zeta. unfold ImportModal.handleFileChange.
  set (f := fun row : CsvRow =>
              match rowDate row with
              | Some d =>
                  option_map
                    (fun formattedDate =>
                       {| rowDate := Some formattedDate;
                          rowDescription := rowDescription row;
                          debit := debit row; credit := credit row |})
                    (formatDate d)
              | None => None
              end).
  split.
  - intros Hall.
    assert (Hsome : is_Some (mapM f (parsedData data))).
    { apply mapM_is_Some. eapply Forall_impl; [exact Hall|].
      intros row (d & fd & Hd & Hf). subst f. cbn. rewrite Hd, Hf.
      cbn. eauto. }
    destruct Hsome as [rows Hrows]. rewrite Hrows.
    cbn [ImportModal.currentIndex ImportModal.transactionsToReview].
    split; [reflexivity|].
    apply mapM_Some in Hrows.
    eapply Forall2_impl; [exact Hrows|].
    intros row shown Hf. subst f. cbv beta in Hf.
    destruct (rowDate row) as [d|] eqn:Hd; [|discriminate].
    destruct (formatDate d) as [fd|] eqn:Hfd; [|discriminate].
    cbn in Hf. injection Hf as <-. cbn. repeat split.
    exists d. split; [reflexivity | now rewrite Hfd].
  - intros Hex.
    assert (Hnone : mapM f (parsedData data) = None).
    { apply mapM_None. eapply Exists_impl; [exact Hex|].
      intros row Hrow. subst f. cbv beta in *.
      destruct (rowDate row) as [d|]; [|reflexivity].
      now rewrite (Hrow d eq_refl). }
    now rewrite Hnone.
Qed.

Lemma csv_load_is_all_or_nothing_witness :
  let data := [csvHeader; ["01/02/2024"; "Refund"; "-5.00"; ""];
               ["soon"; "Lunch"; "9.50"; ""]] in
  let formatDate :=
    fun d => if String.eqb d "soon" then None else Some "2024-02-01" in
  let s := {| ImportModal.transactionsToReview := [refundRow];
              ImportModal.currentIndex := 1%nat;
              ImportModal.currentTransactionData := None;
              ImportModal.isOpen := true |} in
  Exists (fun row => forall d, rowDate row = Some d -> formatDate d = None)
    (parsedData data)
  /\ ImportModal.handleFileChange formatDate data s = s.
Proof.
  cbv zeta.
  assert (Hex : Exists
                  (fun row =>
                     forall d, rowDate row = Some d ->
                               (if String.eqb d "soon" then None
                                else Some "2024-02-01") = None)
                  (parsedData [csvHeader;
                               ["01/02/2024"; "Refund"; "-5.00"; ""];
                               ["soon"; "Lunch"; "9.50"; ""]])).
  { apply Exists_cons_tl, Exists_cons_hd. intros d Hd.
    injection Hd as <-. reflexivity. }
  split; [exact Hex|].
  exact (proj2 (csv_load_is_all_or_nothing _ _ _) Hex).
Defined.

